(** * The derived-metrics pipeline of the UMR dashboard (app.py)

    app.py is one Streamlit script: it loads a table of (REGION, SALARY,
    YEAR) records, filters it by the sidebar widgets, and derives the tables
    behind each card (top/bottom rankings, year-over-year growth, heatmap,
    gap and ratio to the national row).  This file embeds that data flow,
    stage by stage and in script order, and proves the properties the
    specification states about it.

    What is modelled and how:
    - a DataFrame is the list of its rows, in row order;
    - a float64 cell is a value of [fval]: a rational number, one of the two
      infinities, or NaN (a missing value).  Finite arithmetic is exact (the
      rounding of binary64 and the sign of zero are not modelled); division
      by zero and the missing value behave as in IEEE 754 / pandas.  What is
      proved over [fval] is about which cells are missing, zero or infinite,
      about their signs and about the expression a cell is computed by, none
      of which rounding changes; the values of the growth columns, which
      rounding does change, are computed on binary64 floats in [Binary64];
    - a nullable Int64 cell is an [option Z] ([None] is pd.NA);
    - [str.upper] is a parameter of the development ([str_upper]); the
      closed examples instantiate it with the ASCII upper-casing;
    - a script variable that is bound on one branch only is an [option]
      ([None]: the name was never assigned), and a frame that may lack a
      column is a two-constructor type; reading either raises, as in Python;
    - st.stop() ends the run ([Stop]).

    The KPI cards, the map card and the int() conversions of the ranking
    tables are described after the tables they read.  Loading the table,
    chart construction and the formatting of percentages are not part of the
    model. *)

From Stdlib Require Import String Ascii ZArith QArith Qreduction Bool Lia Lqa.
From Stdlib Require Import OrderedTypeEx DecimalString.
From Stdlib Require Import List Permutation Sorted.
From Stdlib Require Floats.
Import ListNotations.

Set Implicit Arguments.

(* ================================================================== *)
(** ** Numeric cells *)

Module Float.

Inductive fval : Type :=
| NaN
| NInf
| Fin (q : Q)
| PInf.

(** Finite results are kept in lowest terms, so that equal numbers are
    equal terms. *)
Definition fin (q : Q) : fval := Fin (Qred q).

Definition of_Z (z : Z) : fval := fin (inject_Z z).

Definition zero : fval := of_Z 0.
Definition one : fval := of_Z 1.
Definition hundred : fval := of_Z 100.

Definition isna (x : fval) : bool :=
  match x with NaN => true | _ => false end.

Definition is_finite (x : fval) : bool :=
  match x with Fin _ => true | _ => false end.

Definition isinf (x : fval) : bool :=
  match x with PInf | NInf => true | _ => false end.

(** A number other than zero. *)
Definition nonzero_number (x : fval) : bool :=
  match x with Fin q => negb (Qeq_bool q 0) | _ => false end.

(** The infinity whose sign is the sign of [q]; NaN when [q] is zero. *)
Definition signed_inf (q : Q) : fval :=
  match (q ?= 0)%Q with
  | Gt => PInf
  | Lt => NInf
  | Eq => NaN
  end.

Definition fneg (x : fval) : fval :=
  match x with
  | NaN => NaN
  | NInf => PInf
  | PInf => NInf
  | Fin q => fin (- q)
  end.

Definition fadd (x y : fval) : fval :=
  match x, y with
  | NaN, _ | _, NaN => NaN
  | PInf, NInf | NInf, PInf => NaN
  | PInf, _ | _, PInf => PInf
  | NInf, _ | _, NInf => NInf
  | Fin a, Fin b => fin (a + b)
  end.

Definition fsub (x y : fval) : fval :=
  match x, y with
  | NaN, _ | _, NaN => NaN
  | PInf, PInf | NInf, NInf => NaN
  | PInf, _ | _, NInf => PInf
  | NInf, _ | _, PInf => NInf
  | Fin a, Fin b => fin (a - b)
  end.

Definition fmul (x y : fval) : fval :=
  match x, y with
  | NaN, _ | _, NaN => NaN
  | Fin a, Fin b => fin (a * b)
  | Fin a, PInf | PInf, Fin a => signed_inf a
  | Fin a, NInf | NInf, Fin a => signed_inf (- a)
  | PInf, PInf | NInf, NInf => PInf
  | PInf, NInf | NInf, PInf => NInf
  end.

(** Division as numpy does it on float64: a non-zero number over zero is
    an infinity, zero over zero is NaN, nothing raises. *)
Definition fdiv (x y : fval) : fval :=
  match x, y with
  | NaN, _ | _, NaN => NaN
  | Fin a, Fin b => if Qeq_bool b 0 then signed_inf a else fin (a / b)
  | Fin _, PInf | Fin _, NInf => zero
  | PInf, Fin b => if Qle_bool 0 b then PInf else NInf
  | NInf, Fin b => if Qle_bool 0 b then NInf else PInf
  | PInf, PInf | PInf, NInf | NInf, PInf | NInf, NInf => NaN
  end.

(** Comparisons; every comparison with NaN is false. *)
Definition fltb (x y : fval) : bool :=
  match x, y with
  | NaN, _ | _, NaN => false
  | _, NInf => false
  | NInf, _ => true
  | PInf, _ => false
  | Fin _, PInf => true
  | Fin a, Fin b => negb (Qle_bool b a)
  end.

Definition fgtb (x y : fval) : bool := fltb y x.

Definition feqb (x y : fval) : bool :=
  match x, y with
  | NInf, NInf | PInf, PInf => true
  | Fin a, Fin b => Qeq_bool a b
  | _, _ => false
  end.

Definition fleb (x y : fval) : bool := fltb x y || feqb x y.

(** The sum and the mean of a list of cells. *)
Definition fsum (l : list fval) : fval := fold_left fadd l zero.

Definition fmean (l : list fval) : fval :=
  fdiv (fsum l) (of_Z (Z.of_nat (length l))).

End Float.
Import Float.

(* ================================================================== *)
(** ** Tables *)

(** One record of the table returned by [load_data]: REGION is a stripped
    string, YEAR a nullable integer, SALARY a float (NaN when the cell did
    not parse). *)
Record row : Type := mk_row {
  REGION : string;
  SALARY : fval;
  YEAR : option Z
}.

Definition DataFrame : Type := list row.

(** [frame.empty] *)
Definition empty {A : Type} (t : list A) : bool :=
  match t with [] => true | _ :: _ => false end.

(** Comparisons of the YEAR column with a Python int; pd.NA compares to
    pd.NA, which a boolean mask treats as False. *)
Definition year_eq (r : row) (y : Z) : bool :=
  match YEAR r with Some v => (v =? y)%Z | None => false end.

Definition year_ge (r : row) (y : Z) : bool :=
  match YEAR r with Some v => (y <=? v)%Z | None => false end.

Definition year_le (r : row) (y : Z) : bool :=
  match YEAR r with Some v => (v <=? y)%Z | None => false end.

(** [df["REGION"].isin(values)] *)
Definition isin (values : list string) (r : row) : bool :=
  existsb (String.eqb (REGION r)) values.

(** [Series.unique()]: the distinct values in order of first appearance. *)
Fixpoint unique {A : Type} (eqb : A -> A -> bool) (seen : list A) (l : list A) : list A :=
  match l with
  | [] => []
  | x :: rest =>
      if existsb (eqb x) seen then unique eqb seen rest
      else x :: unique eqb (x :: seen) rest
  end.

(** ASCII upper-casing, the instance of [str.upper] used by the closed
    examples. *)
Definition ascii_upper_char (c : ascii) : ascii :=
  let n := nat_of_ascii c in
  if (97 <=? n)%nat && (n <=? 122)%nat then ascii_of_nat (n - 32) else c.

Fixpoint ascii_upper (s : string) : string :=
  match s with
  | EmptyString => EmptyString
  | String c rest => String (ascii_upper_char c) (ascii_upper rest)
  end.

(* ================================================================== *)
(** ** Ordering rows: sort_values, nlargest, nsmallest *)

Section Ordering.

Variable A : Type.
(** [before a b]: [a] may stand before [b] when [a] came first in the
    frame. *)
Variable before : A -> A -> bool.

Fixpoint insert_sorted (x : A) (l : list A) : list A :=
  match l with
  | [] => [x]
  | y :: ys => if before x y then x :: y :: ys else y :: insert_sorted x ys
  end.

(** A stable sort: rows that compare equal keep their frame order. *)
Fixpoint sort_by (l : list A) : list A :=
  match l with
  | [] => []
  | x :: rest => insert_sorted x (sort_by rest)
  end.

(** The best row of [x :: rest] (its first occurrence, keep="first") and
    the other rows in frame order. *)
Fixpoint pick_best (x : A) (rest : list A) : A * list A :=
  match rest with
  | [] => (x, [])
  | y :: ys =>
      let (m, others) := pick_best y ys in
      if before x m then (x, rest) else (m, x :: others)
  end.

(** The [n] best rows, best first. *)
Fixpoint select_n (n : nat) (t : list A) : list A :=
  match n, t with
  | S n', x :: rest =>
      let (m, others) := pick_best x rest in m :: select_n n' others
  | _, _ => []
  end.

End Ordering.

(** Rank of two cells of the ranked column; a missing value ranks last in
    both directions. *)
Definition desc_before (x y : fval) : bool :=
  isna y || (negb (isna x) && fleb y x).

Definition asc_before (x y : fval) : bool :=
  isna y || (negb (isna x) && fleb x y).

(** [frame.nlargest(n, column)] and [frame.nsmallest(n, column)] *)
Definition nlargest {A : Type} (n : nat) (column : A -> fval) (t : list A) : list A :=
  select_n (fun a b => desc_before (column a) (column b)) n t.

Definition nsmallest {A : Type} (n : nat) (column : A -> fval) (t : list A) : list A :=
  select_n (fun a b => asc_before (column a) (column b)) n t.

(** [frame.sort_values(column, ascending=...)], as the specification words
    the ranking. *)
Definition sort_values {A : Type} (column : A -> fval) (ascending : bool) (t : list A) : list A :=
  sort_by (fun a b => if ascending then asc_before (column a) (column b)
                      else desc_before (column a) (column b)) t.

(** [frame.head(n)] *)
Definition head {A : Type} (n : nat) (t : list A) : list A := firstn n t.

(* ================================================================== *)
(** ** The sidebar *)

(** The state of the sidebar widgets for one run of the script.
    [multiselect] is what the province multiselect returns; it is read only
    when the "Select All" box is unticked. *)
Record FilterSelection : Type := mk_selection {
  year_from : Z;
  year_to : Z;
  select_all : bool;
  multiselect : list string;
  include_indonesia : bool;
  top_bottom_n : nat
}.

(** The same widgets with the "Show National Average" box set to [b]. *)
Definition with_include_indonesia (b : bool) (sel : FilterSelection) : FilterSelection :=
  {| year_from := year_from sel;
     year_to := year_to sel;
     select_all := select_all sel;
     multiselect := multiselect sel;
     include_indonesia := b;
     top_bottom_n := top_bottom_n sel |}.

(* ================================================================== *)
(** ** Frames with derived columns *)

(** growth_filtered after PCT_CHANGE and NOMINAL_CHANGE were added. *)
Record growth_row : Type := mk_growth {
  g_base : row;
  PCT_CHANGE : fval;
  NOMINAL_CHANGE : fval
}.

Module GapFrame.
(** df_gap after the merge, with GAP and STATUS. *)
Record t : Type := mk {
  base : row;
  SALARY_NATIONAL : fval;
  GAP : fval;
  STATUS : string
}.
End GapFrame.

Module RatioFrame.
(** df_ratio after the merge, with RATIO and STATUS. *)
Record t : Type := mk {
  base : row;
  SALARY_NATIONAL : fval;
  RATIO : fval;
  STATUS : string
}.
End RatioFrame.

(** A frame that has its derived columns only when the card's [else]
    branch ran: [Plain] is the frame as filtered from df_year. *)
Inductive frame (A : Type) : Type :=
| Plain (rows : list row)
| Derived (rows : list A).

Arguments Plain {A} rows.
Arguments Derived {A} rows.

(** [merge(national[["YEAR", "SALARY"]], on="YEAR", how="left")]: every left
    row once per national row of its year, in order; a left row without a
    national row of its year once, with a missing SALARY_NATIONAL. *)
Definition same_year (a b : row) : bool :=
  match YEAR a, YEAR b with
  | Some x, Some y => (x =? y)%Z
  | None, None => true
  | _, _ => false
  end.

Definition merge_left (left national : list row) : list (row * fval) :=
  flat_map
    (fun r =>
       match filter (same_year r) national with
       | [] => [(r, NaN)]
       | matches => map (fun m => (r, SALARY m)) matches
       end)
    left.

Definition gap_status (x : fval) : string :=
  if fgtb x zero then "Above National Average"
  else if feqb x zero then "Equal to National Average"
  else "Below National Average".

Definition ratio_status (x : fval) : string :=
  if fgtb x hundred then "Above National Average"
  else if feqb x hundred then "Equal to National Average"
  else "Below National Average".

Definition add_gap (p : row * fval) : GapFrame.t :=
  let gap := fsub (SALARY (fst p)) (snd p) in
  GapFrame.mk (fst p) (snd p) gap (gap_status gap).

Definition add_ratio (p : row * fval) : RatioFrame.t :=
  let ratio := fmul (fdiv (SALARY (fst p)) (snd p)) hundred in
  RatioFrame.mk (fst p) (snd p) ratio (ratio_status ratio).

(* ------------------------------------------------------------------ *)
(** *** Year-over-year change *)

(** [sort_values(["REGION", "YEAR"])]: by region (code-point order), then
    by year, a missing year last. *)
Definition region_year_before (a b : row) : bool :=
  match String.compare (REGION a) (REGION b) with
  | Lt => true
  | Gt => false
  | Eq =>
      match YEAR a, YEAR b with
      | Some x, Some y => (x <=? y)%Z
      | Some _, None => true
      | None, Some _ => false
      | None, None => true
      end
  end.

(** [groupby("REGION")["SALARY"].shift()]: the salary of the previous row of
    the same region, missing for the first row of a region.  [seen] maps a
    region to the salary of its latest row so far. *)
Fixpoint shifted (seen : list (string * fval)) (region : string) : fval :=
  match seen with
  | [] => NaN
  | (r, s) :: rest => if String.eqb r region then s else shifted rest region
  end.

(** One cell of [groupby("REGION")["SALARY"].pct_change() * 100], which
    pandas computes as [salary / shifted - 1], and one cell of
    [groupby("REGION")["SALARY"].diff()]; without rounding here, with it in
    [Binary64.pct_change_cell]. *)
Definition pct_change_cell (s prev : fval) : fval :=
  fmul (fsub (fdiv s prev) one) hundred.

Definition diff_cell (s prev : fval) : fval := fsub s prev.

(** The two derived columns, row by row. *)
Fixpoint with_changes (seen : list (string * fval)) (rows : list row) : list growth_row :=
  match rows with
  | [] => []
  | r :: rest =>
      let prev := shifted seen (REGION r) in
      mk_growth r (pct_change_cell (SALARY r) prev) (diff_cell (SALARY r) prev)
      :: with_changes ((REGION r, SALARY r) :: seen) rest
  end.

(** The rows of one region in a frame. *)
Definition region_group (region : string) (t : list growth_row) : list growth_row :=
  filter (fun g => String.eqb (REGION (g_base g)) region) t.

(* ------------------------------------------------------------------ *)
(** *** Heatmap pivot *)

Definition key_eqb (a b : string * Z) : bool :=
  String.eqb (fst a) (fst b) && (snd a =? snd b)%Z.

(** One more observation [s] for the group [k]. *)
Fixpoint add_obs (k : string * Z) (s : fval) (acc : list ((string * Z) * (fval * nat)))
  : list ((string * Z) * (fval * nat)) :=
  match acc with
  | [] => [(k, (fadd zero s, 1%nat))]
  | (k', (total, n)) :: rest =>
      if key_eqb k k' then (k', (fadd total s, S n)) :: rest
      else (k', (total, n)) :: add_obs k s rest
  end.

(** [groupby(["REGION", "YEAR"])]: per (region, year) the sum and the number
    of its salaries; a missing salary is skipped by the aggregation and a
    missing year is no group key. *)
Definition group_sums (rows : list row) : list ((string * Z) * (fval * nat)) :=
  fold_left
    (fun acc r =>
       match YEAR r with
       | None => acc
       | Some y => if isna (SALARY r) then acc else add_obs (REGION r, y) (SALARY r) acc
       end)
    rows [].

(** [.agg("mean")]: the mean of every group. *)
Definition group_means (rows : list row) : list ((string * Z) * fval) :=
  map (fun ks => (fst ks, fdiv (fst (snd ks)) (of_Z (Z.of_nat (snd (snd ks))))))
    (group_sums rows).

(** pivot_table's [dropna]: a group whose mean is missing gives no label. *)
Definition kept_groups (rows : list row) : list (string * Z) :=
  map fst (filter (fun km => negb (isna (snd km))) (group_means rows)).

Fixpoint lookup_mean (k : string * Z) (means : list ((string * Z) * fval)) : option fval :=
  match means with
  | [] => None
  | (k', m) :: rest => if key_eqb k k' then Some m else lookup_mean k rest
  end.

(** A region x year matrix, addressed by its labels. *)
Definition matrix : Type := list (string * list (Z * fval)).

(** [pivot_table(index="REGION", columns="YEAR", values="SALARY",
    aggfunc="mean").fillna(0)], then [sort_index()]: the labels are those of
    the kept groups, sorted; a cell without a mean is filled with 0. *)
Definition pivot_index (rows : list row) : list string :=
  sort_by String.leb (unique String.eqb [] (map fst (kept_groups rows))).

Definition pivot_columns (rows : list row) : list Z :=
  sort_by Z.leb (unique Z.eqb [] (map snd (kept_groups rows))).

Definition pivot_cell (rows : list row) (region : string) (year : Z) : fval :=
  match lookup_mean (region, year) (group_means rows) with
  | Some m => if isna m then zero else m
  | None => zero
  end.

Definition pivot_table (rows : list row) : matrix :=
  map (fun region =>
         (region, map (fun year => (year, pivot_cell rows region year)) (pivot_columns rows)))
    (pivot_index rows).

(** All the salaries of the records that share a (region, year) pair. *)
Definition cell_salaries (rows : list row) (region : string) (year : Z) : list fval :=
  map SALARY (filter (fun r => String.eqb (REGION r) region && year_eq r year) rows).

(** The sum and count a group holds after some observations were added to
    [start]. *)
Definition add_all (l : list fval) (start : option (fval * nat)) : option (fval * nat) :=
  fold_left
    (fun o s =>
       Some (match o with
             | None => (fadd zero s, 1%nat)
             | Some (total, n) => (fadd total s, S n)
             end))
    l start.

Fixpoint lookup_sum (k : string * Z) (acc : list ((string * Z) * (fval * nat)))
  : option (fval * nat) :=
  match acc with
  | [] => None
  | (k', v) :: rest => if key_eqb k k' then Some v else lookup_sum k rest
  end.



(* ================================================================== *)
(** ** Running the script *)

Inductive exn : Type :=
| NameError (name : string)
| KeyError (column : string).

(** How a run of the script ends: it reaches the footer with a value, it
    calls st.stop() after a warning, or an exception escapes. *)
Inductive run (A : Type) : Type :=
| Done (a : A)
| Stop (warning : string)
| Raise (e : exn).

Arguments Done {A} a.
Arguments Stop {A} warning.
Arguments Raise {A} e.

Definition bind {A B : Type} (m : run A) (k : A -> run B) : run B :=
  match m with
  | Done a => k a
  | Stop w => Stop w
  | Raise e => Raise e
  end.

Notation "x <- m ;; k" := (bind m (fun x => k))
  (at level 61, m at next level, right associativity).

(** Reading a variable of the script. *)
Definition read {A : Type} (name : string) (v : option A) : run A :=
  match v with
  | Some a => Done a
  | None => Raise (NameError name)
  end.

(** What a run hands to the cards.  [None] stands for the card's
    "no data" message. *)
Record View : Type := mk_view {
  v_top_df : list row;
  v_bot_df : list row;
  v_pct_df : list growth_row;
  v_top_pct : option (list growth_row * list growth_row);
  v_heat_data : option matrix;
  v_df_gap : frame GapFrame.t;
  v_top_gap : option (list GapFrame.t * list GapFrame.t);
  v_df_ratio : frame RatioFrame.t;
  v_top_ratio : list RatioFrame.t;
  v_bot_ratio : list RatioFrame.t
}.

Section Dashboard.

(** [str.upper] *)
Variable str_upper : string -> string.

Variable df : DataFrame.
Variable sel : FilterSelection.

(** [df["REGION"].str.upper() == "INDONESIA"] *)
Definition is_indonesia (r : row) : bool :=
  String.eqb (str_upper (REGION r)) "INDONESIA".

(** Lines 85-94 and 109-110: the provinces of the table, and the selection
    in force (an empty selection means every province). *)
Definition prov_list : list string :=
  sort_by String.leb
    (unique String.eqb [] (map REGION (filter (fun r => negb (is_indonesia r)) df))).

Definition selected_prov : list string :=
  let picked := if select_all sel then prov_list else multiselect sel in
  if empty picked then prov_list else picked.

(** Lines 100-104: the year filter and its two branches. *)
Definition df_year_exact (y : Z) : DataFrame :=
  filter (fun r => year_eq r y) df.

Definition df_year_range (lo hi : Z) : DataFrame :=
  filter (fun r => year_ge r lo && year_le r hi) df.

Definition df_year : DataFrame :=
  if (year_from sel =? year_to sel)%Z then df_year_exact (year_from sel)
  else df_year_range (year_from sel) (year_to sel).

(** Lines 107-113. *)
Definition df_national : DataFrame := filter is_indonesia df_year.

Definition df_prov : DataFrame :=
  filter (fun r => negb (is_indonesia r)) (filter (isin selected_prov) df_year).

(** Lines 255-266: top and bottom by actual value. *)
Definition prov_filtered : DataFrame :=
  filter
    (fun r =>
       year_ge r (year_from sel) && year_le r (year_to sel)
       && isin (selected_prov ++ ["INDONESIA"%string]) r)
    df.

(** Lines 366-384: the growth table.  [pct_df] is assigned on the [else]
    branch only.  pandas before 3.0 forward-fills missing salaries inside
    pct_change; a row reaches pct_df only when its NOMINAL_CHANGE is present,
    that is when its salary and the previous one are, and on such rows the
    filled and the unfilled computation agree. *)
Definition growth_filtered : DataFrame :=
  let base :=
    filter
      (fun r =>
         year_ge r (year_from sel - 1) && year_le r (year_to sel) && isin selected_prov r)
      df in
  if include_indonesia sel then
    base ++ filter
              (fun r =>
                 is_indonesia r && year_ge r (year_from sel - 1) && year_le r (year_to sel))
              df
  else base.

Definition growth_table : list growth_row :=
  with_changes [] (sort_by region_year_before growth_filtered).

Definition pct_df : option (list growth_row) :=
  if empty growth_filtered then None
  else
    Some (filter
            (fun g =>
               year_ge (g_base g) (year_from sel)
               && negb (isna (PCT_CHANGE g)) && negb (isna (NOMINAL_CHANGE g)))
            growth_table).

(** Lines 441-447: top and bottom by percentage increase. *)
Definition rank_growth (t : list growth_row) : option (list growth_row * list growth_row) :=
  if empty t then None
  else Some (nlargest (top_bottom_n sel) PCT_CHANGE t,
             nsmallest (top_bottom_n sel) PCT_CHANGE t).

(** Lines 540-556: the heatmap. *)
Definition heatmap_regions : list string :=
  if include_indonesia sel then selected_prov ++ ["INDONESIA"%string] else selected_prov.

Definition df_heat : DataFrame := filter (isin heatmap_regions) df_year.

Definition heat_data : option matrix :=
  if empty df_heat then None else Some (pivot_table df_heat).

(** Lines 579-595: gap to the national row of the same year. *)
Definition df_national_avg : DataFrame := filter is_indonesia df_year.

Definition df_gap : frame GapFrame.t :=
  let regional := filter (isin selected_prov) df_year in
  if empty regional || empty df_national_avg then Plain regional
  else Derived (map add_gap (merge_left regional df_national_avg)).

(** Lines 658-663: top and bottom gap. *)
Definition in_range (r : row) : bool :=
  year_ge r (year_from sel) && year_le r (year_to sel).

Definition rank_gap : run (option (list GapFrame.t * list GapFrame.t)) :=
  match df_gap with
  | Plain rows =>
      if empty (filter in_range rows) then Done None else Raise (KeyError "GAP")
  | Derived rows =>
      let df_gap_filtered := filter (fun g => in_range (GapFrame.base g)) rows in
      if empty df_gap_filtered then Done None
      else Done (Some (nlargest (top_bottom_n sel) GapFrame.GAP df_gap_filtered,
                       nsmallest (top_bottom_n sel) GapFrame.GAP df_gap_filtered))
  end.

(** Lines 731-748: ratio to the national row of the same year. *)
Definition df_ratio : frame RatioFrame.t :=
  let regional := filter (isin selected_prov) df_year in
  if empty regional || empty df_national_avg then Plain regional
  else Derived (map add_ratio (merge_left regional df_national_avg)).

(** Lines 822-830: [top_ratio] and [bot_ratio] are assigned on the [else]
    branch only. *)
Definition rank_ratio : run (option (list RatioFrame.t * list RatioFrame.t)) :=
  match df_ratio with
  | Plain rows =>
      if empty (filter in_range rows) then Done None else Raise (KeyError "RATIO")
  | Derived rows =>
      let df_ratio_filtered := filter (fun g => in_range (RatioFrame.base g)) rows in
      if empty df_ratio_filtered then Done None
      else Done (Some (nlargest (top_bottom_n sel) RatioFrame.RATIO df_ratio_filtered,
                       nsmallest (top_bottom_n sel) RatioFrame.RATIO df_ratio_filtered))
  end.

(** The frames and the variables of the script from the year filter to the
    footer: the two stops, and the rankings with the names and columns they
    read.  The cards drawn on the way (the KPI cards and the map card of lines
    119-249, and the tables of each ranking) convert cells with int() and can
    raise on their own; they are [kpi_cards], [tooltip_data],
    [show_ranking] and [show_gap_ranking] below and are not part of this
    run. *)
Definition dashboard : run View :=
  if empty df_year then Stop "No data available for the selected year range"
  else if empty prov_filtered then Stop "No data matching the filters"
  else
    let top_df := nlargest (top_bottom_n sel) SALARY prov_filtered in
    let bot_df := nsmallest (top_bottom_n sel) SALARY prov_filtered in
    (* line 441 reads pct_df whichever branch ran *)
    growth <- read "pct_df" pct_df ;;
    let top_pct := rank_growth growth in
    top_gap <- rank_gap ;;
    ranked <- rank_ratio ;;
    (* lines 838 and 879 read top_ratio and bot_ratio whichever branch ran *)
    top_ratio <- read "top_ratio" (option_map fst ranked) ;;
    bot_ratio <- read "bot_ratio" (option_map snd ranked) ;;
    Done (mk_view top_df bot_df growth top_pct heat_data df_gap top_gap
            df_ratio top_ratio bot_ratio).

End Dashboard.

(* ================================================================== *)
(** ** Narrowing a selection *)

(** [narrowed df narrow wide]: the year range of [narrow] lies inside that of
    [wide], and the provinces are either the same widgets or an explicit,
    non-empty pick among the provinces in force for [wide]. *)
Definition narrowed (str_upper : string -> string) (df : DataFrame) (narrow wide : FilterSelection) : Prop :=
  (year_from wide <= year_from narrow)%Z
  /\ (year_to narrow <= year_to wide)%Z
  /\ ((select_all narrow = select_all wide /\ multiselect narrow = multiselect wide)
      \/ (select_all narrow = false
          /\ multiselect narrow <> []
          /\ incl (multiselect narrow) (selected_prov str_upper df wide))).

(* ================================================================== *)
(** ** Example tables *)

Local Open Scope string_scope.

Definition salary (z : Z) : fval := of_Z z.

(** Regions A:5, B:3, C:8, D:1 in one year. *)
Definition ranking_table : DataFrame :=
  [ mk_row "A" (salary 5) (Some 2024%Z);
    mk_row "B" (salary 3) (Some 2024%Z);
    mk_row "C" (salary 8) (Some 2024%Z);
    mk_row "D" (salary 1) (Some 2024%Z) ].

(** A national row and two provinces over two years. *)
Definition small_table : DataFrame :=
  [ mk_row "INDONESIA" (salary 2800000) (Some 2023%Z);
    mk_row "INDONESIA" (salary 3000000) (Some 2024%Z);
    mk_row "Jakarta" (salary 4900000) (Some 2023%Z);
    mk_row "Jakarta" (salary 5100000) (Some 2024%Z);
    mk_row "Bali" (salary 2700000) (Some 2023%Z);
    mk_row "Bali" (salary 2800000) (Some 2024%Z) ].

(** One region with salaries 100, 110, 121 over three consecutive years. *)
Definition growth_example : DataFrame :=
  [ mk_row "X" (salary 100) (Some 2020%Z);
    mk_row "X" (salary 110) (Some 2021%Z);
    mk_row "X" (salary 121) (Some 2022%Z) ].

Definition jakarta_2024 : row := mk_row "Jakarta" (salary 5100000) (Some 2024%Z).
Definition indonesia_2024 : row := mk_row "INDONESIA" (salary 3000000) (Some 2024%Z).

(** The national row of 2024 is absent. *)
Definition gappy_table : DataFrame :=
  [ mk_row "INDONESIA" (salary 2800000) (Some 2023%Z);
    mk_row "Jakarta" (salary 4900000) (Some 2023%Z);
    jakarta_2024;
    mk_row "Bali" (salary 2700000) (Some 2023%Z) ].

(** A national salary of zero in 2024. *)
Definition zero_national_table : DataFrame :=
  [ mk_row "INDONESIA" (salary 2800000) (Some 2023%Z);
    mk_row "INDONESIA" (salary 0) (Some 2024%Z);
    mk_row "Jakarta" (salary 4900000) (Some 2023%Z);
    jakarta_2024;
    mk_row "Bali" (salary 2700000) (Some 2023%Z) ].

(** A prior-year salary of zero for Jakarta. *)
Definition zero_prior_table : DataFrame :=
  [ mk_row "INDONESIA" (salary 2800000) (Some 2023%Z);
    indonesia_2024;
    mk_row "Jakarta" (salary 0) (Some 2023%Z);
    jakarta_2024;
    mk_row "Bali" (salary 2700000) (Some 2023%Z) ].

(** Province X has no record near 2020; province Y and the national row
    have one. *)
Definition sparse_table : DataFrame :=
  [ mk_row "INDONESIA" (salary 100) (Some 2020%Z);
    mk_row "X" (salary 50) (Some 2010%Z);
    mk_row "Y" (salary 70) (Some 2020%Z) ].

(** No national row at all in 2020. *)
Definition no_national_table : DataFrame :=
  [ mk_row "INDONESIA" (salary 90) (Some 2019%Z);
    mk_row "Y" (salary 60) (Some 2019%Z);
    mk_row "Y" (salary 70) (Some 2020%Z);
    mk_row "Z" (salary 80) (Some 2020%Z) ].


(** The national salary of 2024 is missing; three provinces. *)
Definition missing_national_table : DataFrame :=
  [ mk_row "INDONESIA" (salary 2800000) (Some 2023%Z);
    mk_row "INDONESIA" NaN (Some 2024%Z);
    jakarta_2024;
    mk_row "Bali" (salary 2700000) (Some 2023%Z);
    mk_row "Papua" (salary 2600000) (Some 2023%Z) ].

(** Bali has records and no salary. *)
Definition missing_province_table : DataFrame :=
  [ mk_row "INDONESIA" (salary 2800000) (Some 2023%Z);
    indonesia_2024;
    mk_row "Jakarta" (salary 4900000) (Some 2023%Z);
    jakarta_2024;
    mk_row "Bali" NaN (Some 2023%Z);
    mk_row "Bali" NaN (Some 2024%Z) ].


Definition all_provinces (lo hi : Z) (national : bool) (n : nat) : FilterSelection :=
  mk_selection lo hi true [] national n.

Definition only (provinces : list string) (lo hi : Z) (national : bool) (n : nat)
  : FilterSelection :=
  mk_selection lo hi false provinces national n.

(* ================================================================== *)
(** ** Text shown on the cards *)

(** What a conversion or a lookup raises while a card is drawn.
    [NoValidLabel] stands for idxmax/idxmin over a column without any value:
    pandas 3 raises ValueError there, earlier versions return NaN and the
    [.loc] that follows raises KeyError. *)
Inductive py_error : Type :=
| ValueError
| OverflowError
| TypeError
| NoValidLabel.

Inductive result (A : Type) : Type :=
| Ok (a : A)
| Error (e : py_error).

Arguments Ok {A} a.
Arguments Error {A} e.

Definition and_then {A B : Type} (m : result A) (k : A -> result B) : result B :=
  match m with
  | Ok a => k a
  | Error e => Error e
  end.

(** [int(x)] on a float: truncation towards zero; NaN raises ValueError
    and an infinity OverflowError. *)
Definition python_int (x : fval) : result Z :=
  match x with
  | NaN => Error ValueError
  | PInf | NInf => Error OverflowError
  | Fin q => Ok (Z.quot (Qnum q) (Z.pos (Qden q)))
  end.

(** [int(y)] on a cell of the nullable YEAR column. *)
Definition python_int_year (y : option Z) : result Z :=
  match y with
  | Some v => Ok v
  | None => Error TypeError
  end.

(** [str(n)] *)
Definition decimal (n : Z) : string := NilZero.string_of_int (Z.to_int n).

(** The digits of a number, last digit first, with a comma after every
    third digit that has a successor; [k] digits of the running group were
    already written. *)
Fixpoint commas_rev (k : nat) (digits : list ascii) : list ascii :=
  match digits with
  | [] => []
  | d :: rest =>
      if (k =? 3)%nat then ","%char :: d :: commas_rev 1 rest
      else d :: commas_rev (S k) rest
  end.

(** [f"{n:,}"] *)
Definition with_commas (n : Z) : string :=
  let digits := list_ascii_of_string (NilZero.string_of_uint (N.to_uint (Z.abs_N n))) in
  let grouped := string_of_list_ascii (rev (commas_rev 0 (rev digits))) in
  if (n <? 0)%Z then String "-"%char grouped else grouped.

(** [f"Rp {int(x):,}"] *)
Definition rupiah (x : fval) : result string :=
  and_then (python_int x) (fun n => Ok (String.append "Rp " (with_commas n))).

(** [f"{x['REGION']} ({int(x['YEAR'])})"] *)
Definition region_year_label (region : string) (year : option Z) : result string :=
  and_then (python_int_year year)
    (fun y => Ok (String.append region (String.append " (" (String.append (decimal y) ")")))).

(** [column.apply(f)]: the cells in row order, up to the first that raises. *)
Fixpoint apply_column {A B : Type} (f : A -> result B) (cells : list A) : result (list B) :=
  match cells with
  | [] => Ok []
  | c :: rest =>
      and_then (f c) (fun b => and_then (apply_column f rest) (fun bs => Ok (b :: bs)))
  end.

(* ------------------------------------------------------------------ *)
(** *** The KPI cards (lines 125-170) *)

(** [column.idxmax()] followed by [frame.loc[...]]: the first row that holds
    the largest value of the SALARY column, missing values skipped. *)
Definition idxmax (t : list row) : option row :=
  fold_left
    (fun best r =>
       if isna (SALARY r) then best
       else match best with
            | None => Some r
            | Some b => if fltb (SALARY b) (SALARY r) then Some r else best
            end)
    t None.

Definition idxmin (t : list row) : option row :=
  fold_left
    (fun best r =>
       if isna (SALARY r) then best
       else match best with
            | None => Some r
            | Some b => if fltb (SALARY r) (SALARY b) then Some r else best
            end)
    t None.

(** What [st.metric] is given. *)
Inductive card : Type :=
| Metric (label value delta : string)
| NotAvailable (label : string).

(** One national card: the row picked by [pick], its salary as the value
    and its year as the delta. *)
Definition national_card (label : string) (pick : list row -> option row)
           (t : list row) : result card :=
  if empty t then Ok (NotAvailable label)
  else
    match pick t with
    | None => Error NoValidLabel
    | Some r =>
        and_then (rupiah (SALARY r))
          (fun value =>
             and_then (python_int_year (YEAR r))
               (fun y => Ok (Metric label value (String.append "Year " (decimal y)))))
    end.

(** One provincial card: the delta names the region and the year. *)
Definition provincial_card (label : string) (pick : list row -> option row)
           (t : list row) : result card :=
  if empty t then Ok (NotAvailable label)
  else
    match pick t with
    | None => Error NoValidLabel
    | Some r =>
        and_then (rupiah (SALARY r))
          (fun value =>
             and_then (region_year_label (REGION r) (YEAR r))
               (fun delta => Ok (Metric label value delta)))
    end.

(* ------------------------------------------------------------------ *)
(** *** The ranking tables as displayed *)

(** Lines 268-286 and 324-328: the LABEL column, then the table with its
    SALARY column as text. *)
Record shown_row : Type := mk_shown {
  shown_region : string;
  shown_salary : string;
  shown_year : option Z;
  shown_label : string
}.

Definition show_ranking (t : list row) : result (list shown_row) :=
  and_then (apply_column (fun r => region_year_label (REGION r) (YEAR r)) t)
    (fun labels =>
       and_then (apply_column (fun r => rupiah (SALARY r)) t)
         (fun salaries =>
            Ok (map (fun p => mk_shown (REGION (fst (fst p))) (snd p) (YEAR (fst (fst p)))
                                (snd (fst p)))
                  (combine (combine t labels) salaries)))).

(** Lines 665-679 and 699-706: the LABEL column, then GAP, SALARY and
    SALARY_NATIONAL as text, column by column. *)
Record shown_gap : Type := mk_shown_gap {
  shown_gap_region : string;
  shown_gap_year : option Z;
  shown_gap_gap : string;
  shown_gap_salary : string;
  shown_gap_national : string;
  shown_gap_label : string
}.

Definition show_gap_ranking (t : list GapFrame.t) : result (list shown_gap) :=
  and_then
    (apply_column
       (fun g => region_year_label (REGION (GapFrame.base g)) (YEAR (GapFrame.base g))) t)
    (fun labels =>
       and_then (apply_column (fun g => rupiah (GapFrame.GAP g)) t)
         (fun gaps =>
            and_then (apply_column (fun g => rupiah (SALARY (GapFrame.base g))) t)
              (fun salaries =>
                 and_then (apply_column (fun g => rupiah (GapFrame.SALARY_NATIONAL g)) t)
                   (fun nationals =>
                      Ok (map (fun p =>
                                 let g := fst (fst (fst (fst p))) in
                                 mk_shown_gap (REGION (GapFrame.base g))
                                   (YEAR (GapFrame.base g))
                                   (snd (fst (fst p))) (snd (fst p)) (snd p)
                                   (snd (fst (fst (fst p)))))
                            (combine (combine (combine (combine t labels) gaps) salaries)
                               nationals)))))).

(* ------------------------------------------------------------------ *)
(** *** The sidebar widgets (lines 78-98) *)

(** The values of the YEAR column; [min()] and [max()] skip pd.NA. *)
Definition known_years (df : DataFrame) : list Z :=
  flat_map (fun r => match YEAR r with Some y => [y] | None => [] end) df.

(** [int(df["YEAR"].min()), int(df["YEAR"].max())]; without any year the
    conversion raises and no sidebar is drawn. *)
Definition year_bounds (df : DataFrame) : option (Z * Z) :=
  match known_years df with
  | [] => None
  | y :: ys => Some (fold_left Z.min ys y, fold_left Z.max ys y)
  end.

Section Cards.

Variable str_upper : string -> string.
Variable df : DataFrame.
Variable sel : FilterSelection.

Definition total_prov : nat := length (prov_list str_upper df).

(** The widgets as the script first draws them: the last year alone, every
    province, the national average shown, and up to five rows per ranking.
    What Streamlit itself does with a slider whose two bounds coincide is
    outside the script and is not described here. *)
Definition default_selection : option FilterSelection :=
  match year_bounds df with
  | None => None
  | Some (_, max_year) =>
      Some (mk_selection max_year max_year true [] true
              (Nat.min 5 (Nat.max 1 total_prov)))
  end.

(** What the widgets can return: a year range inside the years of the
    table, a pick among the options of the multiselect, and a number of rows
    inside the bounds of its slider. *)
Definition reachable : Prop :=
  exists min_year max_year,
    year_bounds df = Some (min_year, max_year)
    /\ (min_year <= year_from sel)%Z
    /\ (year_from sel <= year_to sel)%Z
    /\ (year_to sel <= max_year)%Z
    /\ (select_all sel = false -> incl (multiselect sel) (prov_list str_upper df))
    /\ (1 <= top_bottom_n sel <= Nat.max 1 total_prov)%nat.

(** Lines 125-170, in script order. *)
Definition kpi_cards : result (card * card * card * card) :=
  and_then (national_card "Highest National Average UMR" idxmax
              (df_national str_upper df sel))
    (fun k1 =>
       and_then (national_card "Lowest National Average UMR" idxmin
                   (df_national str_upper df sel))
         (fun k2 =>
            and_then (provincial_card "Highest Provincial UMR" idxmax
                        (df_prov str_upper df sel))
              (fun k3 =>
                 and_then (provincial_card "Lowest Provincial UMR" idxmin
                             (df_prov str_upper df sel))
                   (fun k4 => Ok (k1, k2, k3, k4))))).

End Cards.

(* ------------------------------------------------------------------ *)
(** *** The map card (lines 186-203) *)

(** [groupby("REGION").last()]: the last value of the group that is not
    missing. *)
Definition last_valid (t : list row) : fval :=
  fold_left (fun acc r => if isna (SALARY r) then acc else SALARY r) t NaN.

(** [base.merge(df_latest, on="REGION", how="left")]: every province once
    per row of df_latest with its name, or once with a missing SALARY. *)
Definition merge_region (base : list string) (latest : list (string * fval))
  : list (string * fval) :=
  flat_map
    (fun p =>
       match filter (fun l => String.eqb (fst l) p) latest with
       | [] => [(p, NaN)]
       | matches => map (fun l => (p, snd l)) matches
       end)
    base.

(** [sort_values("YEAR")] as a stable sort; a missing year comes last. *)
Definition year_before (a b : row) : bool :=
  match YEAR a, YEAR b with
  | Some x, Some y => (x <=? y)%Z
  | _, None => true
  | None, Some _ => false
  end.

Section MapCard.

Variable str_upper : string -> string.
(** [sort_values("YEAR")]: pandas sorts one column with quicksort, which
    fixes the order of the years and not that of rows of the same year. *)
Variable sort_values_year : list row -> list row.
Variable df : DataFrame.
Variable sel : FilterSelection.

(** Lines 186-189: every province row of the table, then the year range. *)
Definition df_filtered : DataFrame :=
  filter (fun r => year_ge r (year_from sel) && year_le r (year_to sel))
    (filter (fun r => negb (is_indonesia str_upper r)) df).

(** Lines 192-193. *)
Definition all_prov : list string :=
  sort_by String.leb
    (unique String.eqb []
       (map REGION (filter (fun r => negb (is_indonesia str_upper r)) df))).

(** Lines 196-200: per region of df_filtered, in region order, the last
    salary in year order. *)
Definition df_latest : list (string * fval) :=
  let sorted := sort_values_year df_filtered in
  map (fun region =>
         (region, last_valid (filter (fun r => String.eqb (REGION r) region) sorted)))
    (sort_by String.leb (unique String.eqb [] (map REGION sorted))).

(** Line 203: the merge, missing values filled with 0. *)
Definition df_map : list (string * fval) :=
  map (fun p => (fst p, if isna (snd p) then zero else snd p))
    (merge_region all_prov df_latest).

(** Lines 206-213: one line of a tooltip, [f"{int(y)}: Rp {int(s):,}"], and
    per region of df_filtered its lines in year order, joined by a line
    break.  [None] stands for a df_filtered without any row: what
    [groupby.apply] and [reset_index(name=...)] return on a frame without
    groups is not part of this development. *)
Definition tooltip_line (r : row) : result string :=
  and_then (python_int_year (YEAR r))
    (fun y =>
       and_then (python_int (SALARY r))
         (fun s => Ok (String.append (decimal y) (String.append ": Rp " (with_commas s))))).

Definition tooltip_data : option (result (list (string * string))) :=
  let sorted := sort_by region_year_before df_filtered in
  if empty df_filtered then None
  else
    Some (apply_column
            (fun region =>
               and_then
                 (apply_column tooltip_line
                    (filter (fun r => String.eqb (REGION r) region) sorted))
                 (fun lines => Ok (region, String.concat "<br>" lines)))
            (sort_by String.leb (unique String.eqb [] (map REGION sorted)))).

End MapCard.

(* ================================================================== *)
(** ** The growth stage in binary64 *)

(** A row of the tables above that carries a region and a year, and no
    salary. *)
Definition labels_row (region : string) (year : option Z) : row :=
  mk_row region NaN year.

(** [fval] keeps a finite cell as an exact rational, which describes the
    code wherever a statement depends on the sign of a cell, on whether it is
    zero, infinite or missing, or on which cells an expression is built from.
    The value of PCT_CHANGE depends on rounding.  This module computes the
    growth stage (lines 366-384) on the kernel's binary64 floats (IEEE 754,
    round to nearest even), which is the arithmetic of a float64 column.  A
    record carries its salary as a float64; regions and years are handled by
    the definitions of the stage above, through [key]. *)
Module Binary64.

Import PrimFloat.

Record row : Type := mk_row {
  REGION : string;
  SALARY : float;
  YEAR : option Z
}.

(** The region and the year of a record, as a row of the tables above. *)
Definition key (r : row) := labels_row (REGION r) (YEAR r).

Definition isna (x : float) : bool := is_nan x.

Record growth_row : Type := mk_growth {
  g_base : row;
  PCT_CHANGE : float;
  NOMINAL_CHANGE : float
}.

(** [groupby("REGION")["SALARY"].shift()] *)
Fixpoint shifted (seen : list (string * float)) (region : string) : float :=
  match seen with
  | [] => nan
  | (r, s) :: rest => if String.eqb r region then s else shifted rest region
  end.

(** One cell of [groupby("REGION")["SALARY"].pct_change() * 100]: pandas
    evaluates [salary / shifted - 1], then the product.  A salary that is
    missing is left missing here, as pandas 3 does; earlier versions first
    replace it by the last salary of the region, which changes nothing when
    the salary and the one before it are present. *)
Definition pct_change_cell (s prev : float) : float :=
  mul (sub (div s prev) 1%float) 100%float.

(** One cell of [groupby("REGION")["SALARY"].diff()] *)
Definition diff_cell (s prev : float) : float := sub s prev.

(** The percent change in the order the specification writes it:
    [(salary[t] - salary[t-1]) / salary[t-1] * 100]. *)
Definition percent_change (s prev : float) : float :=
  mul (div (sub s prev) prev) 100%float.

Fixpoint with_changes (seen : list (string * float)) (rows : list row) : list growth_row :=
  match rows with
  | [] => []
  | r :: rest =>
      let prev := shifted seen (REGION r) in
      mk_growth r (pct_change_cell (SALARY r) prev) (diff_cell (SALARY r) prev)
      :: with_changes ((REGION r, SALARY r) :: seen) rest
  end.

Definition region_group (region : string) (t : list growth_row) : list growth_row :=
  filter (fun g => String.eqb (REGION (g_base g)) region) t.

Section GrowthStage.

Variable str_upper : string -> string.
Variable df : list row.
Variable sel : FilterSelection.

(** Lines 366-374. *)
Definition growth_filtered : list row :=
  let selected := selected_prov str_upper (map key df) sel in
  let base :=
    filter
      (fun r =>
         year_ge (key r) (year_from sel - 1) && year_le (key r) (year_to sel)
         && isin selected (key r))
      df in
  if include_indonesia sel then
    base ++ filter
              (fun r =>
                 is_indonesia str_upper (key r) && year_ge (key r) (year_from sel - 1)
                 && year_le (key r) (year_to sel))
              df
  else base.

(** Lines 380-382. *)
Definition growth_table : list growth_row :=
  with_changes []
    (sort_by (fun a b => region_year_before (key a) (key b)) growth_filtered).

(** Line 384. *)
Definition pct_df : option (list growth_row) :=
  if empty growth_filtered then None
  else
    Some (filter
            (fun g =>
               year_ge (key (g_base g)) (year_from sel)
               && negb (isna (PCT_CHANGE g)) && negb (isna (NOMINAL_CHANGE g)))
            growth_table).

End GrowthStage.

(** One region with salaries 100, 110, 121 over three consecutive years. *)
Definition growth_example : list row :=
  [ mk_row "X" 100%float (Some 2020%Z);
    mk_row "X" 110%float (Some 2021%Z);
    mk_row "X" 121%float (Some 2022%Z) ].

End Binary64.

(* ================================================================== *)
(** ** Facts about lists and filters *)

Lemma filter_length_mono (A : Type) (f g : A -> bool) (l : list A) :
  (forall x, In x l -> f x = true -> g x = true) ->
  (length (filter f l) <= length (filter g l))%nat.
Proof.
  induction l as [| x l IH]; intros H; simpl.
  - lia.
  - assert (IH' : (length (filter f l) <= length (filter g l))%nat).
    { apply IH. intros y Hy. apply H. now right. }
    destruct (f x) eqn:Hf.
    + rewrite (H x (or_introl eq_refl) Hf). simpl. lia.
    + destruct (g x); simpl; lia.
Qed.

Lemma filter_twice (A : Type) (f g : A -> bool) (l : list A) :
  filter g (filter f l) = filter (fun x => f x && g x) l.
Proof.
  induction l as [| x l IH]; simpl; [reflexivity |].
  destruct (f x); simpl; [destruct (g x) |]; now rewrite IH.
Qed.

Lemma empty_false_iff (A : Type) (l : list A) : empty l = false <-> l <> [].
Proof. destruct l; simpl; split; congruence. Qed.

Lemma isin_true_iff (values : list string) (r : row) :
  isin values r = true <-> In (REGION r) values.
Proof.
  unfold isin. rewrite existsb_exists. split.
  - intros [x [Hx Heq]]. apply String.eqb_eq in Heq. now subst.
  - intros H. exists (REGION r). split; [assumption | apply String.eqb_refl].
Qed.

Lemma isin_incl (small large : list string) (r : row) :
  incl small large -> isin small r = true -> isin large r = true.
Proof. rewrite !isin_true_iff. intros H Hin. now apply H. Qed.

(* ------------------------------------------------------------------ *)
(** *** Selecting the best rows is sorting and cutting *)

Section OrderingFacts.

Variable A : Type.
Variable before : A -> A -> bool.

Lemma sort_by_pick_best (x : A) (rest : list A) :
  sort_by before (x :: rest)
  = fst (pick_best before x rest) :: sort_by before (snd (pick_best before x rest)).
Proof.
  revert x. induction rest as [| y ys IH]; intros x.
  - reflexivity.
  - change (sort_by before (x :: y :: ys))
      with (insert_sorted before x (sort_by before (y :: ys))).
    rewrite (IH y). simpl pick_best.
    destruct (pick_best before y ys) as [m others] eqn:Hp. simpl fst. simpl snd.
    simpl insert_sorted.
    destruct (before x m) eqn:Hb; simpl fst; simpl snd.
    + f_equal. rewrite (IH y), Hp. reflexivity.
    + reflexivity.
Qed.

Lemma select_n_sort_by (n : nat) (t : list A) :
  select_n before n t = firstn n (sort_by before t).
Proof.
  revert t. induction n as [| n IH]; intros t.
  - destruct t; reflexivity.
  - destruct t as [| x rest]; [reflexivity |].
    rewrite sort_by_pick_best. simpl select_n.
    destruct (pick_best before x rest) as [m others]. simpl.
    now rewrite IH.
Qed.

Lemma insert_sorted_perm (x : A) (l : list A) :
  Permutation (insert_sorted before x l) (x :: l).
Proof.
  induction l as [| y ys IH]; simpl; [apply Permutation_refl |].
  destruct (before x y); [apply Permutation_refl |].
  eapply Permutation_trans; [apply perm_skip, IH | apply perm_swap].
Qed.

Lemma sort_by_perm (l : list A) : Permutation (sort_by before l) l.
Proof.
  induction l as [| x l IH]; simpl; [constructor |].
  eapply Permutation_trans; [apply insert_sorted_perm | now apply perm_skip].
Qed.

Lemma select_n_In (n : nat) (t : list A) (x : A) :
  In x (select_n before n t) -> In x t.
Proof.
  rewrite select_n_sort_by. intros H.
  apply (Permutation_in x (sort_by_perm t)).
  rewrite <- (firstn_skipn n (sort_by before t)). apply in_or_app. now left.
Qed.

End OrderingFacts.

(** With a total and transitive order the sort returns a sorted frame. *)
Section SortedFacts.

Variable A : Type.
Variable before : A -> A -> bool.
Hypothesis before_total : forall x y, before x y = false -> before y x = true.
Hypothesis before_trans :
  forall x y z, before x y = true -> before y z = true -> before x z = true.

Let R (a b : A) : Prop := before a b = true.

Lemma insert_sorted_sorted (x : A) (l : list A) :
  StronglySorted R l -> StronglySorted R (insert_sorted before x l).
Proof.
  induction 1 as [| y ys Hs IH Hall]; simpl.
  - constructor; constructor.
  - destruct (before x y) eqn:E.
    + constructor; [now constructor |].
      constructor; [exact E |].
      apply Forall_forall. intros z Hz. rewrite Forall_forall in Hall.
      eapply before_trans; [exact E | now apply Hall].
    + constructor; [exact IH |].
      apply Forall_forall. intros z Hz.
      apply (Permutation_in _ (insert_sorted_perm before x ys)) in Hz.
      destruct Hz as [<- | Hz].
      * now apply before_total.
      * rewrite Forall_forall in Hall. now apply Hall.
Qed.

Lemma sort_by_sorted (l : list A) : StronglySorted R (sort_by before l).
Proof.
  induction l as [| x l IH]; simpl; [constructor | now apply insert_sorted_sorted].
Qed.

End SortedFacts.

(* ------------------------------------------------------------------ *)
(** *** The order of the ranked column *)

Lemma Qle_bool_false (a b : Q) : Qle_bool a b = false -> (b < a)%Q.
Proof.
  intros H. apply Qnot_le_lt. intros N. apply Qle_bool_iff in N. congruence.
Qed.

Lemma fleb_fin (a b : Q) : fleb (Fin a) (Fin b) = Qle_bool a b.
Proof.
  unfold fleb. simpl.
  destruct (Qle_bool a b) eqn:E1, (Qle_bool b a) eqn:E2, (Qeq_bool a b) eqn:E3;
    simpl; try reflexivity; exfalso;
    try (apply Qle_bool_iff in E1); try (apply Qle_bool_iff in E2);
    try (apply Qle_bool_false in E1); try (apply Qle_bool_false in E2);
    try (apply Qeq_bool_iff in E3); try (apply Qeq_bool_neq in E3);
    lra.
Qed.

Lemma fleb_total (x y : fval) :
  isna x = false -> isna y = false -> fleb x y = false -> fleb y x = true.
Proof.
  destruct x as [| | a |], y as [| | b |]; try discriminate; try reflexivity.
  rewrite !fleb_fin. intros _ _ H.
  apply Qle_bool_iff. apply Qle_bool_false in H. lra.
Qed.

Lemma fleb_trans (x y z : fval) :
  fleb x y = true -> fleb y z = true -> fleb x z = true.
Proof.
  destruct x as [| | a |], y as [| | b |], z as [| | c |];
    try discriminate; try reflexivity.
  rewrite !fleb_fin, !Qle_bool_iff. lra.
Qed.

Lemma fleb_not_nan (x y : fval) : fleb x y = true -> isna x = false /\ isna y = false.
Proof. destruct x, y; try discriminate; now split. Qed.

Lemma desc_before_total (x y : fval) :
  desc_before x y = false -> desc_before y x = true.
Proof.
  unfold desc_before. destruct (isna y) eqn:Hy; [discriminate |].
  destruct (isna x) eqn:Hx; [reflexivity |]. simpl.
  now apply fleb_total.
Qed.

Lemma desc_before_trans (x y z : fval) :
  desc_before x y = true -> desc_before y z = true -> desc_before x z = true.
Proof.
  unfold desc_before. destruct (isna z) eqn:Hz; [reflexivity |]. simpl.
  intros Hxy Hyz. apply andb_true_iff in Hyz. destruct Hyz as [Hy Hzy].
  apply negb_true_iff in Hy. rewrite Hy in Hxy. simpl in Hxy.
  apply andb_true_iff in Hxy. destruct Hxy as [Hx Hyx].
  rewrite Hx. simpl. now apply (fleb_trans z y x).
Qed.

Lemma asc_before_total (x y : fval) :
  asc_before x y = false -> asc_before y x = true.
Proof.
  unfold asc_before. destruct (isna y) eqn:Hy; [discriminate |].
  destruct (isna x) eqn:Hx; [reflexivity |]. simpl.
  now apply fleb_total.
Qed.

Lemma asc_before_trans (x y z : fval) :
  asc_before x y = true -> asc_before y z = true -> asc_before x z = true.
Proof.
  unfold asc_before. destruct (isna z) eqn:Hz; [reflexivity |]. simpl.
  intros Hxy Hyz. apply andb_true_iff in Hyz. destruct Hyz as [Hy Hyz].
  apply negb_true_iff in Hy. rewrite Hy in Hxy. simpl in Hxy.
  apply andb_true_iff in Hxy. destruct Hxy as [Hx Hxy].
  rewrite Hx. simpl. now apply (fleb_trans x y z).
Qed.

(** [sort_values] returns the rows of the frame, in the order of the
    column, missing values last. *)
Lemma sort_values_sorted (A : Type) (column : A -> fval) (ascending : bool) (t : list A) :
  StronglySorted
    (fun a b =>
       (if ascending then asc_before (column a) (column b)
        else desc_before (column a) (column b)) = true)
    (sort_values column ascending t).
Proof.
  unfold sort_values. apply sort_by_sorted.
  - intros x y. destruct ascending; [apply asc_before_total | apply desc_before_total].
  - intros x y z. destruct ascending; [apply asc_before_trans | apply desc_before_trans].
Qed.

Lemma sort_values_perm (A : Type) (column : A -> fval) (ascending : bool) (t : list A) :
  Permutation (sort_values column ascending t) t.
Proof. unfold sort_values. apply sort_by_perm. Qed.

(* ================================================================== *)
(** ** Ranking *)

(** C6.  For every table and numeric column, the top-N ranking is the first
    N rows of the table sorted by that column in descending order and the
    bottom-N ranking the first N rows of the table sorted ascending (the
    sorted table holds the rows of the table, each before every row that
    follows it in the order of the column); for the regions A:5, B:3, C:8,
    D:1 the top 2 are C, A and the bottom 2 are D, B. *)
Theorem ranking_is_sorted_head :
  forall (A : Type) (column : A -> fval) (n : nat) (t : list A),
    nlargest n column t = head n (sort_values column false t)
    /\ nsmallest n column t = head n (sort_values column true t)
    /\ Permutation (sort_values column false t) t
    /\ StronglySorted (fun a b => desc_before (column a) (column b) = true)
         (sort_values column false t)
    /\ Permutation (sort_values column true t) t
    /\ StronglySorted (fun a b => asc_before (column a) (column b) = true)
         (sort_values column true t)
    /\ map REGION (nlargest 2 SALARY ranking_table) = ["C"; "A"]
    /\ map REGION (nsmallest 2 SALARY ranking_table) = ["D"; "B"].
Proof.
  intros A column n t. unfold nlargest, nsmallest, head.
  split; [unfold sort_values; now rewrite select_n_sort_by |].
  split; [unfold sort_values; now rewrite select_n_sort_by |].
  split; [apply sort_values_perm |].
  split; [apply (sort_values_sorted column false) |].
  split; [apply sort_values_perm |].
  split; [apply (sort_values_sorted column true) |].
  split; reflexivity.
Qed.

(* ================================================================== *)
(** ** The year filter *)

Lemma year_eq_is_range (r : row) (y : Z) :
  year_eq r y = year_ge r y && year_le r y.
Proof.
  unfold year_eq, year_ge, year_le. destruct (YEAR r) as [v |]; [| reflexivity].
  destruct (Z.eqb_spec v y), (Z.leb_spec y v), (Z.leb_spec v y);
    simpl; try reflexivity; lia.
Qed.

Lemma df_year_range_In (df : DataFrame) (lo hi : Z) (r : row) :
  In r (df_year_range df lo hi)
  <-> In r df /\ exists y, YEAR r = Some y /\ (lo <= y <= hi)%Z.
Proof.
  unfold df_year_range. rewrite filter_In, andb_true_iff.
  unfold year_ge, year_le. destruct (YEAR r) as [v |].
  - rewrite !Z.leb_le. split.
    + intros [Hin [H1 H2]]. split; [assumption |]. exists v. split; [reflexivity | lia].
    + intros [Hin [y [Hy Hb]]]. injection Hy as ->. split; [assumption | lia].
  - split.
    + intros [_ [H _]]. discriminate.
    + intros [_ [y [Hy _]]]. discriminate.
Qed.

Lemma df_year_is_range (df : DataFrame) (sel : FilterSelection) :
  df_year df sel = df_year_range df (year_from sel) (year_to sel).
Proof.
  unfold df_year. destruct (Z.eqb_spec (year_from sel) (year_to sel)) as [E |]; [| reflexivity].
  rewrite <- E. unfold df_year_exact, df_year_range.
  apply filter_ext. intros r. apply year_eq_is_range.
Qed.

(** C7.  When yearFrom = yearTo = y the script takes the equality branch
    [df[df["YEAR"] == y]]; the rows it keeps are exactly those of the generic
    inclusive range filter evaluated on [y, y], in the same order, and the
    range filter keeps a row exactly when its year lies between the two
    bounds, both included. *)
Theorem exact_year_branch_is_inclusive_range :
  forall (df : DataFrame) (sel : FilterSelection) (y : Z),
    year_from sel = y -> year_to sel = y ->
    df_year df sel = df_year_exact df y
    /\ df_year_exact df y = df_year_range df y y
    /\ (forall lo hi r,
           In r (df_year_range df lo hi)
           <-> In r df /\ exists v, YEAR r = Some v /\ (lo <= v <= hi)%Z).
Proof.
  intros df sel y Hf Ht. split; [| split].
  - unfold df_year. rewrite Hf, Ht, Z.eqb_refl. reflexivity.
  - unfold df_year_exact, df_year_range. apply filter_ext. intros r.
    apply year_eq_is_range.
  - intros lo hi r. apply df_year_range_In.
Qed.

(* ================================================================== *)
(** ** The filtered sub-tables *)

Section Filters.

Variable str_upper : string -> string.

Lemma selected_prov_explicit (df : DataFrame) (sel : FilterSelection) :
  select_all sel = false -> multiselect sel <> [] ->
  selected_prov str_upper df sel = multiselect sel.
Proof.
  intros Hall Hne. unfold selected_prov. rewrite Hall.
  destruct (multiselect sel); [contradiction | reflexivity].
Qed.

Lemma narrowed_selected_prov (df : DataFrame) (narrow wide : FilterSelection) :
  narrowed str_upper df narrow wide ->
  incl (selected_prov str_upper df narrow) (selected_prov str_upper df wide).
Proof.
  intros [_ [_ [[Ha Hm] | [Ha [Hne Hincl]]]]].
  - unfold selected_prov. rewrite Ha, Hm. apply incl_refl.
  - now rewrite selected_prov_explicit.
Qed.

Lemma range_narrowed (lo hi lo' hi' : Z) (r : row) :
  (lo <= lo')%Z -> (hi' <= hi)%Z ->
  year_ge r lo' = true /\ year_le r hi' = true ->
  year_ge r lo = true /\ year_le r hi = true.
Proof.
  unfold year_ge, year_le. intros Hlo Hhi. destruct (YEAR r) as [v |].
  - rewrite !Z.leb_le. lia.
  - intros [H _]. discriminate.
Qed.

(** C8.  Narrowing the year range to a sub-interval, or a non-empty province
    selection to a non-empty subset, never increases the number of rows of
    df_year, df_national or df_prov. *)
Theorem narrowing_never_adds_rows :
  forall (df : DataFrame) (narrow wide : FilterSelection),
    narrowed str_upper df narrow wide ->
    (length (df_year df narrow) <= length (df_year df wide))%nat
    /\ (length (df_national str_upper df narrow)
        <= length (df_national str_upper df wide))%nat
    /\ (length (df_prov str_upper df narrow) <= length (df_prov str_upper df wide))%nat.
Proof.
  intros df narrow wide H.
  pose proof (narrowed_selected_prov H) as Hsel.
  destruct H as [Hlo [Hhi _]].
  unfold df_national, df_prov. rewrite !df_year_is_range. unfold df_year_range.
  rewrite !filter_twice.
  repeat split; apply filter_length_mono; intros r _.
  - rewrite !andb_true_iff. now apply range_narrowed.
  - rewrite !andb_true_iff. intros [Hr Hn]. split; [| assumption].
    now apply (range_narrowed r Hlo Hhi).
  - rewrite !andb_true_iff. intros [Hr [Hi Hn]]. repeat split; try assumption.
    + now apply (range_narrowed r Hlo Hhi Hr).
    + now apply (range_narrowed r Hlo Hhi Hr).
    + now apply (isin_incl r Hsel).
Qed.

(** C9.  The table ranked by actual value keeps every row of the year range
    whose region is exactly "INDONESIA", whatever the "Show National Average"
    box says.  The box is read by the growth stage and by the heatmap and by
    nothing else: ticked, it adds the national rows from year_from - 1 to
    year_to to the growth input and the rows of df_year whose region is
    exactly "INDONESIA" to the heatmap input; unticked, both inputs hold rows
    of the selected provinces only; the year filter, the KPI cards, the map
    tooltips, the table ranked by value and the gap and ratio frames with
    their rankings are the same for both settings. *)
Theorem national_rows_always_ranked :
  forall (df : DataFrame) (sel : FilterSelection),
    (forall r : row,
        In r df -> REGION r = "INDONESIA" -> in_range sel r = true ->
        In r (prov_filtered str_upper df sel))
    /\ (forall b : bool,
           df_year df (with_include_indonesia b sel) = df_year df sel
           /\ kpi_cards str_upper df (with_include_indonesia b sel)
              = kpi_cards str_upper df sel
           /\ tooltip_data str_upper df (with_include_indonesia b sel)
              = tooltip_data str_upper df sel
           /\ prov_filtered str_upper df (with_include_indonesia b sel)
              = prov_filtered str_upper df sel
           /\ df_gap str_upper df (with_include_indonesia b sel) = df_gap str_upper df sel
           /\ rank_gap str_upper df (with_include_indonesia b sel)
              = rank_gap str_upper df sel
           /\ df_ratio str_upper df (with_include_indonesia b sel)
              = df_ratio str_upper df sel
           /\ rank_ratio str_upper df (with_include_indonesia b sel)
              = rank_ratio str_upper df sel)
    /\ (forall r : row,
           In r df -> is_indonesia str_upper r = true ->
           year_ge r (year_from sel - 1) = true -> year_le r (year_to sel) = true ->
           In r (growth_filtered str_upper df (with_include_indonesia true sel)))
    /\ (forall r : row,
           In r (growth_filtered str_upper df (with_include_indonesia false sel)) ->
           In (REGION r) (selected_prov str_upper df sel))
    /\ (forall r : row,
           In r (df_year df sel) -> REGION r = "INDONESIA" ->
           In r (df_heat str_upper df (with_include_indonesia true sel)))
    /\ (forall r : row,
           In r (df_heat str_upper df (with_include_indonesia false sel)) ->
           In (REGION r) (selected_prov str_upper df sel)).
Proof.
  intros df sel. split; [| split; [| split; [| split; [| split]]]].
  - intros r Hin Hreg Hrange.
    unfold prov_filtered. apply filter_In. split; [assumption |].
    unfold in_range in Hrange. rewrite Hrange. simpl.
    apply isin_true_iff. apply in_or_app. right. rewrite Hreg. now left.
  - intros b. repeat split.
  - intros r Hin Hnat Hge Hle. unfold growth_filtered.
    cbn [include_indonesia with_include_indonesia]. apply in_or_app. right.
    apply filter_In. split; [exact Hin |].
    cbn [year_from year_to with_include_indonesia]. now rewrite Hnat, Hge, Hle.
  - intros r Hr. unfold growth_filtered in Hr.
    cbn [include_indonesia with_include_indonesia] in Hr.
    apply filter_In in Hr. destruct Hr as [_ Hr].
    apply andb_true_iff in Hr. destruct Hr as [_ Hr]. now apply isin_true_iff in Hr.
  - intros r Hr Hreg. unfold df_heat, heatmap_regions.
    cbn [include_indonesia with_include_indonesia]. apply filter_In.
    split; [exact Hr |]. apply isin_true_iff. apply in_or_app. right.
    rewrite Hreg. now left.
  - intros r Hr. unfold df_heat, heatmap_regions in Hr.
    cbn [include_indonesia with_include_indonesia] in Hr.
    apply filter_In in Hr. destruct Hr as [_ Hr]. now apply isin_true_iff in Hr.
Qed.

End Filters.

(* ================================================================== *)
(** ** Cells *)

Lemma fltb_irrefl_sym (x y : fval) : fltb x y = true -> fltb y x = false.
Proof.
  destruct x as [| | a |], y as [| | b |]; simpl; try reflexivity; try discriminate.
  intros H. apply negb_true_iff in H. apply negb_false_iff.
  apply Qle_bool_iff.
  destruct (Qlt_le_dec b a) as [Hlt | Hle].
  - apply Qlt_le_weak in Hlt. apply Qle_bool_iff in Hlt. congruence.
  - destruct (Qlt_le_dec a b) as [Hlt' | Hle']; [now apply Qlt_le_weak |].
    apply Qle_bool_iff in Hle'. congruence.
Qed.

Lemma fltb_not_feqb (x y : fval) : fltb x y = true -> feqb x y = false.
Proof.
  destruct x as [| | a |], y as [| | b |]; simpl; try reflexivity; try discriminate.
  intros H. apply negb_true_iff in H.
  destruct (Qeq_bool a b) eqn:E; [| reflexivity].
  apply Qeq_bool_iff in E.
  assert (Hle : (b <= a)%Q) by (rewrite E; apply Qle_refl).
  apply Qle_bool_iff in Hle. congruence.
Qed.

Lemma feqb_not_fltb (x y : fval) : feqb x y = true -> fltb y x = false.
Proof.
  destruct x as [| | a |], y as [| | b |]; simpl; try reflexivity; try discriminate.
  intros E. apply Qeq_bool_iff in E. apply negb_false_iff. apply Qle_bool_iff.
  rewrite E. apply Qle_refl.
Qed.

Lemma gap_status_cases (x : fval) :
  (fgtb x zero = true -> gap_status x = "Above National Average")
  /\ (feqb x zero = true -> gap_status x = "Equal to National Average")
  /\ (fltb x zero = true -> gap_status x = "Below National Average").
Proof.
  unfold gap_status, fgtb. repeat split; intros H.
  - now rewrite H.
  - now rewrite (feqb_not_fltb _ _ H), H.
  - now rewrite (fltb_irrefl_sym _ _ H), (fltb_not_feqb _ _ H).
Qed.

Lemma ratio_status_cases (x : fval) :
  (fgtb x hundred = true -> ratio_status x = "Above National Average")
  /\ (feqb x hundred = true -> ratio_status x = "Equal to National Average")
  /\ (fltb x hundred = true -> ratio_status x = "Below National Average").
Proof.
  unfold ratio_status, fgtb. repeat split; intros H.
  - now rewrite H.
  - now rewrite (feqb_not_fltb _ _ H), H.
  - now rewrite (fltb_irrefl_sym _ _ H), (fltb_not_feqb _ _ H).
Qed.

Lemma fsub_nan_r (x : fval) : fsub x NaN = NaN.
Proof. now destruct x. Qed.

Lemma fdiv_nan_r (x : fval) : fdiv x NaN = NaN.
Proof. now destruct x. Qed.

(* ================================================================== *)
(** ** The left merge on YEAR *)

Lemma merge_left_matched (left national : list row) (r m : row) :
  In r left -> In m national -> same_year r m = true ->
  In (r, SALARY m) (merge_left left national).
Proof.
  intros Hr Hm Hy. unfold merge_left. apply in_flat_map. exists r. split; [assumption |].
  assert (Hf : In m (filter (same_year r) national)) by (apply filter_In; now split).
  destruct (filter (same_year r) national) as [| m0 ms] eqn:E; [contradiction |].
  apply (in_map (fun m' => (r, SALARY m')) _ _ Hf).
Qed.

Lemma merge_left_unmatched (left national : list row) (r : row) :
  In r left -> filter (same_year r) national = [] ->
  In (r, NaN) (merge_left left national).
Proof.
  intros Hr Hn. unfold merge_left. apply in_flat_map. exists r. split; [assumption |].
  rewrite Hn. now left.
Qed.

Lemma merge_left_In (left national : list row) (r : row) (n : fval) :
  In (r, n) (merge_left left national) ->
  In r left
  /\ ((exists m, In m national /\ same_year r m = true /\ n = SALARY m)
      \/ (filter (same_year r) national = [] /\ n = NaN)).
Proof.
  unfold merge_left. rewrite in_flat_map. intros [r' [Hr' Hin]].
  destruct (filter (same_year r') national) as [| m0 ms] eqn:E.
  - destruct Hin as [Heq | []]. injection Heq as <- <-. split; [assumption |]. now right.
  - apply in_map_iff in Hin. destruct Hin as [m [Heq Hm]]. injection Heq as <- <-.
    split; [assumption |]. left. exists m.
    rewrite <- E in Hm. apply filter_In in Hm. destruct Hm as [Hm Hy]. now repeat split.
Qed.

(* ================================================================== *)
(** ** Gap and ratio to the national row *)

Section GapRatio.

Variable str_upper : string -> string.
Variable df : DataFrame.
Variable sel : FilterSelection.

(** The province rows the gap and ratio cards start from. *)
Let regional : DataFrame := filter (isin (selected_prov str_upper df sel)) (df_year df sel).
Let national : DataFrame := df_national_avg str_upper df sel.

Lemma df_gap_derived :
  regional <> [] -> national <> [] ->
  df_gap str_upper df sel = Derived (map add_gap (merge_left regional national)).
Proof.
  intros Hr Hn. unfold df_gap. fold regional. fold national.
  apply empty_false_iff in Hr. apply empty_false_iff in Hn. now rewrite Hr, Hn.
Qed.

Lemma df_ratio_derived :
  regional <> [] -> national <> [] ->
  df_ratio str_upper df sel = Derived (map add_ratio (merge_left regional national)).
Proof.
  intros Hr Hn. unfold df_ratio. fold regional. fold national.
  apply empty_false_iff in Hr. apply empty_false_iff in Hn. now rewrite Hr, Hn.
Qed.

Lemma df_gap_rows (rows : list GapFrame.t) :
  df_gap str_upper df sel = Derived rows ->
  rows = map add_gap (merge_left regional national).
Proof.
  unfold df_gap. fold regional. fold national.
  destruct (empty regional || empty national); [discriminate |].
  intros H. now injection H.
Qed.

Lemma df_ratio_rows (rows : list RatioFrame.t) :
  df_ratio str_upper df sel = Derived rows ->
  rows = map add_ratio (merge_left regional national).
Proof.
  unfold df_ratio. fold regional. fold national.
  destruct (empty regional || empty national); [discriminate |].
  intros H. now injection H.
Qed.

Lemma In_not_nil (A : Type) (x : A) (l : list A) : In x l -> l <> [].
Proof. destruct l; [contradiction | discriminate]. Qed.

(** C5.  A province row [r] of the year range and a national row [m] of
    the same year give one row of the gap frame and one of the ratio frame,
    with GAP = SALARY - SALARY_NATIONAL and RATIO = SALARY / SALARY_NATIONAL
    * 100; STATUS is "Above National Average" when the value is above its
    threshold (0 for the gap, 100 for the ratio), "Equal to National Average"
    when it equals it and "Below National Average" when it is below. *)
Theorem gap_and_ratio_of_matched_row :
  forall r m : row,
    In r (filter (isin (selected_prov str_upper df sel)) (df_year df sel)) ->
    In m (df_national_avg str_upper df sel) ->
    same_year r m = true ->
    let gap := fsub (SALARY r) (SALARY m) in
    let ratio := fmul (fdiv (SALARY r) (SALARY m)) hundred in
    (exists gaps,
        df_gap str_upper df sel = Derived gaps
        /\ In (GapFrame.mk r (SALARY m) gap (gap_status gap)) gaps)
    /\ (exists ratios,
           df_ratio str_upper df sel = Derived ratios
           /\ In (RatioFrame.mk r (SALARY m) ratio (ratio_status ratio)) ratios)
    /\ (fgtb gap zero = true -> gap_status gap = "Above National Average")
    /\ (feqb gap zero = true -> gap_status gap = "Equal to National Average")
    /\ (fltb gap zero = true -> gap_status gap = "Below National Average")
    /\ (fgtb ratio hundred = true -> ratio_status ratio = "Above National Average")
    /\ (feqb ratio hundred = true -> ratio_status ratio = "Equal to National Average")
    /\ (fltb ratio hundred = true -> ratio_status ratio = "Below National Average").
Proof.
  intros r m Hr Hm Hy gap ratio.
  pose proof (@In_not_nil _ _ _ Hr) as Hr0. pose proof (@In_not_nil _ _ _ Hm) as Hm0.
  pose proof (@merge_left_matched _ _ _ _ Hr Hm Hy) as Hin.
  split; [| split].
  - eexists. split; [apply df_gap_derived; assumption |].
    apply (in_map add_gap _ _ Hin).
  - eexists. split; [apply df_ratio_derived; assumption |].
    apply (in_map add_ratio _ _ Hin).
  - destruct (gap_status_cases gap) as [H1 [H2 H3]].
    destruct (ratio_status_cases ratio) as [H4 [H5 H6]].
    repeat split; assumption.
Qed.

(** Every row of the two frames carries the columns computed from its own
    SALARY and SALARY_NATIONAL. *)
Lemma gap_frame_columns (gaps : list GapFrame.t) (g : GapFrame.t) :
  df_gap str_upper df sel = Derived gaps -> In g gaps ->
  GapFrame.GAP g = fsub (SALARY (GapFrame.base g)) (GapFrame.SALARY_NATIONAL g)
  /\ GapFrame.STATUS g = gap_status (GapFrame.GAP g)
  /\ In (GapFrame.base g) regional.
Proof.
  intros Hd Hin. rewrite (df_gap_rows Hd) in Hin. apply in_map_iff in Hin.
  destruct Hin as [[r n] [<- Hp]]. simpl. repeat split.
  now apply merge_left_In in Hp.
Qed.

Lemma ratio_frame_columns (ratios : list RatioFrame.t) (g : RatioFrame.t) :
  df_ratio str_upper df sel = Derived ratios -> In g ratios ->
  RatioFrame.RATIO g
  = fmul (fdiv (SALARY (RatioFrame.base g)) (RatioFrame.SALARY_NATIONAL g)) hundred
  /\ RatioFrame.STATUS g = ratio_status (RatioFrame.RATIO g)
  /\ In (RatioFrame.base g) regional
  /\ (RatioFrame.SALARY_NATIONAL g = NaN
      \/ exists m, In m national /\ RatioFrame.SALARY_NATIONAL g = SALARY m).
Proof.
  intros Hd Hin. rewrite (df_ratio_rows Hd) in Hin. apply in_map_iff in Hin.
  destruct Hin as [[r n] [<- Hp]]. simpl. apply merge_left_In in Hp.
  destruct Hp as [Hr [[m [Hm [_ Hn]]] | [_ Hn]]]; repeat split; try assumption.
  - right. now exists m.
  - now left.
Qed.

(** C2, as the code has it.  The merge is a left join: a province row of
    the year range whose year has no national row, while the range holds some
    national row, stays in the gap frame and in the ratio frame; its
    SALARY_NATIONAL, GAP and RATIO are missing (NaN, not zero) and its STATUS
    is "Below National Average". *)
Theorem unmatched_row_is_kept_with_missing_values :
  forall r : row,
    In r (filter (isin (selected_prov str_upper df sel)) (df_year df sel)) ->
    df_national_avg str_upper df sel <> [] ->
    filter (same_year r) (df_national_avg str_upper df sel) = [] ->
    (exists gaps,
        df_gap str_upper df sel = Derived gaps
        /\ In (GapFrame.mk r NaN NaN "Below National Average") gaps)
    /\ (exists ratios,
           df_ratio str_upper df sel = Derived ratios
           /\ In (RatioFrame.mk r NaN NaN "Below National Average") ratios).
Proof.
  intros r Hr Hn Hnone.
  pose proof (@In_not_nil _ _ _ Hr) as Hr0.
  pose proof (@merge_left_unmatched _ _ _ Hr Hnone) as Hin.
  split.
  - eexists. split; [apply df_gap_derived; assumption |].
    apply (in_map add_gap) in Hin. unfold add_gap in Hin. simpl in Hin.
    rewrite fsub_nan_r in Hin. exact Hin.
  - eexists. split; [apply df_ratio_derived; assumption |].
    apply (in_map add_ratio) in Hin. unfold add_ratio in Hin. simpl in Hin.
    rewrite fdiv_nan_r in Hin. exact Hin.
Qed.

End GapRatio.

(* ================================================================== *)
(** ** Year-over-year change *)

Lemma one_is_1 : one = Fin 1.
Proof. reflexivity. Qed.

Lemma hundred_is_100 : hundred = Fin 100.
Proof. reflexivity. Qed.

Lemma shifted_skip (seen : list (string * fval)) (r region : string) (s : fval) :
  String.eqb r region = false ->
  shifted ((r, s) :: seen) region = shifted seen region.
Proof. intros H. simpl. now rewrite H. Qed.

Lemma with_changes_base (rows : list row) (seen : list (string * fval)) :
  map g_base (with_changes seen rows) = rows.
Proof.
  revert seen. induction rows as [| r rest IH]; intros seen; simpl; [reflexivity |].
  now rewrite IH.
Qed.

(** The first row of a region's group is computed against the salary the
    region had before the frame, which is missing at the top of the frame. *)
Lemma region_group_first (region : string) (rows : list row)
      (seen : list (string * fval)) (f : growth_row) :
  nth_error (region_group region (with_changes seen rows)) 0 = Some f ->
  PCT_CHANGE f = pct_change_cell (SALARY (g_base f)) (shifted seen region)
  /\ NOMINAL_CHANGE f = diff_cell (SALARY (g_base f)) (shifted seen region).
Proof.
  revert seen. induction rows as [| r rest IH]; intros seen; simpl; [discriminate |].
  destruct (String.eqb (REGION r) region) eqn:E; simpl.
  - intros H. injection H as <-. simpl. apply String.eqb_eq in E. rewrite E. now split.
  - intros H. apply IH in H. now rewrite (@shifted_skip _ _ _ _ E) in H.
Qed.

(** Every later row of the group is computed against the row before it. *)
Lemma region_group_next (region : string) (rows : list row)
      (seen : list (string * fval)) (i : nat) (a b : growth_row) :
  nth_error (region_group region (with_changes seen rows)) i = Some a ->
  nth_error (region_group region (with_changes seen rows)) (S i) = Some b ->
  PCT_CHANGE b = pct_change_cell (SALARY (g_base b)) (SALARY (g_base a))
  /\ NOMINAL_CHANGE b = diff_cell (SALARY (g_base b)) (SALARY (g_base a)).
Proof.
  revert seen i. induction rows as [| r rest IH]; intros seen i; simpl.
  - destruct i; discriminate.
  - destruct (String.eqb (REGION r) region) eqn:E; simpl.
    + destruct i as [| i]; simpl.
      * intros Ha Hb. injection Ha as <-. simpl.
        apply region_group_first in Hb. simpl in Hb.
        now rewrite E in Hb.
      * apply IH.
    + apply IH.
Qed.

(* ------------------------------------------------------------------ *)
(** *** The sort puts each region's rows in year order *)


Lemma StronglySorted_filter (A : Type) (R : A -> A -> Prop) (f : A -> bool) (l : list A) :
  StronglySorted R l -> StronglySorted R (filter f l).
Proof.
  induction 1 as [| x l Hs IH Hall]; simpl; [constructor |].
  destruct (f x); [| exact IH].
  constructor; [exact IH |].
  rewrite Forall_forall in *. intros y Hy. apply filter_In in Hy. now apply Hall.
Qed.

Lemma StronglySorted_of_map (A B : Type) (R : B -> B -> Prop) (f : A -> B) (l : list A) :
  StronglySorted R (map f l) -> StronglySorted (fun a b => R (f a) (f b)) l.
Proof.
  induction l as [| x l IH]; simpl; intros H; [constructor |].
  apply StronglySorted_inv in H. destruct H as [Hs Hall].
  constructor; [now apply IH |].
  rewrite Forall_forall in *. intros y Hy. apply Hall. now apply in_map.
Qed.

Lemma StronglySorted_consecutive (A : Type) (R : A -> A -> Prop) (l : list A)
      (i : nat) (a b : A) :
  StronglySorted R l ->
  nth_error l i = Some a -> nth_error l (S i) = Some b -> R a b.
Proof.
  intros Hs. revert i. induction Hs as [| x l Hs IH Hall]; intros i Ha Hb.
  - destruct i; discriminate.
  - destruct i as [| i]; simpl in *.
    + injection Ha as <-. rewrite Forall_forall in Hall. apply Hall.
      now apply nth_error_In with (n := 0%nat).
    + now apply (IH i).
Qed.

Lemma region_year_before_total (a b : row) :
  region_year_before a b = false -> region_year_before b a = true.
Proof.
  unfold region_year_before.
  pose proof (String_as_OT.cmp_antisym (REGION a) (REGION b)) as Hanti.
  unfold String_as_OT.cmp in Hanti. rewrite Hanti.
  destruct (String.compare (REGION b) (REGION a)); simpl; try discriminate;
    try reflexivity.
  destruct (YEAR a) as [x |], (YEAR b) as [y |]; try discriminate; try reflexivity.
  rewrite Z.leb_gt, Z.leb_le. lia.
Qed.

Lemma region_year_before_trans (a b c : row) :
  region_year_before a b = true -> region_year_before b c = true ->
  region_year_before a c = true.
Proof.
  unfold region_year_before.
  destruct (String.compare (REGION a) (REGION b)) eqn:Eab; try discriminate;
    destruct (String.compare (REGION b) (REGION c)) eqn:Ebc; try discriminate.
  - apply String.compare_eq_iff in Eab. apply String.compare_eq_iff in Ebc.
    rewrite Eab, Ebc.
    assert (Hcc : String.compare (REGION c) (REGION c) = Eq)
      by now apply String_as_OT.cmp_eq.
    rewrite Hcc.
    destruct (YEAR a) as [x |], (YEAR b) as [y |], (YEAR c) as [z |];
      try discriminate; try reflexivity.
    rewrite !Z.leb_le. lia.
  - apply String.compare_eq_iff in Eab. rewrite Eab, Ebc. reflexivity.
  - apply String.compare_eq_iff in Ebc. rewrite <- Ebc, Eab. reflexivity.
  - assert (Hac : String.compare (REGION a) (REGION c) = Lt).
    { apply String_as_OT.cmp_lt.
      apply String_as_OT.lt_trans with (y := REGION b); now apply String_as_OT.cmp_lt. }
    rewrite Hac. reflexivity.
Qed.

Lemma region_group_In (region : string) (t : list growth_row) (g : growth_row) :
  In g (region_group region t) <-> In g t /\ REGION (g_base g) = region.
Proof. unfold region_group. now rewrite filter_In, String.eqb_eq. Qed.

Section Growth.

Variable str_upper : string -> string.
Variable df : DataFrame.
Variable sel : FilterSelection.

Lemma pct_df_In (t : list growth_row) (g : growth_row) :
  pct_df str_upper df sel = Some t ->
  (In g t <->
   In g (growth_table str_upper df sel)
   /\ year_ge (g_base g) (year_from sel) = true
   /\ isna (PCT_CHANGE g) = false /\ isna (NOMINAL_CHANGE g) = false).
Proof.
  unfold pct_df. destruct (empty (growth_filtered str_upper df sel)); [discriminate |].
  intros H. injection H as <-.
  rewrite filter_In, !andb_true_iff, !negb_true_iff. tauto.
Qed.

End Growth.

(* ================================================================== *)
(** ** Year-over-year change in binary64 *)

Section Binary64Cells.

Import PrimFloat FloatOps FloatAxioms SpecFloat.

Lemma is_nan_of_spec (x : float) : Prim2SF x = S754_nan -> Binary64.isna x = true.
Proof. intros H. unfold Binary64.isna, is_nan. now rewrite eqb_spec, H. Qed.

Lemma diff_cell_nan (s : float) : Binary64.isna (Binary64.diff_cell s nan) = true.
Proof.
  apply is_nan_of_spec. unfold Binary64.diff_cell. rewrite sub_spec.
  change (Prim2SF nan) with S754_nan. now destruct (Prim2SF s).
Qed.

Lemma pct_change_cell_of_nan (s : float) :
  Binary64.isna (Binary64.pct_change_cell s nan) = true.
Proof.
  apply is_nan_of_spec. unfold Binary64.pct_change_cell.
  assert (Hdiv : Prim2SF (div s nan) = S754_nan).
  { rewrite div_spec. change (Prim2SF nan) with S754_nan. now destruct (Prim2SF s). }
  now rewrite mul_spec, sub_spec, Hdiv.
Qed.

End Binary64Cells.

Lemma shifted_skip_binary64 (seen : list (string * PrimFloat.float)) (r region : string)
      (s : PrimFloat.float) :
  String.eqb r region = false ->
  Binary64.shifted ((r, s) :: seen) region = Binary64.shifted seen region.
Proof. intros H. simpl. now rewrite H. Qed.

Lemma with_changes_base_binary64 (rows : list Binary64.row)
      (seen : list (string * PrimFloat.float)) :
  map Binary64.g_base (Binary64.with_changes seen rows) = rows.
Proof.
  revert seen. induction rows as [| r rest IH]; intros seen; simpl; [reflexivity |].
  now rewrite IH.
Qed.

Lemma region_group_first_binary64 (region : string) (rows : list Binary64.row)
      (seen : list (string * PrimFloat.float)) (f : Binary64.growth_row) :
  nth_error (Binary64.region_group region (Binary64.with_changes seen rows)) 0 = Some f ->
  Binary64.PCT_CHANGE f
  = Binary64.pct_change_cell (Binary64.SALARY (Binary64.g_base f))
      (Binary64.shifted seen region)
  /\ Binary64.NOMINAL_CHANGE f
     = Binary64.diff_cell (Binary64.SALARY (Binary64.g_base f))
         (Binary64.shifted seen region).
Proof.
  revert seen. induction rows as [| r rest IH]; intros seen; simpl; [discriminate |].
  destruct (String.eqb (Binary64.REGION r) region) eqn:E; simpl.
  - intros H. injection H as <-. simpl. apply String.eqb_eq in E. rewrite E. now split.
  - intros H. apply IH in H. now rewrite (@shifted_skip_binary64 _ _ _ _ E) in H.
Qed.

Lemma region_group_next_binary64 (region : string) (rows : list Binary64.row)
      (seen : list (string * PrimFloat.float)) (i : nat) (a b : Binary64.growth_row) :
  nth_error (Binary64.region_group region (Binary64.with_changes seen rows)) i = Some a ->
  nth_error (Binary64.region_group region (Binary64.with_changes seen rows)) (S i)
  = Some b ->
  Binary64.PCT_CHANGE b
  = Binary64.pct_change_cell (Binary64.SALARY (Binary64.g_base b))
      (Binary64.SALARY (Binary64.g_base a))
  /\ Binary64.NOMINAL_CHANGE b
     = Binary64.diff_cell (Binary64.SALARY (Binary64.g_base b))
         (Binary64.SALARY (Binary64.g_base a)).
Proof.
  revert seen i. induction rows as [| r rest IH]; intros seen i; simpl.
  - destruct i; discriminate.
  - destruct (String.eqb (Binary64.REGION r) region) eqn:E; simpl.
    + destruct i as [| i]; simpl.
      * intros Ha Hb. injection Ha as <-. simpl.
        apply region_group_first_binary64 in Hb. simpl in Hb.
        now rewrite E in Hb.
      * apply IH.
    + apply IH.
Qed.

Section Binary64Growth.

Import PrimFloat.

Variable str_upper : string -> string.
Variable df : list Binary64.row.
Variable sel : FilterSelection.

Lemma growth_filtered_In_binary64 (r : Binary64.row) :
  In r (Binary64.growth_filtered str_upper df sel) ->
  exists y, Binary64.YEAR r = Some y /\ (year_from sel - 1 <= y <= year_to sel)%Z.
Proof.
  assert (Hyear : year_ge (Binary64.key r) (year_from sel - 1) = true ->
                  year_le (Binary64.key r) (year_to sel) = true ->
                  exists y, Binary64.YEAR r = Some y
                            /\ (year_from sel - 1 <= y <= year_to sel)%Z).
  { unfold year_ge, year_le. simpl. destruct (Binary64.YEAR r) as [v |]; [| discriminate].
    rewrite !Z.leb_le. intros H1 H2. exists v. split; [reflexivity | lia]. }
  unfold Binary64.growth_filtered. intros H.
  assert (Hcases :
    In r (filter
            (fun r => year_ge (Binary64.key r) (year_from sel - 1)
                      && year_le (Binary64.key r) (year_to sel)
                      && isin (selected_prov str_upper (map Binary64.key df) sel)
                           (Binary64.key r)) df)
    \/ In r (filter
               (fun r => is_indonesia str_upper (Binary64.key r)
                         && year_ge (Binary64.key r) (year_from sel - 1)
                         && year_le (Binary64.key r) (year_to sel)) df)).
  { destruct (include_indonesia sel); [now apply in_app_or | now left]. }
  destruct Hcases as [Hin | Hin]; apply filter_In in Hin; destruct Hin as [Hin Hb];
    apply andb_true_iff in Hb; destruct Hb as [Hb1 Hb2];
    apply andb_true_iff in Hb1; destruct Hb1 as [Hb0 Hb1]; auto.
Qed.

Lemma growth_table_sorted_binary64 :
  StronglySorted
    (fun a b =>
       region_year_before (Binary64.key (Binary64.g_base a))
         (Binary64.key (Binary64.g_base b)) = true)
    (Binary64.growth_table str_upper df sel).
Proof.
  apply StronglySorted_of_map
    with (R := fun a b => region_year_before (Binary64.key a) (Binary64.key b) = true).
  unfold Binary64.growth_table. rewrite with_changes_base_binary64.
  apply sort_by_sorted.
  - intros x y. apply region_year_before_total.
  - intros x y z. apply region_year_before_trans.
Qed.

Lemma growth_table_In_binary64 (g : Binary64.growth_row) :
  In g (Binary64.growth_table str_upper df sel) ->
  In (Binary64.g_base g) (Binary64.growth_filtered str_upper df sel).
Proof.
  intros H. apply (in_map Binary64.g_base) in H. unfold Binary64.growth_table in H.
  rewrite with_changes_base_binary64 in H.
  now apply (Permutation_in _ (sort_by_perm _ _)) in H.
Qed.

(** C4, as the code has it.  In the growth table every region's rows stand
    in ascending year order.  The first row of a region has both columns
    missing and is never a row of pct_df.  Each later row has NOMINAL_CHANGE =
    salary[t] - salary[t-1] and, when neither salary is missing, PCT_CHANGE =
    (salary[t] / salary[t-1] - 1) * 100, each operation rounded to binary64:
    the quotient is formed first, and not the difference.  Salaries 100, 110,
    121 over three consecutive years give NOMINAL_CHANGE 10, 11 and
    PCT_CHANGE 10.000000000000009 (0x1.4000000000005p+3) twice. *)
Theorem growth_columns_in_binary64 :
  forall region : string,
    let group :=
      Binary64.region_group region (Binary64.growth_table str_upper df sel) in
    (forall f,
        nth_error group 0 = Some f ->
        Binary64.isna (Binary64.PCT_CHANGE f) = true
        /\ Binary64.isna (Binary64.NOMINAL_CHANGE f) = true
        /\ forall t, Binary64.pct_df str_upper df sel = Some t -> ~ In f t)
    /\ (forall i a b,
           nth_error group i = Some a -> nth_error group (S i) = Some b ->
           (exists x y,
               Binary64.YEAR (Binary64.g_base a) = Some x
               /\ Binary64.YEAR (Binary64.g_base b) = Some y /\ (x <= y)%Z)
           /\ Binary64.NOMINAL_CHANGE b
              = sub (Binary64.SALARY (Binary64.g_base b))
                  (Binary64.SALARY (Binary64.g_base a))
           /\ (Binary64.isna (Binary64.SALARY (Binary64.g_base a)) = false ->
               Binary64.isna (Binary64.SALARY (Binary64.g_base b)) = false ->
               Binary64.PCT_CHANGE b
               = mul (sub (div (Binary64.SALARY (Binary64.g_base b))
                             (Binary64.SALARY (Binary64.g_base a)))
                        1%float)
                   100%float))
    /\ option_map
         (map (fun g => (Binary64.YEAR (Binary64.g_base g), Binary64.NOMINAL_CHANGE g,
                         Binary64.PCT_CHANGE g)))
         (Binary64.pct_df str_upper Binary64.growth_example (only ["X"] 2020 2022 false 1))
       = Some [ (Some 2021%Z, 10%float, 0x1.4000000000005p+3%float);
                (Some 2022%Z, 11%float, 0x1.4000000000005p+3%float) ].
Proof.
  intros region group. split; [| split].
  - intros f Hf. unfold group, Binary64.growth_table in Hf.
    apply region_group_first_binary64 in Hf. simpl Binary64.shifted in Hf.
    destruct Hf as [Hp Hn].
    assert (Hp' : Binary64.isna (Binary64.PCT_CHANGE f) = true)
      by (rewrite Hp; apply pct_change_cell_of_nan).
    split; [exact Hp' |]. split; [rewrite Hn; apply diff_cell_nan |].
    intros t Ht Hin. unfold Binary64.pct_df in Ht.
    destruct (empty (Binary64.growth_filtered str_upper df sel)); [discriminate |].
    injection Ht as <-. apply filter_In in Hin. destruct Hin as [_ Hin].
    rewrite Hp' in Hin. rewrite andb_false_r in Hin. discriminate.
  - intros i a b Ha Hb.
    pose proof (nth_error_In _ _ Ha) as Hina. pose proof (nth_error_In _ _ Hb) as Hinb.
    unfold group, Binary64.region_group in Hina, Hinb.
    apply filter_In in Hina. apply filter_In in Hinb.
    destruct Hina as [Hina Hra], Hinb as [Hinb Hrb].
    apply String.eqb_eq in Hra. apply String.eqb_eq in Hrb.
    split; [| split].
    + pose proof (StronglySorted_consecutive i
                    (StronglySorted_filter _ growth_table_sorted_binary64) Ha Hb) as Hord.
      simpl in Hord. unfold region_year_before in Hord. simpl in Hord.
      assert (Hcmp : String.compare (Binary64.REGION (Binary64.g_base a))
                       (Binary64.REGION (Binary64.g_base b)) = Eq)
        by (apply String_as_OT.cmp_eq; congruence).
      rewrite Hcmp in Hord.
      apply growth_table_In_binary64, growth_filtered_In_binary64 in Hina.
      apply growth_table_In_binary64, growth_filtered_In_binary64 in Hinb.
      destruct Hina as [x [Hx _]], Hinb as [y [Hy _]].
      rewrite Hx, Hy in Hord. exists x, y. repeat split; try assumption.
      now apply Z.leb_le.
    + unfold group, Binary64.growth_table in Ha, Hb.
      now destruct (region_group_next_binary64 _ _ _ _ Ha Hb) as [_ Hn].
    + intros _ _. unfold group, Binary64.growth_table in Ha, Hb.
      now destruct (region_group_next_binary64 _ _ _ _ Ha Hb) as [Hp _].
  - reflexivity.
Qed.

End Binary64Growth.


(* ================================================================== *)
(** ** Division by zero *)

Lemma zero_is_0 : zero = Fin 0.
Proof. reflexivity. Qed.

Lemma nonzero_compare (a : Q) :
  Qeq_bool a 0 = false -> (a ?= 0)%Q = Lt \/ (a ?= 0)%Q = Gt.
Proof.
  intros H. destruct (a ?= 0)%Q eqn:E; [| now left | now right].
  apply Qeq_alt in E. apply Qeq_bool_iff in E. congruence.
Qed.

(** Over a zero, a number other than zero gives an infinite quotient and
    zero gives a missing one; neither the subtraction of 1 nor the product by
    100 brings the value back. *)
Lemma zero_divisor_cells (s z : fval) :
  feqb z zero = true ->
  (nonzero_number s = true ->
   isinf (pct_change_cell s z) = true /\ isinf (fmul (fdiv s z) hundred) = true)
  /\ (feqb s zero = true ->
      isna (pct_change_cell s z) = true /\ isna (fmul (fdiv s z) hundred) = true).
Proof.
  rewrite zero_is_0. destruct z as [| | b |]; try discriminate. cbn [feqb]. intros Hb.
  unfold pct_change_cell. rewrite one_is_1, hundred_is_100. split.
  - destruct s as [| | a |]; try discriminate. cbn [nonzero_number]. intros Ha.
    apply negb_true_iff in Ha. cbn [fdiv]. rewrite Hb.
    assert (E : signed_inf a = PInf \/ signed_inf a = NInf).
    { unfold signed_inf. destruct (@nonzero_compare a Ha) as [E | E]; rewrite E; auto. }
    destruct E as [E | E]; rewrite E; split; reflexivity.
  - destruct s as [| | a |]; try discriminate. cbn [feqb]. intros Ha.
    cbn [fdiv]. rewrite Hb. unfold signed_inf. apply Qeq_bool_iff in Ha.
    apply Qeq_alt in Ha. rewrite Ha. split; reflexivity.
Qed.

Lemma diff_cell_over_zero (s z : fval) :
  feqb z zero = true -> nonzero_number s = true -> isna (diff_cell s z) = false.
Proof.
  rewrite zero_is_0. destruct z as [| | b |], s as [| | a |]; try discriminate.
  reflexivity.
Qed.

Section NoGuard.

Variable str_upper : string -> string.
Variable df : DataFrame.
Variable sel : FilterSelection.

Lemma rank_growth_rows (t top bot : list growth_row) :
  rank_growth sel t = Some (top, bot) -> forall g, In g (top ++ bot) -> In g t.
Proof.
  unfold rank_growth. destruct (empty t); [discriminate |].
  intros H. injection H as <- <-. intros g Hg. apply in_app_or in Hg.
  destruct Hg as [Hg | Hg]; now apply select_n_In in Hg.
Qed.

(** C1, as the code has it.  Neither division is guarded.  A province row
    of the year range whose national row of the same year has a salary of
    zero stays in df_ratio, with an infinite RATIO when its own salary is a
    number other than zero and a missing RATIO when it is zero.  In the
    growth table a row whose salary is a number other than zero and that
    follows a row of its region with a salary of zero has an infinite
    PCT_CHANGE, and it stays in pct_df when its year is in the range.  The one
    removal is the dropna of line 384: no PCT_CHANGE and no NOMINAL_CHANGE of
    pct_df or of its top/bottom ranking is missing; an infinite one is not
    removed. *)
Theorem metrics_without_zero_guard :
  (forall r m : row,
      In r (filter (isin (selected_prov str_upper df sel)) (df_year df sel)) ->
      In m (df_national_avg str_upper df sel) ->
      same_year r m = true ->
      feqb (SALARY m) zero = true ->
      let ratio := fmul (fdiv (SALARY r) (SALARY m)) hundred in
      (exists ratios,
          df_ratio str_upper df sel = Derived ratios
          /\ In (RatioFrame.mk r (SALARY m) ratio (ratio_status ratio)) ratios)
      /\ (nonzero_number (SALARY r) = true -> isinf ratio = true)
      /\ (feqb (SALARY r) zero = true -> isna ratio = true))
  /\ (forall (region : string) (i : nat) (a b : growth_row),
         let group := region_group region (growth_table str_upper df sel) in
         nth_error group i = Some a -> nth_error group (S i) = Some b ->
         feqb (SALARY (g_base a)) zero = true ->
         nonzero_number (SALARY (g_base b)) = true ->
         isinf (PCT_CHANGE b) = true
         /\ forall t,
             pct_df str_upper df sel = Some t ->
             year_ge (g_base b) (year_from sel) = true -> In b t)
  /\ (forall t,
         pct_df str_upper df sel = Some t ->
         (forall g, In g t ->
                    isna (PCT_CHANGE g) = false /\ isna (NOMINAL_CHANGE g) = false)
         /\ forall top bot,
             rank_growth sel t = Some (top, bot) ->
             forall g, In g (top ++ bot) ->
                       isna (PCT_CHANGE g) = false /\ isna (NOMINAL_CHANGE g) = false).
Proof.
  split; [| split].
  - intros r m Hr Hm Hy Hz ratio.
    pose proof (@In_not_nil _ _ _ Hr) as Hr0. pose proof (@In_not_nil _ _ _ Hm) as Hm0.
    pose proof (@merge_left_matched _ _ _ _ Hr Hm Hy) as Hin.
    destruct (@zero_divisor_cells (SALARY r) _ Hz) as [Hinf Hnan].
    split; [| split].
    + eexists. split; [apply df_ratio_derived; assumption |].
      apply (in_map add_ratio) in Hin. exact Hin.
    + intros Hs. now destruct (Hinf Hs).
    + intros Hs. now destruct (Hnan Hs).
  - intros region i a b group Ha Hb Hz Hs.
    pose proof (nth_error_In _ _ Hb) as Hinb. apply region_group_In in Hinb.
    destruct Hinb as [Hinb _].
    unfold group, growth_table in Ha, Hb.
    destruct (region_group_next _ _ _ _ Ha Hb) as [Hp Hn].
    destruct (@zero_divisor_cells (SALARY (g_base b)) _ Hz) as [Hinf _].
    destruct (Hinf Hs) as [Hpct _]. rewrite <- Hp in Hpct.
    split; [exact Hpct |].
    intros t Ht Hy. apply (@pct_df_In _ _ _ _ b Ht). split; [exact Hinb |]. split; [exact Hy |].
    split.
    + now destruct (PCT_CHANGE b).
    + rewrite Hn. now apply diff_cell_over_zero.
  - intros t Ht.
    assert (Hrows : forall g, In g t ->
                      isna (PCT_CHANGE g) = false /\ isna (NOMINAL_CHANGE g) = false).
    { intros g Hg. apply (@pct_df_In _ _ _ _ g Ht) in Hg. now destruct Hg as [_ [_ Hg]]. }
    split; [exact Hrows |].
    intros top bot Hrank g Hg. apply Hrows. now apply (rank_growth_rows _ Hrank).
Qed.

End NoGuard.

(* ================================================================== *)
(** ** The heatmap *)

Lemma key_eqb_eq (a b : string * Z) : key_eqb a b = true <-> a = b.
Proof.
  destruct a as [r y], b as [r' y']. unfold key_eqb. simpl.
  rewrite andb_true_iff, String.eqb_eq, Z.eqb_eq. split.
  - intros [-> ->]. reflexivity.
  - intros H. injection H as -> ->. now split.
Qed.

Lemma key_eqb_trans_false (k k' k0 : string * Z) :
  key_eqb k' k0 = false -> key_eqb k k0 = true -> key_eqb k k' = false.
Proof.
  intros Hne Heq. apply key_eqb_eq in Heq. subst k0.
  destruct (key_eqb k k') eqn:E; [| reflexivity].
  apply key_eqb_eq in E. subst k'.
  assert (Hrefl : key_eqb k k = true) by now apply key_eqb_eq.
  congruence.
Qed.

Lemma add_all_cons (s : fval) (l : list fval) (o : option (fval * nat)) :
  add_all (s :: l) o = add_all l (add_all [s] o).
Proof. reflexivity. Qed.

Lemma add_all_some (l : list fval) (total : fval) (n : nat) :
  add_all l (Some (total, n)) = Some (fold_left fadd l total, (n + length l)%nat).
Proof.
  revert total n. induction l as [| s l IH]; intros total n.
  - simpl. now rewrite Nat.add_0_r.
  - rewrite add_all_cons. simpl add_all at 2. rewrite IH. simpl.
    now rewrite Nat.add_succ_r.
Qed.

Lemma add_all_none (s : fval) (l : list fval) :
  add_all (s :: l) None = Some (fsum (s :: l), length (s :: l)).
Proof. rewrite add_all_cons. simpl add_all at 2. now rewrite add_all_some. Qed.

Lemma lookup_sum_add_obs (k k' : string * Z) (s : fval)
      (acc : list ((string * Z) * (fval * nat))) :
  lookup_sum k (add_obs k' s acc)
  = if key_eqb k k' then add_all [s] (lookup_sum k acc) else lookup_sum k acc.
Proof.
  induction acc as [| [k0 [total n]] rest IH]; simpl.
  - now destruct (key_eqb k k').
  - destruct (key_eqb k' k0) eqn:E0; simpl.
    + apply key_eqb_eq in E0. subst k0. now destruct (key_eqb k k').
    + destruct (key_eqb k k0) eqn:E1.
      * now rewrite (@key_eqb_trans_false _ _ _ E0 E1).
      * exact IH.
Qed.

Lemma lookup_sum_fold (region : string) (year : Z) (rows : list row)
      (acc : list ((string * Z) * (fval * nat))) :
  lookup_sum (region, year)
    (fold_left
       (fun acc r =>
          match YEAR r with
          | None => acc
          | Some y => if isna (SALARY r) then acc else add_obs (REGION r, y) (SALARY r) acc
          end)
       rows acc)
  = add_all (filter (fun s => negb (isna s)) (cell_salaries rows region year))
      (lookup_sum (region, year) acc).
Proof.
  revert acc. induction rows as [| r rest IH]; intros acc; [reflexivity |].
  simpl fold_left. rewrite IH. unfold cell_salaries. simpl filter.
  unfold year_eq at 2. destruct (YEAR r) as [y |].
  - assert (Hkey : key_eqb (region, year) (REGION r, y)
                   = String.eqb (REGION r) region && (y =? year)%Z).
    { unfold key_eqb. simpl. now rewrite String.eqb_sym, Z.eqb_sym. }
    destruct (isna (SALARY r)) eqn:Hna.
    + destruct (String.eqb (REGION r) region && (y =? year)%Z); simpl;
        [rewrite Hna |]; reflexivity.
    + rewrite lookup_sum_add_obs, Hkey.
      destruct (String.eqb (REGION r) region && (y =? year)%Z); simpl;
        [rewrite Hna |]; reflexivity.
  - rewrite andb_false_r. reflexivity.
Qed.

Lemma lookup_mean_group_means (k : string * Z) (rows : list row) :
  lookup_mean k (group_means rows)
  = option_map (fun tn => fdiv (fst tn) (of_Z (Z.of_nat (snd tn))))
      (lookup_sum k (group_sums rows)).
Proof.
  unfold group_means. induction (group_sums rows) as [| [k' tn] rest IH]; simpl;
    [reflexivity |].
  now destruct (key_eqb k k').
Qed.

Lemma lookup_mean_In (k : string * Z) (means : list ((string * Z) * fval)) (m : fval) :
  lookup_mean k means = Some m -> In (k, m) means.
Proof.
  induction means as [| [k' m'] rest IH]; simpl; [discriminate |].
  destruct (key_eqb k k') eqn:E.
  - intros H. injection H as ->. apply key_eqb_eq in E. subst. now left.
  - intros H. right. now apply IH.
Qed.

(** The mean of a non-empty list of numbers is a number. *)
Lemma fold_fadd_finite (l : list fval) (q : Q) :
  Forall (fun s => is_finite s = true) l ->
  is_finite (fold_left fadd l (Fin q)) = true.
Proof.
  intros H. revert q. induction H as [| s l Hs Hl IH]; intros q; [reflexivity |].
  destruct s as [| | a |]; try discriminate. simpl. apply IH.
Qed.

Lemma fmean_finite (l : list fval) :
  l <> [] -> Forall (fun s => is_finite s = true) l -> is_finite (fmean l) = true.
Proof.
  intros Hne Hall. unfold fmean, fsum.
  pose proof (fold_fadd_finite (Qred (inject_Z 0)) Hall) as Hsum.
  change (fold_left fadd l zero) with (fold_left fadd l (Fin (Qred (inject_Z 0)))).
  destruct (fold_left fadd l (Fin (Qred (inject_Z 0)))) as [| | t |]; try discriminate.
  unfold of_Z. cbn [fdiv fin].
  assert (Hnz : Qeq_bool (Qred (inject_Z (Z.of_nat (length l)))) 0 = false).
  { destruct (Qeq_bool _ 0) eqn:E; [| reflexivity].
    apply Qeq_bool_iff in E. rewrite Qred_correct in E.
    unfold Qeq, inject_Z in E. simpl in E.
    destruct l; [contradiction | simpl in E; lia]. }
  now rewrite Hnz.
Qed.

Lemma filter_all_finite (l : list fval) :
  Forall (fun s => is_finite s = true) l -> filter (fun s => negb (isna s)) l = l.
Proof.
  induction 1 as [| s l Hs Hl IH]; simpl; [reflexivity |].
  destruct s; try discriminate. simpl. now rewrite IH.
Qed.



Lemma unique_In (A : Type) (eqb : A -> A -> bool) (x : A) (l seen : list A) :
  (forall a b, eqb a b = true <-> a = b) ->
  In x l -> existsb (eqb x) seen = false -> In x (unique eqb seen l).
Proof.
  intros Hspec. revert seen. induction l as [| y rest IH]; intros seen Hin Hseen;
    [contradiction |].
  simpl. destruct Hin as [-> | Hin].
  - rewrite Hseen. now left.
  - destruct (existsb (eqb y) seen) eqn:Ey; [now apply IH |].
    destruct (eqb x y) eqn:Exy.
    + apply Hspec in Exy. subst. now left.
    + right. apply IH; [assumption |]. simpl. now rewrite Exy.
Qed.




Lemma kept_group_labels (rows : list row) (region : string) (year : Z) (m : fval) :
  lookup_mean (region, year) (group_means rows) = Some m -> isna m = false ->
  In region (pivot_index rows) /\ In year (pivot_columns rows).
Proof.
  intros Hl Hna. apply lookup_mean_In in Hl.
  assert (Hk : In (region, year) (kept_groups rows)).
  { unfold kept_groups.
    apply (in_map fst (filter (fun km => negb (isna (snd km))) (group_means rows))
             ((region, year), m)).
    apply filter_In. split; [assumption |]. simpl. now rewrite Hna. }
  split.
  - unfold pivot_index.
    apply (Permutation_in _ (Permutation_sym (sort_by_perm String.leb _))).
    apply unique_In; [exact String.eqb_eq | | reflexivity].
    apply (in_map fst _ _ Hk).
  - unfold pivot_columns.
    apply (Permutation_in _ (Permutation_sym (sort_by_perm Z.leb _))).
    apply unique_In; [exact Z.eqb_eq | | reflexivity].
    apply (in_map snd _ _ Hk).
Qed.


Section Heatmap.

Variable str_upper : string -> string.
Variable df : DataFrame.
Variable sel : FilterSelection.


End Heatmap.

(* ================================================================== *)
(** ** Empty tables *)

(** C3.  An empty stage is not always short-circuited; three runs end in
    an exception:
    - in the sparse table with province X picked, the year 2020 and the
      national average switched off, growth_filtered is empty, pct_df is
      never assigned, and line 441 raises NameError;
    - with the national average switched on the growth card runs, but the
      ratio card has no province row: top_ratio is never assigned and line
      838 raises NameError;
    - in a year with province rows and no national row, df_gap keeps no GAP
      column and line 662 raises KeyError. *)
Theorem empty_stage_raises :
  dashboard ascii_upper sparse_table (only ["X"] 2020 2020 false 1)
  = Raise (NameError "pct_df")
  /\ growth_filtered ascii_upper sparse_table (only ["X"] 2020 2020 false 1) = []
  /\ dashboard ascii_upper sparse_table (only ["X"] 2020 2020 true 1)
     = Raise (NameError "top_ratio")
  /\ df_ratio ascii_upper sparse_table (only ["X"] 2020 2020 true 1) = Plain []
  /\ dashboard ascii_upper no_national_table (all_provinces 2020 2020 true 1)
     = Raise (KeyError "GAP")
  /\ df_national_avg ascii_upper no_national_table (all_provinces 2020 2020 true 1) = [].
Proof. repeat split; vm_compute; reflexivity. Qed.

(* ================================================================== *)
(** ** The theorems on the example tables *)

(** The exact-year branch on the year 2024 of the small table. *)
Lemma exact_year_branch_on_small_table :
  df_year small_table (all_provinces 2024 2024 true 1) = df_year_exact small_table 2024
  /\ df_year_exact small_table 2024 = df_year_range small_table 2024 2024
  /\ map REGION (df_year_range small_table 2024 2024) = ["INDONESIA"; "Jakarta"; "Bali"].
Proof.
  destruct (@exact_year_branch_is_inclusive_range small_table
              (all_provinces 2024 2024 true 1) 2024%Z eq_refl eq_refl) as [H1 [H2 _]].
  split; [exact H1 |]. split; [exact H2 | reflexivity].
Defined.

(** From every province over 2023-2024 down to Jakarta in 2024. *)
Lemma narrowing_on_small_table :
  narrowed ascii_upper small_table
    (only ["Jakarta"] 2024 2024 true 1) (all_provinces 2023 2024 true 1)
  /\ (length (df_year small_table (only ["Jakarta"] 2024 2024 true 1))
      <= length (df_year small_table (all_provinces 2023 2024 true 1)))%nat
  /\ (length (df_national ascii_upper small_table (only ["Jakarta"] 2024 2024 true 1))
      <= length (df_national ascii_upper small_table (all_provinces 2023 2024 true 1)))%nat
  /\ (length (df_prov ascii_upper small_table (only ["Jakarta"] 2024 2024 true 1))
      <= length (df_prov ascii_upper small_table (all_provinces 2023 2024 true 1)))%nat.
Proof.
  assert (H : narrowed ascii_upper small_table
                (only ["Jakarta"] 2024 2024 true 1) (all_provinces 2023 2024 true 1)).
  { unfold narrowed. simpl. split; [lia |]. split; [lia |]. right.
    split; [reflexivity |]. split; [discriminate |].
    intros x [<- | []]. vm_compute. auto. }
  split; [exact H |].
  exact (@narrowing_never_adds_rows ascii_upper small_table _ _ H).
Defined.

(** The national row of 2024 is ranked although only Bali is selected and
    the national average is switched off; the growth input then holds Bali's
    rows alone, and ticking the box adds the two national rows. *)
Lemma national_row_ranked_on_small_table :
  In indonesia_2024 (prov_filtered ascii_upper small_table (only ["Bali"] 2024 2024 false 1))
  /\ map REGION (prov_filtered ascii_upper small_table (only ["Bali"] 2024 2024 false 1))
     = ["INDONESIA"; "Bali"]
  /\ map REGION (growth_filtered ascii_upper small_table (only ["Bali"] 2024 2024 false 1))
     = ["Bali"; "Bali"]
  /\ In indonesia_2024
       (growth_filtered ascii_upper small_table (only ["Bali"] 2024 2024 true 1))
  /\ In indonesia_2024 (df_heat ascii_upper small_table (only ["Bali"] 2024 2024 true 1))
  /\ map REGION (df_heat ascii_upper small_table (only ["Bali"] 2024 2024 false 1))
     = ["Bali"].
Proof.
  assert (Hin : In indonesia_2024 small_table) by (vm_compute; auto).
  assert (Hyear : In indonesia_2024
                    (df_year small_table (only ["Bali"] 2024 2024 false 1)))
    by (vm_compute; auto).
  destruct (@national_rows_always_ranked ascii_upper small_table
              (only ["Bali"] 2024 2024 false 1)) as [H1 [_ [H3 [_ [H5 _]]]]].
  split; [exact (H1 indonesia_2024 Hin eq_refl eq_refl) |].
  split; [reflexivity |]. split; [reflexivity |].
  split; [exact (H3 indonesia_2024 Hin eq_refl eq_refl eq_refl) |].
  split; [exact (H5 indonesia_2024 Hyear eq_refl) | reflexivity].
Defined.

(** Jakarta against the national row in 2024: gap 2100000, ratio 170. *)
Lemma gap_and_ratio_on_small_table :
  (exists gaps,
      df_gap ascii_upper small_table (only ["Jakarta"] 2024 2024 true 1) = Derived gaps
      /\ In (GapFrame.mk jakarta_2024 (salary 3000000) (salary 2100000)
               "Above National Average") gaps)
  /\ (exists ratios,
         df_ratio ascii_upper small_table (only ["Jakarta"] 2024 2024 true 1)
         = Derived ratios
         /\ In (RatioFrame.mk jakarta_2024 (salary 3000000) (salary 170)
                  "Above National Average") ratios).
Proof.
  assert (Hr : In jakarta_2024
                 (filter (isin (selected_prov ascii_upper small_table
                                  (only ["Jakarta"] 2024 2024 true 1)))
                    (df_year small_table (only ["Jakarta"] 2024 2024 true 1))))
    by (vm_compute; auto).
  assert (Hm : In indonesia_2024
                 (df_national_avg ascii_upper small_table
                    (only ["Jakarta"] 2024 2024 true 1)))
    by (vm_compute; auto).
  destruct (@gap_and_ratio_of_matched_row ascii_upper small_table
              (only ["Jakarta"] 2024 2024 true 1) jakarta_2024 indonesia_2024
              Hr Hm eq_refl) as [Hgap [Hratio _]].
  split; [exact Hgap | exact Hratio].
Defined.

(** Jakarta in 2024 has no national row in the gappy table and is kept. *)
Lemma unmatched_row_on_gappy_table :
  (exists gaps,
      df_gap ascii_upper gappy_table (only ["Jakarta"] 2023 2024 true 1) = Derived gaps
      /\ In (GapFrame.mk jakarta_2024 NaN NaN "Below National Average") gaps)
  /\ (exists ratios,
         df_ratio ascii_upper gappy_table (only ["Jakarta"] 2023 2024 true 1)
         = Derived ratios
         /\ In (RatioFrame.mk jakarta_2024 NaN NaN "Below National Average") ratios).
Proof.
  assert (Hr : In jakarta_2024
                 (filter (isin (selected_prov ascii_upper gappy_table
                                  (only ["Jakarta"] 2023 2024 true 1)))
                    (df_year gappy_table (only ["Jakarta"] 2023 2024 true 1))))
    by (vm_compute; auto).
  assert (Hn : df_national_avg ascii_upper gappy_table (only ["Jakarta"] 2023 2024 true 1)
               <> []) by (vm_compute; discriminate).
  exact (@unmatched_row_is_kept_with_missing_values ascii_upper gappy_table
           (only ["Jakarta"] 2023 2024 true 1) jakarta_2024 Hr Hn eq_refl).
Defined.

(** C2 as stated fails: in the gappy table the only national row is that of
    2023; with Jakarta picked and the range 2023-2024, Jakarta's row of 2024
    lies in the range and has no national row of its year, and yet it is a
    row of the gap frame and of the ratio frame, with a STATUS, and the run
    reaches the footer with both frames. *)
Lemma unmatched_row_is_not_excluded :
  In jakarta_2024 (df_year gappy_table (only ["Jakarta"] 2023 2024 true 1))
  /\ filter (same_year jakarta_2024)
       (df_national_avg ascii_upper gappy_table (only ["Jakarta"] 2023 2024 true 1)) = []
  /\ exists v,
       dashboard ascii_upper gappy_table (only ["Jakarta"] 2023 2024 true 1) = Done v
       /\ v_df_gap v
          = Derived
              [ GapFrame.mk (mk_row "Jakarta" (salary 4900000) (Some 2023%Z))
                  (salary 2800000) (salary 2100000) "Above National Average";
                GapFrame.mk jakarta_2024 NaN NaN "Below National Average" ]
       /\ v_df_ratio v
          = Derived
              [ RatioFrame.mk (mk_row "Jakarta" (salary 4900000) (Some 2023%Z))
                  (salary 2800000) (salary 175) "Above National Average";
                RatioFrame.mk jakarta_2024 NaN NaN "Below National Average" ].
Proof.
  split; [vm_compute; auto |]. split; [reflexivity |].
  eexists. split; [vm_compute; reflexivity |]. split; vm_compute; reflexivity.
Qed.

(** C1 as stated fails: a national salary of 0 puts +Infinity in the RATIO
    column of df_ratio and of its top ranking, and a prior-year salary of 0
    puts +Infinity in the PCT_CHANGE column of pct_df and of its top
    ranking; both runs reach the footer. *)
Lemma zero_divisor_gives_infinity :
  (exists v,
      dashboard ascii_upper zero_national_table (only ["Jakarta"] 2024 2024 true 1) = Done v
      /\ v_df_ratio v
         = Derived [ RatioFrame.mk jakarta_2024 (salary 0) PInf "Above National Average" ]
      /\ map RatioFrame.RATIO (v_top_ratio v) = [PInf])
  /\ (exists v,
         dashboard ascii_upper zero_prior_table (only ["Jakarta"] 2024 2024 false 1) = Done v
         /\ v_pct_df v = [ mk_growth jakarta_2024 PInf (salary 5100000) ]
         /\ option_map (fun ranked => map PCT_CHANGE (fst ranked)) (v_top_pct v)
            = Some [PInf]).
Proof.
  split; eexists; (split; [vm_compute; reflexivity |]); split; vm_compute; reflexivity.
Qed.

(** Jakarta in 2024 over a national salary of zero, and after a salary of
    zero in 2023: the row stays in df_ratio and in pct_df, with an infinite
    RATIO and an infinite PCT_CHANGE. *)
Lemma zero_divisors_on_example_tables :
  (exists ratios,
      df_ratio ascii_upper zero_national_table (only ["Jakarta"] 2024 2024 true 1)
      = Derived ratios
      /\ In (RatioFrame.mk jakarta_2024 (salary 0) PInf "Above National Average") ratios)
  /\ (exists a b t,
         nth_error
           (region_group "Jakarta"
              (growth_table ascii_upper zero_prior_table
                 (only ["Jakarta"] 2024 2024 false 1))) 0 = Some a
         /\ nth_error
              (region_group "Jakarta"
                 (growth_table ascii_upper zero_prior_table
                    (only ["Jakarta"] 2024 2024 false 1))) 1 = Some b
         /\ SALARY (g_base a) = salary 0 /\ g_base b = jakarta_2024
         /\ isinf (PCT_CHANGE b) = true
         /\ pct_df ascii_upper zero_prior_table (only ["Jakarta"] 2024 2024 false 1)
            = Some t
         /\ In b t).
Proof.
  destruct (@metrics_without_zero_guard ascii_upper zero_national_table
              (only ["Jakarta"] 2024 2024 true 1)) as [Hratio _].
  destruct (@metrics_without_zero_guard ascii_upper zero_prior_table
              (only ["Jakarta"] 2024 2024 false 1)) as [_ [Hgrowth _]].
  split.
  - assert (Hr : In jakarta_2024
                   (filter (isin (selected_prov ascii_upper zero_national_table
                                    (only ["Jakarta"] 2024 2024 true 1)))
                      (df_year zero_national_table (only ["Jakarta"] 2024 2024 true 1))))
      by (vm_compute; auto).
    assert (Hm : In (mk_row "INDONESIA" (salary 0) (Some 2024%Z))
                   (df_national_avg ascii_upper zero_national_table
                      (only ["Jakarta"] 2024 2024 true 1)))
      by (vm_compute; auto).
    exact (proj1 (Hratio jakarta_2024 (mk_row "INDONESIA" (salary 0) (Some 2024%Z))
                    Hr Hm eq_refl eq_refl)).
  - eexists. eexists. eexists.
    split; [vm_compute; reflexivity |]. split; [vm_compute; reflexivity |].
    split; [reflexivity |]. split; [reflexivity |].
    match goal with
    | |- isinf (PCT_CHANGE ?b) = true /\ _ =>
        destruct (Hgrowth "Jakarta" 0%nat _ b eq_refl eq_refl eq_refl eq_refl) as [H1 H2]
    end.
    split; [exact H1 |]. split; [vm_compute; reflexivity |].
    apply H2; reflexivity.
Defined.

Section Binary64Example.

Import PrimFloat.

(** Region X of the growth example in binary64: the row of 2021 follows
    that of 2020, with NOMINAL_CHANGE 110 - 100 and PCT_CHANGE
    (110 / 100 - 1) * 100. *)
Lemma growth_columns_on_binary64_example :
  let group :=
    Binary64.region_group "X"
      (Binary64.growth_table ascii_upper Binary64.growth_example
         (only ["X"] 2020 2022 false 1)) in
  map (fun g => Binary64.YEAR (Binary64.g_base g)) group
  = [Some 2020%Z; Some 2021%Z; Some 2022%Z]
  /\ (forall f, nth_error group 0 = Some f ->
                Binary64.isna (Binary64.PCT_CHANGE f) = true
                /\ Binary64.isna (Binary64.NOMINAL_CHANGE f) = true)
  /\ (forall a b,
         nth_error group 0 = Some a -> nth_error group 1 = Some b ->
         Binary64.NOMINAL_CHANGE b = 10%float
         /\ Binary64.PCT_CHANGE b = 0x1.4000000000005p+3%float).
Proof.
  intros group.
  destruct (@growth_columns_in_binary64 ascii_upper Binary64.growth_example
              (only ["X"] 2020 2022 false 1) "X") as [Hfirst [Hnext _]].
  fold group in Hfirst, Hnext.
  split; [reflexivity |]. split.
  - intros f Hf. destruct (Hfirst f Hf) as [H1 [H2 _]]. now split.
  - intros a b Ha Hb. destruct (Hnext 0%nat a b Ha Hb) as [_ [Hn Hp]].
    vm_compute in Ha, Hb. injection Ha as <-. injection Hb as <-.
    split; [exact Hn | exact (Hp eq_refl eq_refl)].
Defined.

(** C4 as stated fails on its own example.  For the salaries 100, 110, 121
    the code gives a PCT_CHANGE of 10.000000000000009 for 2021 and for 2022,
    which is not 10.0: 110 / 100 and 121 / 110 are rounded before 1 is
    subtracted.  The formula of the claim, evaluated in binary64 in the order
    it is written, gives 10.0 for 2021: it is not what the code computes. *)
Lemma percent_change_is_rounded :
  option_map (map Binary64.PCT_CHANGE)
    (Binary64.pct_df ascii_upper Binary64.growth_example (only ["X"] 2020 2022 false 1))
  = Some [0x1.4000000000005p+3%float; 0x1.4000000000005p+3%float]
  /\ eqb 0x1.4000000000005p+3%float 10%float = false
  /\ Binary64.percent_change 110%float 100%float = 10%float
  /\ eqb (Binary64.pct_change_cell 110%float 100%float)
         (Binary64.percent_change 110%float 100%float) = false.
Proof. repeat split. Qed.

End Binary64Example.



(* ================================================================== *)
(** ** How a run ends *)

Lemma filter_all_true (A : Type) (f : A -> bool) (l : list A) :
  (forall x, In x l -> f x = true) -> filter f l = l.
Proof.
  induction l as [| x l IH]; intros H; simpl; [reflexivity |].
  rewrite (H x (or_introl eq_refl)). f_equal. apply IH. intros y Hy. apply H. now right.
Qed.

Lemma in_range_iff (sel : FilterSelection) (r : row) :
  in_range sel r = true
  <-> exists y, YEAR r = Some y /\ (year_from sel <= y <= year_to sel)%Z.
Proof.
  unfold in_range, year_ge, year_le. destruct (YEAR r) as [v |].
  - rewrite andb_true_iff, !Z.leb_le. split.
    + intros H. exists v. split; [reflexivity | lia].
    + intros [y [Hy Hb]]. injection Hy as ->. lia.
  - split; [discriminate | intros [y [Hy _]]; discriminate].
Qed.

Lemma df_year_in_range (df : DataFrame) (sel : FilterSelection) (r : row) :
  In r (df_year df sel) <-> In r df /\ in_range sel r = true.
Proof. rewrite df_year_is_range, df_year_range_In, in_range_iff. reflexivity. Qed.

Lemma merge_left_nonempty (left national : list row) :
  left <> [] -> merge_left left national <> [].
Proof.
  destruct left as [| r rest]; [contradiction |]. intros _. unfold merge_left. simpl.
  destruct (filter (same_year r) national); simpl; discriminate.
Qed.

Section Outcome.

Variable str_upper : string -> string.
Variable df : DataFrame.
Variable sel : FilterSelection.

Let regional : DataFrame := filter (isin (selected_prov str_upper df sel)) (df_year df sel).

Lemma regional_in_range (r : row) : In r regional -> in_range sel r = true.
Proof. unfold regional. rewrite filter_In, df_year_in_range. tauto. Qed.

Lemma rank_gap_whole (gaps : list GapFrame.t) :
  df_gap str_upper df sel = Derived gaps ->
  gaps <> []
  /\ rank_gap str_upper df sel
     = Done (Some (nlargest (top_bottom_n sel) GapFrame.GAP gaps,
                   nsmallest (top_bottom_n sel) GapFrame.GAP gaps)).
Proof.
  intros Hd.
  assert (Hall : filter (fun g => in_range sel (GapFrame.base g)) gaps = gaps).
  { apply filter_all_true. intros g Hg.
    destruct (@gap_frame_columns _ _ _ _ _ Hd Hg) as [_ [_ Hb]].
    now apply regional_in_range. }
  assert (Hne : gaps <> []).
  { rewrite (@df_gap_rows _ _ _ _ Hd). intros E. apply map_eq_nil in E. revert E.
    apply merge_left_nonempty. unfold df_gap in Hd.
    destruct (filter (isin (selected_prov str_upper df sel)) (df_year df sel));
      [discriminate | discriminate]. }
  split; [exact Hne |]. unfold rank_gap. rewrite Hd, Hall.
  destruct gaps; [contradiction | reflexivity].
Qed.

Lemma rank_ratio_whole (ratios : list RatioFrame.t) :
  df_ratio str_upper df sel = Derived ratios ->
  ratios <> []
  /\ rank_ratio str_upper df sel
     = Done (Some (nlargest (top_bottom_n sel) RatioFrame.RATIO ratios,
                   nsmallest (top_bottom_n sel) RatioFrame.RATIO ratios)).
Proof.
  intros Hd.
  assert (Hall : filter (fun g => in_range sel (RatioFrame.base g)) ratios = ratios).
  { apply filter_all_true. intros g Hg.
    destruct (@ratio_frame_columns _ _ _ _ _ Hd Hg) as [_ [_ [Hb _]]].
    now apply regional_in_range. }
  assert (Hne : ratios <> []).
  { rewrite (@df_ratio_rows _ _ _ _ Hd). intros E. apply map_eq_nil in E. revert E.
    apply merge_left_nonempty. unfold df_ratio in Hd.
    destruct (filter (isin (selected_prov str_upper df sel)) (df_year df sel));
      [discriminate | discriminate]. }
  split; [exact Hne |]. unfold rank_ratio. rewrite Hd, Hall.
  destruct ratios; [contradiction | reflexivity].
Qed.

(** X3.  Once df_gap (df_ratio) has its derived columns, the year filter of
    line 658 (822) keeps every row of it: the ranking is taken over the whole
    frame, which is not empty, so the "No data to calculate Top/Bottom"
    warning of these two cards is shown only for a frame without derived
    columns. *)
Theorem derived_frames_are_ranked_whole :
  (forall gaps,
      df_gap str_upper df sel = Derived gaps ->
      gaps <> []
      /\ rank_gap str_upper df sel
         = Done (Some (nlargest (top_bottom_n sel) GapFrame.GAP gaps,
                       nsmallest (top_bottom_n sel) GapFrame.GAP gaps)))
  /\ (forall ratios,
         df_ratio str_upper df sel = Derived ratios ->
         ratios <> []
         /\ rank_ratio str_upper df sel
            = Done (Some (nlargest (top_bottom_n sel) RatioFrame.RATIO ratios,
                          nsmallest (top_bottom_n sel) RatioFrame.RATIO ratios))).
Proof. split; [exact rank_gap_whole | exact rank_ratio_whole]. Qed.

End Outcome.

Lemma empty_true_iff (A : Type) (l : list A) : empty l = true <-> l = [].
Proof. destruct l; simpl; split; congruence. Qed.

Section RunEnds.

Variable str_upper : string -> string.
Variable df : DataFrame.
Variable sel : FilterSelection.

Local Abbreviation regional :=
  (filter (isin (selected_prov str_upper df sel)) (df_year df sel)).
Local Abbreviation national := (df_national_avg str_upper df sel).

Lemma rank_plain_empty :
  regional = [] ->
  rank_gap str_upper df sel = Done None /\ rank_ratio str_upper df sel = Done None.
Proof.
  intros H. unfold rank_gap, rank_ratio, df_gap, df_ratio. rewrite H.
  split; reflexivity.
Qed.

Lemma rank_plain_raises :
  regional <> [] -> national = [] ->
  rank_gap str_upper df sel = Raise (KeyError "GAP")
  /\ rank_ratio str_upper df sel = Raise (KeyError "RATIO").
Proof.
  intros Hr Hn. unfold rank_gap, rank_ratio, df_gap, df_ratio. rewrite Hn.
  rewrite orb_true_r.
  rewrite (filter_all_true (in_range sel) regional).
  - apply empty_false_iff in Hr. now rewrite Hr.
  - intros r. apply regional_in_range.
Qed.

Lemma rank_derived :
  regional <> [] -> national <> [] ->
  exists top_gap top_ratio bot_ratio,
    rank_gap str_upper df sel = Done (Some top_gap)
    /\ rank_ratio str_upper df sel = Done (Some (top_ratio, bot_ratio)).
Proof.
  intros Hr Hn.
  destruct (@rank_gap_whole str_upper df sel _ (@df_gap_derived str_upper df sel Hr Hn))
    as [_ Hgap].
  destruct (@rank_ratio_whole str_upper df sel _ (@df_ratio_derived str_upper df sel Hr Hn))
    as [_ Hratio].
  eexists. eexists. eexists. split; [exact Hgap | exact Hratio].
Qed.

(** X2.  The three ranking stages, each taken when the run reaches it, for
    every table and selection.  pct_df is unassigned when line 441 reads it
    exactly when the growth input is empty.  Line 662 raises KeyError on GAP
    exactly when the year range holds rows of the selected provinces and no
    national row; line 827 would raise KeyError on RATIO on the same frames
    and no others, so it never is the first to fail.  The ratio ranking
    leaves top_ratio and bot_ratio unassigned for line 838 exactly when the
    year range holds no row of the selected provinces, and the gap ranking
    then shows its warning. *)
Theorem ranking_failures_by_stage :
  (pct_df str_upper df sel = None <-> growth_filtered str_upper df sel = [])
  /\ (rank_gap str_upper df sel = Raise (KeyError "GAP")
      <-> regional <> [] /\ national = [])
  /\ (rank_ratio str_upper df sel = Raise (KeyError "RATIO")
      <-> rank_gap str_upper df sel = Raise (KeyError "GAP"))
  /\ (rank_ratio str_upper df sel = Done None <-> regional = [])
  /\ (rank_gap str_upper df sel = Done None <-> regional = []).
Proof.
  assert (Hcases :
    (regional = []
     /\ rank_gap str_upper df sel = Done None /\ rank_ratio str_upper df sel = Done None)
    \/ (regional <> [] /\ national = []
        /\ rank_gap str_upper df sel = Raise (KeyError "GAP")
        /\ rank_ratio str_upper df sel = Raise (KeyError "RATIO"))
    \/ (regional <> [] /\ national <> []
        /\ exists top_gap top_ratio bot_ratio,
            rank_gap str_upper df sel = Done (Some top_gap)
            /\ rank_ratio str_upper df sel = Done (Some (top_ratio, bot_ratio)))).
  { destruct (empty regional) eqn:Er;
      [apply empty_true_iff in Er | apply empty_false_iff in Er].
    { left. split; [exact Er | now apply rank_plain_empty]. }
    destruct (empty national) eqn:En;
      [apply empty_true_iff in En | apply empty_false_iff in En].
    { right. left. split; [exact Er |]. split; [exact En | now apply rank_plain_raises]. }
    right. right. split; [exact Er |]. split; [exact En | now apply rank_derived]. }
  split; [| split; [| split; [| split]]].
  - unfold pct_df. destruct (empty (growth_filtered str_upper df sel)) eqn:E.
    + apply empty_true_iff in E. now split.
    + apply empty_false_iff in E. split; [discriminate | contradiction].
  - destruct Hcases as [[Hr [Hg _]] | [[Hr [Hn [Hg _]]] | [Hr [Hn [tg [tr [br [Hg _]]]]]]]];
      rewrite Hg; split; try discriminate; try (intros [H1 H2]; contradiction);
      intros _; now split.
  - destruct Hcases as [[_ [Hg Hq]] | [[_ [_ [Hg Hq]]] | [_ [_ [tg [tr [br [Hg Hq]]]]]]]];
      rewrite Hg, Hq; split; try discriminate; reflexivity.
  - destruct Hcases as [[Hr [_ Hq]] | [[Hr [_ [_ Hq]]] | [Hr [_ [tg [tr [br [_ Hq]]]]]]]];
      rewrite Hq; split; try discriminate; try contradiction; intros _;
      try reflexivity; exact Hr.
  - destruct Hcases as [[Hr [Hg _]] | [[Hr [_ [Hg _]]] | [Hr [_ [tg [tr [br [Hg _]]]]]]]];
      rewrite Hg; split; try discriminate; try contradiction; intros _;
      try reflexivity; exact Hr.
Qed.

End RunEnds.

(* ================================================================== *)
(** ** The left merge keeps the province rows *)

Lemma filter_all_false (A : Type) (f : A -> bool) (l : list A) :
  (forall x, In x l -> f x = false) -> filter f l = [].
Proof.
  induction l as [| x l IH]; intros H; simpl; [reflexivity |].
  rewrite (H x (or_introl eq_refl)). apply IH. intros y Hy. apply H. now right.
Qed.

Lemma same_year_iff (a b : row) : same_year a b = true <-> YEAR a = YEAR b.
Proof.
  unfold same_year. destruct (YEAR a) as [x |], (YEAR b) as [y |].
  - rewrite Z.eqb_eq. split; [now intros -> | intros H; now injection H].
  - split; discriminate.
  - split; discriminate.
  - split; reflexivity.
Qed.

Lemma filter_same_year_unique (r : row) (national : list row) :
  NoDup (map YEAR national) -> (length (filter (same_year r) national) <= 1)%nat.
Proof.
  induction national as [| m rest IH]; intros Hnd; simpl; [lia |].
  inversion Hnd as [| y ys Hnotin Hrest]; subst.
  destruct (same_year r m) eqn:E; [| now apply IH].
  simpl. apply same_year_iff in E.
  assert (Hnone : filter (same_year r) rest = []).
  { apply filter_all_false. intros m' Hm'.
    destruct (same_year r m') eqn:E'; [| reflexivity].
    exfalso. apply Hnotin. apply same_year_iff in E'.
    rewrite <- E, E'. now apply in_map. }
  rewrite Hnone. simpl. lia.
Qed.

Lemma merge_left_cons (r : row) (rest national : list row) :
  merge_left (r :: rest) national
  = (match filter (same_year r) national with
     | [] => [(r, NaN)]
     | m :: ms => map (fun m' => (r, SALARY m')) (m :: ms)
     end ++ merge_left rest national)%list.
Proof. reflexivity. Qed.

Lemma merge_left_length (left national : list row) :
  (length left <= length (merge_left left national))%nat.
Proof.
  induction left as [| r rest IH]; [simpl; lia |].
  rewrite merge_left_cons, length_app.
  destruct (filter (same_year r) national) as [| m ms]; simpl; lia.
Qed.

Lemma merge_left_one_to_one (left national : list row) :
  NoDup (map YEAR national) -> map fst (merge_left left national) = left.
Proof.
  intros Hnd. induction left as [| r rest IH]; [reflexivity |].
  rewrite merge_left_cons, map_app, IH.
  pose proof (@filter_same_year_unique r _ Hnd) as Hlen.
  destruct (filter (same_year r) national) as [| m [| m' ms]]; simpl in *;
    [reflexivity | reflexivity | lia].
Qed.

Section MergeRows.

Variable str_upper : string -> string.
Variable df : DataFrame.
Variable sel : FilterSelection.

(** X4.  The left merge drops no province row: df_gap and df_ratio have at
    least as many rows as the province rows of the year range, and when the
    national rows of the range have distinct years they have exactly these
    rows, once each and in the same order. *)
Theorem merge_keeps_province_rows :
  forall gaps ratios,
    df_gap str_upper df sel = Derived gaps ->
    df_ratio str_upper df sel = Derived ratios ->
    let regional := filter (isin (selected_prov str_upper df sel)) (df_year df sel) in
    (length regional <= length gaps)%nat
    /\ (length regional <= length ratios)%nat
    /\ (NoDup (map YEAR (df_national_avg str_upper df sel)) ->
        map GapFrame.base gaps = regional /\ map RatioFrame.base ratios = regional).
Proof.
  intros gaps ratios Hg Hq regional.
  rewrite (@df_gap_rows _ _ _ _ Hg), (@df_ratio_rows _ _ _ _ Hq).
  rewrite !length_map. fold regional.
  split; [apply merge_left_length |]. split; [apply merge_left_length |].
  intros Hnd. rewrite !map_map. simpl.
  change (fun x : row * fval => fst x) with (@fst row fval).
  now rewrite (@merge_left_one_to_one regional _ Hnd).
Qed.

End MergeRows.

(* ================================================================== *)
(** ** The two status columns *)

Lemma Qcompare_minus (s n : Q) : (Qred (s - n) ?= 0)%Q = (s ?= n)%Q.
Proof.
  rewrite Qred_correct.
  destruct (Qcompare_spec s n) as [E | E | E].
  - apply Qeq_alt. lra.
  - rewrite <- Qlt_alt. lra.
  - rewrite <- Qgt_alt. lra.
Qed.

Lemma Qcompare_percent (s n : Q) :
  (0 < n)%Q -> (Qred (Qred (s / n) * 100) ?= 100)%Q = (s ?= n)%Q.
Proof.
  intros Hn. rewrite !Qred_correct.
  assert (Hs : s == (s / n) * n) by (field; lra).
  destruct (Qcompare_spec s n) as [E | E | E].
  - apply Qeq_alt. rewrite E. field. lra.
  - rewrite <- Qlt_alt. apply Qmult_lt_r with (z := n); [exact Hn |].
    setoid_replace (s / n * 100 * n) with (100 * s) by (field; lra). lra.
  - rewrite <- Qgt_alt. apply Qmult_lt_r with (z := n); [exact Hn |].
    setoid_replace (s / n * 100 * n) with (100 * s) by (field; lra). lra.
Qed.

Lemma threshold_status (x t : Q) :
  (fgtb (Fin x) (Fin t), feqb (Fin x) (Fin t))
  = match (x ?= t)%Q with
    | Gt => (true, false)
    | Eq => (false, true)
    | Lt => (false, false)
    end.
Proof.
  unfold fgtb. simpl.
  destruct (Qcompare_spec x t) as [E | E | E].
  - assert (H1 : Qle_bool x t = true) by (apply Qle_bool_iff; lra).
    assert (H2 : Qeq_bool x t = true) by now apply Qeq_bool_iff.
    now rewrite H1, H2.
  - assert (H1 : Qle_bool x t = true) by (apply Qle_bool_iff; lra).
    assert (H2 : Qeq_bool x t = false).
    { destruct (Qeq_bool x t) eqn:B; [| reflexivity]. apply Qeq_bool_iff in B. lra. }
    now rewrite H1, H2.
  - assert (H1 : Qle_bool x t = false).
    { destruct (Qle_bool x t) eqn:B; [| reflexivity]. apply Qle_bool_iff in B. lra. }
    assert (H2 : Qeq_bool x t = false).
    { destruct (Qeq_bool x t) eqn:B; [| reflexivity]. apply Qeq_bool_iff in B. lra. }
    now rewrite H1, H2.
Qed.

Lemma status_agree (s n : Q) :
  (0 < n)%Q ->
  gap_status (fsub (Fin s) (Fin n)) = ratio_status (fmul (fdiv (Fin s) (Fin n)) hundred).
Proof.
  intros Hn.
  assert (Hnz : Qeq_bool n 0 = false).
  { destruct (Qeq_bool n 0) eqn:B; [| reflexivity]. apply Qeq_bool_iff in B. lra. }
  rewrite hundred_is_100. cbn [fsub fdiv fin]. rewrite Hnz. cbn [fmul fin].
  unfold gap_status, ratio_status. rewrite hundred_is_100.
  change zero with (Fin 0).
  pose proof (threshold_status (Qred (s - n)) 0) as Hg.
  pose proof (threshold_status (Qred (Qred (s / n) * 100)) 100) as Hr.
  rewrite Qcompare_minus in Hg. rewrite (Qcompare_percent s Hn) in Hr.
  pose proof (f_equal fst Hg) as Hg1. pose proof (f_equal snd Hg) as Hg2.
  pose proof (f_equal fst Hr) as Hr1. pose proof (f_equal snd Hr) as Hr2.
  cbn [fst snd] in Hg1, Hg2, Hr1, Hr2. unfold fin. rewrite Hg1, Hg2, Hr1, Hr2.
  destruct (s ?= n)%Q; reflexivity.
Qed.

Lemma threshold_below (x t : Q) :
  fltb (Fin x) (Fin t) = match (x ?= t)%Q with Lt => true | _ => false end.
Proof.
  simpl. destruct (Qcompare_spec x t) as [E | E | E].
  - assert (H : Qle_bool t x = true) by (apply Qle_bool_iff; lra). now rewrite H.
  - assert (H : Qle_bool t x = false).
    { destruct (Qle_bool t x) eqn:B; [| reflexivity]. apply Qle_bool_iff in B. lra. }
    now rewrite H.
  - assert (H : Qle_bool t x = true) by (apply Qle_bool_iff; lra). now rewrite H.
Qed.

Lemma Qcompare_growth (s p : Q) :
  (0 < p)%Q -> (Qred (Qred (Qred (s / p) - 1) * 100) ?= 0)%Q = (s ?= p)%Q.
Proof.
  intros Hp. rewrite !Qred_correct.
  assert (Hs : s == (s / p) * p) by (field; lra).
  destruct (Qcompare_spec s p) as [E | E | E].
  - apply Qeq_alt. rewrite E. field. lra.
  - rewrite <- Qlt_alt. apply Qmult_lt_r with (z := p); [exact Hp |].
    setoid_replace ((s / p - 1) * 100 * p) with (100 * s - 100 * p) by (field; lra). lra.
  - rewrite <- Qgt_alt. apply Qmult_lt_r with (z := p); [exact Hp |].
    setoid_replace ((s / p - 1) * 100 * p) with (100 * s - 100 * p) by (field; lra). lra.
Qed.

Lemma change_signs_agree (s p : Q) :
  (0 < p)%Q ->
  fgtb (pct_change_cell (Fin s) (Fin p)) zero = fgtb (diff_cell (Fin s) (Fin p)) zero
  /\ feqb (pct_change_cell (Fin s) (Fin p)) zero = feqb (diff_cell (Fin s) (Fin p)) zero
  /\ fltb (pct_change_cell (Fin s) (Fin p)) zero = fltb (diff_cell (Fin s) (Fin p)) zero.
Proof.
  intros Hp.
  assert (Hnz : Qeq_bool p 0 = false).
  { destruct (Qeq_bool p 0) eqn:B; [| reflexivity]. apply Qeq_bool_iff in B. lra. }
  unfold pct_change_cell, diff_cell. rewrite hundred_is_100, one_is_1.
  cbn [fsub fdiv fin]. rewrite Hnz. cbn [fsub fmul fin]. change zero with (Fin 0).
  pose proof (threshold_status (Qred (Qred (Qred (s / p) - 1) * 100)) 0) as Hc.
  pose proof (threshold_status (Qred (s - p)) 0) as Hd.
  pose proof (threshold_below (Qred (Qred (Qred (s / p) - 1) * 100)) 0) as Hc'.
  pose proof (threshold_below (Qred (s - p)) 0) as Hd'.
  rewrite (Qcompare_growth s Hp) in Hc, Hc'. rewrite Qcompare_minus in Hd, Hd'.
  pose proof (f_equal fst Hc) as Hc1. pose proof (f_equal snd Hc) as Hc2.
  pose proof (f_equal fst Hd) as Hd1. pose proof (f_equal snd Hd) as Hd2.
  cbn [fst snd] in Hc1, Hc2, Hd1, Hd2.
  unfold fin. rewrite Hc1, Hc2, Hd1, Hd2, Hc', Hd'. repeat split.
Qed.

Section Agreement.

Variable str_upper : string -> string.
Variable df : DataFrame.
Variable sel : FilterSelection.

(** X5.  Row i of df_gap and row i of df_ratio describe the same province
    row and the same national salary, and when that national salary is a
    positive number and the province salary a number the two STATUS columns
    agree. *)
Theorem gap_and_ratio_status_agree :
  forall gaps ratios (i : nat) (g : GapFrame.t) (q : RatioFrame.t),
    df_gap str_upper df sel = Derived gaps ->
    df_ratio str_upper df sel = Derived ratios ->
    nth_error gaps i = Some g -> nth_error ratios i = Some q ->
    GapFrame.base g = RatioFrame.base q
    /\ GapFrame.SALARY_NATIONAL g = RatioFrame.SALARY_NATIONAL q
    /\ (forall s n : Q,
           SALARY (GapFrame.base g) = Fin s -> GapFrame.SALARY_NATIONAL g = Fin n ->
           (0 < n)%Q -> GapFrame.STATUS g = RatioFrame.STATUS q).
Proof.
  intros gaps ratios i g q Hg Hq Hi Hj.
  rewrite (@df_gap_rows _ _ _ _ Hg) in Hi. rewrite (@df_ratio_rows _ _ _ _ Hq) in Hj.
  rewrite nth_error_map in Hi, Hj.
  destruct (nth_error _ i) as [[r n0] |]; [| discriminate].
  simpl in Hi, Hj. injection Hi as <-. injection Hj as <-. simpl.
  split; [reflexivity |]. split; [reflexivity |].
  intros s n Hs Hn Hpos. rewrite Hs, Hn. now apply status_agree.
Qed.

(** X6.  In the growth table, a row that follows a row of its region with a
    positive salary has a PCT_CHANGE of the sign of its NOMINAL_CHANGE: both
    positive, both zero or both negative. *)
Theorem growth_signs_agree :
  forall (region : string) (i : nat) (a b : growth_row) (p s : Q),
    nth_error (region_group region (growth_table str_upper df sel)) i = Some a ->
    nth_error (region_group region (growth_table str_upper df sel)) (S i) = Some b ->
    SALARY (g_base a) = Fin p -> SALARY (g_base b) = Fin s -> (0 < p)%Q ->
    fgtb (PCT_CHANGE b) zero = fgtb (NOMINAL_CHANGE b) zero
    /\ feqb (PCT_CHANGE b) zero = feqb (NOMINAL_CHANGE b) zero
    /\ fltb (PCT_CHANGE b) zero = fltb (NOMINAL_CHANGE b) zero.
Proof.
  intros region i a b p s Ha Hb Hpa Hsb Hp. unfold growth_table in Ha, Hb.
  destruct (region_group_next _ _ _ _ Ha Hb) as [-> ->].
  rewrite Hpa, Hsb. now apply change_signs_agree.
Qed.

End Agreement.

(* ================================================================== *)
(** ** What the widgets can select *)

Lemma unique_incl (A : Type) (eqb : A -> A -> bool) (x : A) (l seen : list A) :
  In x (unique eqb seen l) -> In x l.
Proof.
  revert seen. induction l as [| y rest IH]; intros seen; simpl; [tauto |].
  destruct (existsb (eqb y) seen).
  - intros H. right. now apply (IH seen).
  - intros [-> | H]; [now left | right; now apply (IH (y :: seen))].
Qed.

Lemma unique_not_seen (A : Type) (eqb : A -> A -> bool) (x : A) (l seen : list A) :
  (forall a b, eqb a b = true <-> a = b) ->
  In x (unique eqb seen l) -> ~ In x seen.
Proof.
  intros Hspec. revert seen. induction l as [| y rest IH]; intros seen; simpl; [tauto |].
  destruct (existsb (eqb y) seen) eqn:E.
  - apply IH.
  - intros [-> | H].
    + intros Hin. assert (Hex : existsb (eqb x) seen = true).
      { apply existsb_exists. exists x. split; [assumption | now apply Hspec]. }
      congruence.
    + intros Hin. apply (IH (y :: seen) H). now right.
Qed.

Lemma unique_NoDup (A : Type) (eqb : A -> A -> bool) (l seen : list A) :
  (forall a b, eqb a b = true <-> a = b) -> NoDup (unique eqb seen l).
Proof.
  intros Hspec. revert seen. induction l as [| y rest IH]; intros seen; simpl;
    [constructor |].
  destruct (existsb (eqb y) seen); [apply IH |].
  constructor; [| apply IH].
  intros Hin. apply (@unique_not_seen _ _ _ _ _ Hspec) in Hin. apply Hin. now left.
Qed.

Section Reachable.

Variable str_upper : string -> string.
Variable df : DataFrame.
Variable sel : FilterSelection.

Lemma prov_list_In (p : string) :
  In p (prov_list str_upper df)
  <-> exists r, In r df /\ REGION r = p /\ is_indonesia str_upper r = false.
Proof.
  unfold prov_list. split.
  - intros H. apply (Permutation_in _ (sort_by_perm String.leb _)) in H.
    apply unique_incl in H. apply in_map_iff in H. destruct H as [r [Hr Hin]].
    apply filter_In in Hin. destruct Hin as [Hin Hb]. apply negb_true_iff in Hb.
    now exists r.
  - intros [r [Hin [Hr Hb]]].
    apply (Permutation_in _ (Permutation_sym (sort_by_perm String.leb _))).
    apply unique_In; [exact String.eqb_eq | | reflexivity].
    rewrite <- Hr. apply in_map. apply filter_In. split; [assumption |].
    now rewrite Hb.
Qed.

Lemma prov_list_not_national (r : row) :
  In (REGION r) (prov_list str_upper df) -> is_indonesia str_upper r = false.
Proof.
  intros H. apply prov_list_In in H. destruct H as [r' [_ [Hr Hb]]].
  unfold is_indonesia in *. now rewrite <- Hr.
Qed.

Lemma selected_prov_all :
  select_all sel = true \/ multiselect sel = [] ->
  selected_prov str_upper df sel = prov_list str_upper df.
Proof.
  unfold selected_prov. intros [-> | ->].
  - now destruct (prov_list str_upper df).
  - destruct (select_all sel); [now destruct (prov_list str_upper df) | reflexivity].
Qed.

Lemma reachable_selected_prov :
  reachable str_upper df sel ->
  incl (selected_prov str_upper df sel) (prov_list str_upper df).
Proof.
  intros [lo [hi [_ [_ [_ [_ [Hpick _]]]]]]]. unfold selected_prov.
  destruct (select_all sel).
  - destruct (prov_list str_upper df); apply incl_refl.
  - specialize (Hpick eq_refl). destruct (multiselect sel); [apply incl_refl | exact Hpick].
Qed.

Lemma filter_ext_In (A : Type) (f g : A -> bool) (l : list A) :
  (forall x, In x l -> f x = g x) -> filter f l = filter g l.
Proof.
  induction l as [| x l IH]; intros H; simpl; [reflexivity |].
  rewrite (H x (or_introl eq_refl)), IH; [reflexivity |].
  intros y Hy. apply H. now right.
Qed.

Lemma reachable_df_prov :
  reachable str_upper df sel ->
  df_prov str_upper df sel
  = filter (isin (selected_prov str_upper df sel)) (df_year df sel).
Proof.
  intros Hreach. unfold df_prov. apply filter_all_true. intros r Hr.
  apply filter_In in Hr. destruct Hr as [_ Hr]. apply isin_true_iff in Hr.
  apply (reachable_selected_prov Hreach) in Hr.
  now rewrite (prov_list_not_national _ Hr).
Qed.

(** X7.  For a selection the widgets can return, the provinces in force
    are provinces of the table, none of them national: the second filter of
    line 113 removes nothing, df_prov is the frame the gap and ratio cards
    start from, and no row of df_gap or df_ratio is a national row compared
    with itself. *)
Theorem reachable_selection_has_no_national_row :
  reachable str_upper df sel ->
  incl (selected_prov str_upper df sel) (prov_list str_upper df)
  /\ df_prov str_upper df sel
     = filter (isin (selected_prov str_upper df sel)) (df_year df sel)
  /\ (forall gaps g,
         df_gap str_upper df sel = Derived gaps -> In g gaps ->
         is_indonesia str_upper (GapFrame.base g) = false)
  /\ (forall ratios q,
         df_ratio str_upper df sel = Derived ratios -> In q ratios ->
         is_indonesia str_upper (RatioFrame.base q) = false).
Proof.
  intros Hreach.
  assert (Hrows : forall r,
             In r (filter (isin (selected_prov str_upper df sel)) (df_year df sel)) ->
             is_indonesia str_upper r = false).
  { intros r Hr. apply filter_In in Hr. destruct Hr as [_ Hr].
    apply isin_true_iff in Hr. apply (reachable_selected_prov Hreach) in Hr.
    now apply prov_list_not_national. }
  split; [now apply reachable_selected_prov |].
  split; [now apply reachable_df_prov |]. split.
  - intros gaps g Hd Hg.
    destruct (@gap_frame_columns _ _ _ _ _ Hd Hg) as [_ [_ Hb]]. now apply Hrows.
  - intros ratios q Hd Hq.
    destruct (@ratio_frame_columns _ _ _ _ _ Hd Hq) as [_ [_ [Hb _]]]. now apply Hrows.
Qed.

Lemma filter_partition_length (A : Type) (f : A -> bool) (l : list A) :
  (length (filter f l) + length (filter (fun x => negb (f x)) l))%nat = length l.
Proof.
  induction l as [| x l IH]; simpl; [reflexivity |].
  destruct (f x); simpl; lia.
Qed.

(** X8.  With every province selected ("Select All" ticked, or an empty
    pick), df_national and df_prov split df_year: every row of the year range
    is in exactly one of them. *)
Theorem national_and_provinces_split_the_year :
  select_all sel = true \/ multiselect sel = [] ->
  df_prov str_upper df sel
  = filter (fun r => negb (is_indonesia str_upper r)) (df_year df sel)
  /\ (length (df_national str_upper df sel) + length (df_prov str_upper df sel))%nat
     = length (df_year df sel).
Proof.
  intros Hall.
  assert (Hprov : df_prov str_upper df sel
                  = filter (fun r => negb (is_indonesia str_upper r)) (df_year df sel)).
  { unfold df_prov. rewrite (selected_prov_all Hall), filter_twice.
    apply filter_ext_In. intros r Hr.
    destruct (is_indonesia str_upper r) eqn:E; simpl; [apply andb_false_r |].
    rewrite andb_true_r. apply isin_true_iff. apply prov_list_In.
    exists r. apply df_year_in_range in Hr. destruct Hr as [Hr _]. now repeat split. }
  split; [exact Hprov |]. rewrite Hprov. unfold df_national.
  apply filter_partition_length.
Qed.

End Reachable.

(* ================================================================== *)
(** ** The first run *)

Lemma fold_max_spec (ys : list Z) (y : Z) :
  In (fold_left Z.max ys y) (y :: ys)
  /\ forall x, In x (y :: ys) -> (x <= fold_left Z.max ys y)%Z.
Proof.
  revert y. induction ys as [| z zs IH]; intros y; simpl.
  - split; [now left | intros x [-> | []]; lia].
  - destruct (IH (Z.max y z)) as [Hin Hle]. split.
    + destruct Hin as [E | Hin]; [| now right; right].
      rewrite <- E. destruct (Z.max_spec y z) as [[_ ->] | [_ ->]]; [right | ]; now left.
    + intros x [-> | [-> | Hx]].
      * specialize (Hle (Z.max x z) (or_introl eq_refl)). lia.
      * specialize (Hle (Z.max y x) (or_introl eq_refl)). lia.
      * apply Hle. now right.
Qed.

Lemma fold_min_spec (ys : list Z) (y : Z) :
  forall x, In x (y :: ys) -> (fold_left Z.min ys y <= x)%Z.
Proof.
  revert y. induction ys as [| z zs IH]; intros y; simpl.
  - intros x [-> | []]. lia.
  - intros x [-> | [-> | Hx]].
    + specialize (IH (Z.min x z) (Z.min x z) (or_introl eq_refl)). lia.
    + specialize (IH (Z.min y x) (Z.min y x) (or_introl eq_refl)). lia.
    + apply IH. now right.
Qed.

Lemma known_years_In (df : DataFrame) (y : Z) :
  In y (known_years df) <-> exists r, In r df /\ YEAR r = Some y.
Proof.
  unfold known_years. rewrite in_flat_map. split.
  - intros [r [Hr Hy]]. exists r. split; [assumption |].
    destruct (YEAR r) as [v |]; [| contradiction]. destruct Hy as [-> | []]. reflexivity.
  - intros [r [Hr Hy]]. exists r. split; [assumption |]. rewrite Hy. now left.
Qed.

Lemma year_bounds_spec (df : DataFrame) (lo hi : Z) :
  year_bounds df = Some (lo, hi) ->
  (exists r, In r df /\ YEAR r = Some hi)
  /\ (forall r y, In r df -> YEAR r = Some y -> (lo <= y <= hi)%Z).
Proof.
  unfold year_bounds. destruct (known_years df) as [| y ys] eqn:E; [discriminate |].
  intros H. injection H as <- <-.
  destruct (fold_max_spec ys y) as [Hin Hmax]. split.
  - apply known_years_In. now rewrite E.
  - intros r v Hr Hv.
    assert (Hv' : In v (y :: ys)) by (rewrite <- E; apply known_years_In; now exists r).
    split; [now apply fold_min_spec | now apply Hmax].
Qed.

Section FirstRun.

Variable str_upper : string -> string.
Variable df : DataFrame.

(** X9.  The widgets as first drawn are a selection the widgets can
    return; they select the last year of the table, so df_year holds exactly
    the rows of that year and is not empty: the first run never stops at the
    "No data available for the selected year range" warning. *)
Theorem first_run_shows_the_last_year :
  forall sel : FilterSelection,
    default_selection str_upper df = Some sel ->
    reachable str_upper df sel
    /\ df_year df sel <> []
    /\ (forall r, In r (df_year df sel) <-> In r df /\ YEAR r = Some (year_to sel))
    /\ (forall r y, In r df -> YEAR r = Some y -> (y <= year_to sel)%Z).
Proof.
  intros sel Hdef. unfold default_selection in Hdef.
  destruct (year_bounds df) as [[lo hi] |] eqn:Eb; [| discriminate].
  remember (Nat.min 5 (Nat.max 1 (total_prov str_upper df))) as n eqn:En.
  injection Hdef as <-.
  destruct (year_bounds_spec df Eb) as [[r0 [Hr0 Hy0]] Hall].
  assert (Hrows : forall r,
             In r (df_year df (mk_selection hi hi true [] true n))
             <-> In r df /\ YEAR r = Some hi).
  { intros r. rewrite df_year_in_range, in_range_iff.
    cbn [year_from year_to]. split.
    - intros [Hr [y [Hy Hb]]]. split; [assumption |]. rewrite Hy. f_equal. lia.
    - intros [Hr Hy]. split; [assumption |]. exists hi. split; [assumption | lia]. }
  split; [| split; [| split]].
  - exists lo, hi. cbn [year_from year_to select_all multiselect top_bottom_n].
    split; [exact Eb |].
    destruct (Hall r0 hi Hr0 Hy0) as [Hlo _].
    split; [exact Hlo |]. split; [lia |]. split; [lia |].
    split; [intros H; discriminate | lia].
  - apply (@In_not_nil _ r0). apply Hrows. now split.
  - exact Hrows.
  - intros r y Hr Hy. cbn [year_to]. now apply (Hall r y Hr Hy).
Qed.

End FirstRun.

(* ================================================================== *)
(** ** The growth input counts a record once *)

Lemma filter_app_perm (A : Type) (p q : A -> bool) (l : list A) :
  (forall x, In x l -> p x = true -> q x = false) ->
  Permutation (filter p l ++ filter q l) (filter (fun x => p x || q x) l).
Proof.
  induction l as [| x l IH]; intros H; simpl; [constructor |].
  assert (IH' : Permutation (filter p l ++ filter q l) (filter (fun x => p x || q x) l)).
  { apply IH. intros y Hy. apply H. now right. }
  destruct (p x) eqn:Ep; simpl.
  - rewrite (H x (or_introl eq_refl) Ep). now apply perm_skip.
  - destruct (q x); [| exact IH'].
    apply Permutation_sym. eapply Permutation_trans;
      [apply perm_skip; apply Permutation_sym; exact IH' | apply Permutation_middle].
Qed.

Section GrowthInput.

Variable str_upper : string -> string.
Variable df : DataFrame.
Variable sel : FilterSelection.

(** X10.  For a selection the widgets can return, the concat of line 374
    repeats no record: the growth input holds, up to order, the records of
    the table from year_from - 1 to year_to whose region is selected or,
    when the national average is shown, national. *)
Theorem growth_input_counts_each_record_once :
  reachable str_upper df sel ->
  Permutation (growth_filtered str_upper df sel)
    (filter
       (fun r =>
          year_ge r (year_from sel - 1) && year_le r (year_to sel)
          && (isin (selected_prov str_upper df sel) r
              || (include_indonesia sel && is_indonesia str_upper r)))
       df).
Proof.
  intros Hreach. unfold growth_filtered.
  assert (Hdisj : forall r,
             isin (selected_prov str_upper df sel) r = true ->
             is_indonesia str_upper r = false).
  { intros r Hr. apply isin_true_iff in Hr.
    apply (reachable_selected_prov Hreach) in Hr.
    exact (@prov_list_not_national str_upper df r Hr). }
  destruct (include_indonesia sel).
  - eapply Permutation_trans.
    + apply filter_app_perm. intros r _ Hp.
      apply andb_true_iff in Hp. destruct Hp as [_ Hp]. now rewrite (Hdisj r Hp).
    + erewrite filter_ext; [apply Permutation_refl |]. intros r. simpl.
      destruct (year_ge r (year_from sel - 1)), (year_le r (year_to sel)),
        (isin (selected_prov str_upper df sel) r), (is_indonesia str_upper r);
        reflexivity.
  - erewrite filter_ext; [apply Permutation_refl |]. intros r. simpl.
    now rewrite orb_false_r.
Qed.

End GrowthInput.

(* ================================================================== *)
(** ** The KPI cards *)

Lemma fltb_fleb (x y : fval) : fltb x y = true -> fleb x y = true.
Proof. intros H. unfold fleb. now rewrite H. Qed.

Lemma not_fltb_fleb (x y : fval) :
  isna x = false -> isna y = false -> fltb x y = false -> fleb y x = true.
Proof.
  intros Hx Hy H. destruct (fleb y x) eqn:E; [reflexivity |].
  pose proof (fleb_total _ _ Hy Hx E) as Hxy. unfold fleb in Hxy, E.
  rewrite H in Hxy. simpl in Hxy. apply orb_false_iff in E. destruct E as [_ E].
  destruct x as [| | a |], y as [| | b |]; try discriminate.
  simpl in *. apply Qeq_bool_iff in Hxy.
  assert (Hyx : Qeq_bool b a = true) by (apply Qeq_bool_iff; now symmetry).
  congruence.
Qed.

Lemma fleb_refl (x : fval) : isna x = false -> fleb x x = true.
Proof.
  destruct x as [| | a |]; try discriminate; try reflexivity.
  intros _. rewrite fleb_fin. apply Qle_bool_iff. apply Qle_refl.
Qed.

Section Extremes.

(** [worse b r]: the row [r] replaces the best row so far, [b]. *)
Variable worse : fval -> fval -> bool.
(** [no_better x y]: [x] is at most as good as [y]. *)
Variable no_better : fval -> fval -> bool.
Hypothesis worse_no_better : forall x y, worse x y = true -> no_better x y = true.
Hypothesis not_worse :
  forall x y, isna x = false -> isna y = false -> worse x y = false -> no_better y x = true.
Hypothesis no_better_refl : forall x, isna x = false -> no_better x x = true.
Hypothesis no_better_trans :
  forall x y z, no_better x y = true -> no_better y z = true -> no_better x z = true.

Let step (best : option row) (r : row) : option row :=
  if isna (SALARY r) then best
  else match best with
       | None => Some r
       | Some b => if worse (SALARY b) (SALARY r) then Some r else best
       end.

Lemma pick_fold_some (t : list row) (best : option row) (r : row) :
  (forall b, best = Some b -> isna (SALARY b) = false) ->
  fold_left step t best = Some r ->
  (In r t \/ best = Some r)
  /\ isna (SALARY r) = false
  /\ (forall r', In r' t -> isna (SALARY r') = false ->
                 no_better (SALARY r') (SALARY r) = true)
  /\ (forall b, best = Some b -> no_better (SALARY b) (SALARY r) = true).
Proof.
  revert best. induction t as [| x t IH]; intros best Hbest Hfold; simpl in Hfold.
  - subst best. split; [now right |]. split; [now apply Hbest |].
    split; [intros r' [] |]. intros b Hb. injection Hb as ->.
    apply no_better_refl. now apply Hbest.
  - unfold step at 2 in Hfold. destruct (isna (SALARY x)) eqn:Ex.
    + destruct (IH best Hbest Hfold) as [Hin [Hna [Hall Hb]]].
      split; [destruct Hin; [left; now right | now right] |].
      split; [exact Hna |]. split; [| exact Hb].
      intros r' [<- | Hr'] Hr'na; [congruence | now apply Hall].
    + destruct best as [b |].
      * assert (Hbna : isna (SALARY b) = false) by now apply Hbest.
        destruct (worse (SALARY b) (SALARY x)) eqn:Ew.
        -- assert (Hx : forall b', Some x = Some b' -> isna (SALARY b') = false)
             by (intros b' Hb'; injection Hb' as <-; exact Ex).
           destruct (IH (Some x) Hx Hfold) as [Hin [Hna [Hall Hb]]].
           split; [left; destruct Hin as [Hin | Hin];
                   [now right | injection Hin as ->; now left] |].
           split; [exact Hna |]. split.
           ++ intros r' [<- | Hr'] Hr'na; [now apply Hb | now apply Hall].
           ++ intros b' Hb'. injection Hb' as <-.
              apply no_better_trans with (y := SALARY x);
                [now apply worse_no_better | now apply Hb].
        -- destruct (IH (Some b) Hbest Hfold) as [Hin [Hna [Hall Hb]]].
           split; [destruct Hin; [left; now right | now right] |].
           split; [exact Hna |]. split; [| exact Hb].
           intros r' [<- | Hr'] Hr'na; [| now apply Hall].
           apply no_better_trans with (y := SALARY b);
             [now apply not_worse | now apply Hb].
      * assert (Hx : forall b', Some x = Some b' -> isna (SALARY b') = false)
          by (intros b' Hb'; injection Hb' as <-; exact Ex).
        destruct (IH (Some x) Hx Hfold) as [Hin [Hna [Hall Hb]]].
        split; [left; destruct Hin as [Hin | Hin];
                [now right | injection Hin as ->; now left] |].
        split; [exact Hna |]. split; [| intros b' Hb'; discriminate].
        intros r' [<- | Hr'] Hr'na; [now apply Hb | now apply Hall].
Qed.

Lemma pick_fold_none (t : list row) :
  fold_left step t None = None <-> forall r, In r t -> isna (SALARY r) = true.
Proof.
  assert (Hsome : forall t b, fold_left step t (Some b) <> None).
  { intros t'. induction t' as [| x t' IH]; intros b; simpl; [discriminate |].
    unfold step at 2. destruct (isna (SALARY x)); [apply IH |].
    destruct (worse (SALARY b) (SALARY x)); apply IH. }
  induction t as [| x t IH]; simpl.
  - split; [intros _ r [] | reflexivity].
  - unfold step at 2. destruct (isna (SALARY x)) eqn:Ex.
    + rewrite IH. split.
      * intros H r [<- | Hr]; [exact Ex | now apply H].
      * intros H r Hr. apply H. now right.
    + split.
      * intros H. now apply Hsome in H.
      * intros H. specialize (H x (or_introl eq_refl)). congruence.
Qed.

End Extremes.

Lemma idxmax_spec (t : list row) (r : row) :
  idxmax t = Some r ->
  In r t /\ isna (SALARY r) = false
  /\ forall r', In r' t -> isna (SALARY r') = false -> fleb (SALARY r') (SALARY r) = true.
Proof.
  intros H.
  destruct (@pick_fold_some fltb fleb fltb_fleb not_fltb_fleb fleb_refl fleb_trans
              t None r (fun b Hb => False_ind _ (eq_ind None (fun o => match o with
                 | None => True | Some _ => False end) I (Some b) Hb)) H)
    as [Hin [Hna [Hall _]]].
  destruct Hin as [Hin | Hin]; [| discriminate]. now repeat split.
Qed.

Lemma idxmin_spec (t : list row) (r : row) :
  idxmin t = Some r ->
  In r t /\ isna (SALARY r) = false
  /\ forall r', In r' t -> isna (SALARY r') = false -> fleb (SALARY r) (SALARY r') = true.
Proof.
  intros H.
  assert (H1 : forall x y, fltb y x = true -> fleb y x = true)
    by (intros x y; apply fltb_fleb).
  assert (H2 : forall x y, isna x = false -> isna y = false ->
                           fltb y x = false -> fleb x y = true)
    by (intros x y Hx Hy; now apply not_fltb_fleb).
  assert (H3 : forall x y z, fleb y x = true -> fleb z y = true -> fleb z x = true)
    by (intros x y z Hxy Hyz; now apply (fleb_trans z y x)).
  destruct (@pick_fold_some (fun x y => fltb y x) (fun x y => fleb y x) H1 H2 fleb_refl H3
              t None r (fun b Hb => False_ind _ (eq_ind None (fun o => match o with
                 | None => True | Some _ => False end) I (Some b) Hb)) H)
    as [Hin [Hna [Hall _]]].
  destruct Hin as [Hin | Hin]; [| discriminate]. now repeat split.
Qed.

Lemma idxmax_none (t : list row) :
  idxmax t = None <-> forall r, In r t -> isna (SALARY r) = true.
Proof. apply (pick_fold_none fltb). Qed.

Lemma idxmin_none (t : list row) :
  idxmin t = None <-> forall r, In r t -> isna (SALARY r) = true.
Proof. apply (pick_fold_none (fun x y => fltb y x)). Qed.

Lemma national_card_ok (label : string) (pick : list row -> option row)
      (t : list row) (c : card) :
  national_card label pick t = Ok c ->
  (t = [] /\ c = NotAvailable label)
  \/ (t <> []
      /\ exists r value y,
           pick t = Some r /\ rupiah (SALARY r) = Ok value /\ YEAR r = Some y
           /\ c = Metric label value (String.append "Year " (decimal y))).
Proof.
  unfold national_card. destruct t as [| x t']; cbn [empty].
  - intros H. injection H as <-. left. now split.
  - destruct (pick (x :: t')) as [r |] eqn:Ep; [| discriminate].
    destruct (rupiah (SALARY r)) as [value |] eqn:Ev; [| discriminate].
    cbn [and_then].
    destruct (YEAR r) as [y |] eqn:Ey; [| discriminate]. cbn [and_then python_int_year].
    intros H. injection H as <-. right. split; [discriminate |].
    exists r, value, y. now repeat split.
Qed.

Lemma provincial_card_ok (label : string) (pick : list row -> option row)
      (t : list row) (c : card) :
  provincial_card label pick t = Ok c ->
  (t = [] /\ c = NotAvailable label)
  \/ (t <> []
      /\ exists r value delta,
           pick t = Some r /\ rupiah (SALARY r) = Ok value
           /\ region_year_label (REGION r) (YEAR r) = Ok delta
           /\ c = Metric label value delta).
Proof.
  unfold provincial_card. destruct t as [| x t']; cbn [empty].
  - intros H. injection H as <-. left. now split.
  - destruct (pick (x :: t')) as [r |] eqn:Ep; [| discriminate].
    destruct (rupiah (SALARY r)) as [value |] eqn:Ev; [| discriminate].
    cbn [and_then].
    destruct (region_year_label (REGION r) (YEAR r)) as [delta |] eqn:Ed;
      [| discriminate].
    cbn [and_then]. intros H. injection H as <-. right. split; [discriminate |].
    exists r, value, delta. now repeat split.
Qed.

Lemma and_then_ok (A B : Type) (m : result A) (k : A -> result B) (b : B) :
  and_then m k = Ok b -> exists a, m = Ok a /\ k a = Ok b.
Proof. destruct m as [a |]; simpl; [| discriminate]. intros H. now exists a. Qed.

Section KpiCards.

Variable str_upper : string -> string.
Variable df : DataFrame.
Variable sel : FilterSelection.

Lemma kpi_cards_ok (k1 k2 k3 k4 : card) :
  kpi_cards str_upper df sel = Ok (k1, k2, k3, k4) ->
  national_card "Highest National Average UMR" idxmax (df_national str_upper df sel) = Ok k1
  /\ national_card "Lowest National Average UMR" idxmin (df_national str_upper df sel)
     = Ok k2
  /\ provincial_card "Highest Provincial UMR" idxmax (df_prov str_upper df sel) = Ok k3
  /\ provincial_card "Lowest Provincial UMR" idxmin (df_prov str_upper df sel) = Ok k4.
Proof.
  unfold kpi_cards. intros H.
  apply and_then_ok in H. destruct H as [c1 [H1 H]].
  apply and_then_ok in H. destruct H as [c2 [H2 H]].
  apply and_then_ok in H. destruct H as [c3 [H3 H]].
  apply and_then_ok in H. destruct H as [c4 [H4 H]].
  injection H as <- <- <- <-. now repeat split.
Qed.

(** X11.  When the four KPI cards are drawn, the two national cards are
    either both "Not available", for an empty df_national, or they show a row
    of df_national each, with its year: the first holds the largest and the
    second the smallest of the salaries of df_national that are not
    missing. *)
Theorem national_cards_show_the_extremes :
  forall k1 k2 k3 k4 : card,
    kpi_cards str_upper df sel = Ok (k1, k2, k3, k4) ->
    (df_national str_upper df sel = []
     /\ k1 = NotAvailable "Highest National Average UMR"
     /\ k2 = NotAvailable "Lowest National Average UMR")
    \/ (exists hi lo value_hi value_lo year_hi year_lo,
           In hi (df_national str_upper df sel)
           /\ In lo (df_national str_upper df sel)
           /\ rupiah (SALARY hi) = Ok value_hi /\ YEAR hi = Some year_hi
           /\ rupiah (SALARY lo) = Ok value_lo /\ YEAR lo = Some year_lo
           /\ k1 = Metric "Highest National Average UMR" value_hi
                     (String.append "Year " (decimal year_hi))
           /\ k2 = Metric "Lowest National Average UMR" value_lo
                     (String.append "Year " (decimal year_lo))
           /\ forall r, In r (df_national str_upper df sel) -> isna (SALARY r) = false ->
                        fleb (SALARY lo) (SALARY r) = true
                        /\ fleb (SALARY r) (SALARY hi) = true).
Proof.
  intros k1 k2 k3 k4 H. destruct (kpi_cards_ok H) as [H1 [H2 _]].
  apply national_card_ok in H1. apply national_card_ok in H2.
  destruct H1 as [[E1 C1] | [N1 [hi [vhi [yhi [Phi [Vhi [Yhi C1]]]]]]]].
  - left. destruct H2 as [[_ C2] | [N2 _]]; [now repeat split | contradiction].
  - right. destruct H2 as [[E2 _] | [_ [lo [vlo [ylo [Plo [Vlo [Ylo C2]]]]]]]];
      [contradiction |].
    apply idxmax_spec in Phi. apply idxmin_spec in Plo.
    destruct Phi as [Ihi [_ Ahi]], Plo as [Ilo [_ Alo]].
    exists hi, lo, vhi, vlo, yhi, ylo. repeat split; try assumption.
    + now apply Alo.
    + now apply Ahi.
Qed.

(** X12.  Likewise the two provincial cards are either both "Not
    available", for an empty df_prov, or they show a row of df_prov each,
    with its region and year: one of the selected provinces, never a national
    row, within the year range, holding the largest (smallest) salary of
    df_prov that is not missing. *)
Theorem provincial_cards_show_the_extremes :
  forall k1 k2 k3 k4 : card,
    kpi_cards str_upper df sel = Ok (k1, k2, k3, k4) ->
    (df_prov str_upper df sel = []
     /\ k3 = NotAvailable "Highest Provincial UMR"
     /\ k4 = NotAvailable "Lowest Provincial UMR")
    \/ (exists hi lo value_hi value_lo delta_hi delta_lo,
           In hi (df_prov str_upper df sel) /\ In lo (df_prov str_upper df sel)
           /\ rupiah (SALARY hi) = Ok value_hi
           /\ region_year_label (REGION hi) (YEAR hi) = Ok delta_hi
           /\ rupiah (SALARY lo) = Ok value_lo
           /\ region_year_label (REGION lo) (YEAR lo) = Ok delta_lo
           /\ k3 = Metric "Highest Provincial UMR" value_hi delta_hi
           /\ k4 = Metric "Lowest Provincial UMR" value_lo delta_lo
           /\ (forall r, In r (df_prov str_upper df sel) ->
                         is_indonesia str_upper r = false
                         /\ In (REGION r) (selected_prov str_upper df sel)
                         /\ in_range sel r = true)
           /\ forall r, In r (df_prov str_upper df sel) -> isna (SALARY r) = false ->
                        fleb (SALARY lo) (SALARY r) = true
                        /\ fleb (SALARY r) (SALARY hi) = true).
Proof.
  intros k1 k2 k3 k4 H. destruct (kpi_cards_ok H) as [_ [_ [H3 H4]]].
  apply provincial_card_ok in H3. apply provincial_card_ok in H4.
  destruct H3 as [[E3 C3] | [N3 [hi [vhi [dhi [Phi [Vhi [Dhi C3]]]]]]]].
  - left. destruct H4 as [[_ C4] | [N4 _]]; [now repeat split | contradiction].
  - right. destruct H4 as [[E4 _] | [_ [lo [vlo [dlo [Plo [Vlo [Dlo C4]]]]]]]];
      [contradiction |].
    apply idxmax_spec in Phi. apply idxmin_spec in Plo.
    destruct Phi as [Ihi [_ Ahi]], Plo as [Ilo [_ Alo]].
    exists hi, lo, vhi, vlo, dhi, dlo.
    split; [exact Ihi |]. split; [exact Ilo |]. split; [exact Vhi |].
    split; [exact Dhi |]. split; [exact Vlo |]. split; [exact Dlo |].
    split; [exact C3 |]. split; [exact C4 |]. split.
    + intros r Hr. unfold df_prov in Hr. apply filter_In in Hr. destruct Hr as [Hr Hn].
      apply filter_In in Hr. destruct Hr as [Hr Hi]. apply negb_true_iff in Hn.
      apply isin_true_iff in Hi. apply df_year_in_range in Hr. now repeat split.
    + intros r Hr Hna. split; [now apply Alo | now apply Ahi].
Qed.

End KpiCards.

Lemma rupiah_finite (x : fval) : is_finite x = true -> exists value, rupiah x = Ok value.
Proof.
  destruct x as [| | q |]; try discriminate. intros _. unfold rupiah. simpl.
  eexists. reflexivity.
Qed.

Lemma national_card_total (label : string) (pick : list row -> option row) (t : list row) :
  (forall r, pick t = Some r -> In r t) ->
  (pick t = None -> forall r, In r t -> isna (SALARY r) = true) ->
  (forall r, In r t -> is_finite (SALARY r) = true /\ YEAR r <> None) ->
  exists c, national_card label pick t = Ok c.
Proof.
  intros Hsome Hnone Hall. unfold national_card.
  destruct t as [| x t']; cbn [empty]; [eexists; reflexivity |].
  destruct (pick (x :: t')) as [r |] eqn:Ep.
  - destruct (Hall r (Hsome r eq_refl)) as [Hfin Hy].
    destruct (rupiah_finite _ Hfin) as [value ->]. cbn [and_then].
    destruct (YEAR r) as [y |]; [| contradiction]. eexists. reflexivity.
  - specialize (Hnone eq_refl x (or_introl eq_refl)).
    destruct (Hall x (or_introl eq_refl)) as [Hfin _].
    destruct (SALARY x); discriminate.
Qed.

Lemma provincial_card_total (label : string) (pick : list row -> option row)
      (t : list row) :
  (forall r, pick t = Some r -> In r t) ->
  (pick t = None -> forall r, In r t -> isna (SALARY r) = true) ->
  (forall r, In r t -> is_finite (SALARY r) = true /\ YEAR r <> None) ->
  exists c, provincial_card label pick t = Ok c.
Proof.
  intros Hsome Hnone Hall. unfold provincial_card.
  destruct t as [| x t']; cbn [empty]; [eexists; reflexivity |].
  destruct (pick (x :: t')) as [r |] eqn:Ep.
  - destruct (Hall r (Hsome r eq_refl)) as [Hfin Hy].
    destruct (rupiah_finite _ Hfin) as [value ->]. cbn [and_then].
    unfold region_year_label.
    destruct (YEAR r) as [y |]; [| contradiction]. eexists. reflexivity.
  - specialize (Hnone eq_refl x (or_introl eq_refl)).
    destruct (Hall x (or_introl eq_refl)) as [Hfin _].
    destruct (SALARY x); discriminate.
Qed.

Section KpiErrors.

Variable str_upper : string -> string.
Variable df : DataFrame.
Variable sel : FilterSelection.

Lemma df_year_has_year (r : row) : In r (df_year df sel) -> YEAR r <> None.
Proof.
  intros H. apply df_year_in_range in H. destruct H as [_ H].
  apply in_range_iff in H. destruct H as [y [Hy _]]. congruence.
Qed.

(** X13.  The KPI cards are drawn without an exception whenever every
    salary of the year range is a number; and when df_national is not empty
    but none of its salaries is known, idxmax finds no row and the first card
    raises. *)
Theorem kpi_cards_errors :
  ((forall r, In r (df_year df sel) -> is_finite (SALARY r) = true) ->
   exists cards, kpi_cards str_upper df sel = Ok cards)
  /\ (df_national str_upper df sel <> [] ->
      (forall r, In r (df_national str_upper df sel) -> isna (SALARY r) = true) ->
      kpi_cards str_upper df sel = Error NoValidLabel).
Proof.
  split.
  - intros Hfin.
    assert (Hnat : forall r, In r (df_national str_upper df sel) ->
                             is_finite (SALARY r) = true /\ YEAR r <> None).
    { intros r Hr. unfold df_national in Hr. apply filter_In in Hr.
      destruct Hr as [Hr _]. split; [now apply Hfin | now apply df_year_has_year]. }
    assert (Hprov : forall r, In r (df_prov str_upper df sel) ->
                              is_finite (SALARY r) = true /\ YEAR r <> None).
    { intros r Hr. unfold df_prov in Hr. apply filter_In in Hr. destruct Hr as [Hr _].
      apply filter_In in Hr. destruct Hr as [Hr _].
      split; [now apply Hfin | now apply df_year_has_year]. }
    unfold kpi_cards.
    destruct (@national_card_total "Highest National Average UMR" idxmax
                (df_national str_upper df sel)) as [c1 ->];
      [intros r Hr; now apply idxmax_spec in Hr | apply idxmax_none | exact Hnat |].
    destruct (@national_card_total "Lowest National Average UMR" idxmin
                (df_national str_upper df sel)) as [c2 ->];
      [intros r Hr; now apply idxmin_spec in Hr | apply idxmin_none | exact Hnat |].
    destruct (@provincial_card_total "Highest Provincial UMR" idxmax
                (df_prov str_upper df sel)) as [c3 ->];
      [intros r Hr; now apply idxmax_spec in Hr | apply idxmax_none | exact Hprov |].
    destruct (@provincial_card_total "Lowest Provincial UMR" idxmin
                (df_prov str_upper df sel)) as [c4 ->];
      [intros r Hr; now apply idxmin_spec in Hr | apply idxmin_none | exact Hprov |].
    eexists. reflexivity.
  - intros Hne Hall. unfold kpi_cards, national_card.
    apply empty_false_iff in Hne. rewrite Hne.
    apply idxmax_none in Hall. rewrite Hall. reflexivity.
Qed.

End KpiErrors.

(* ================================================================== *)
(** ** The map card *)

Lemma merge_region_one_to_one (base : list string) (latest : list (string * fval)) :
  NoDup (map fst latest) -> map fst (merge_region base latest) = base.
Proof.
  intros Hnd. induction base as [| p rest IH]; [reflexivity |].
  unfold merge_region in *. cbn [flat_map]. rewrite map_app, IH.
  assert (Hlen : (length (filter (fun l => String.eqb (fst l) p) latest) <= 1)%nat).
  { clear IH. induction latest as [| [k v] more IHl]; simpl; [lia |].
    inversion Hnd as [| k' ks Hnotin Hmore]; subst.
    destruct (String.eqb_spec k p) as [-> | _]; [| now apply IHl].
    simpl. rewrite (@filter_all_false _ (fun l => String.eqb (fst l) p) more); [simpl; lia |].
    intros [k' v'] Hin. simpl. destruct (String.eqb_spec k' p) as [-> | _]; [| reflexivity].
    exfalso. apply Hnotin. apply (in_map fst _ _ Hin). }
  destruct (filter (fun l => String.eqb (fst l) p) latest) as [| m [| m' ms]];
    simpl in *; [reflexivity | reflexivity | lia].
Qed.

Lemma merge_region_value (base : list string) (keys : list string)
      (value : string -> fval) (p : string) :
  In p base ->
  (~ In p keys -> value p = NaN) ->
  In (p, value p) (merge_region base (map (fun k => (k, value k)) keys)).
Proof.
  intros Hp Hmissing. unfold merge_region. apply in_flat_map. exists p.
  split; [assumption |].
  destruct (filter (fun l => String.eqb (fst l) p) (map (fun k => (k, value k)) keys))
    as [| m ms] eqn:E.
  - left. f_equal. symmetry. apply Hmissing. intros Hin.
    assert (Hf : In (p, value p)
                   (filter (fun l => String.eqb (fst l) p)
                      (map (fun k => (k, value k)) keys))).
    { apply filter_In. split; [| simpl; apply String.eqb_refl].
      apply (in_map (fun k => (k, value k)) _ _ Hin). }
    rewrite E in Hf. contradiction.
  - assert (Hm : In m (filter (fun l => String.eqb (fst l) p)
                         (map (fun k => (k, value k)) keys)))
      by (rewrite E; now left).
    apply filter_In in Hm. destruct Hm as [Hm Hk]. apply in_map_iff in Hm.
    destruct Hm as [k [<- _]]. simpl in Hk. apply String.eqb_eq in Hk. subst k.
    apply (in_map (fun l => (p, snd l)) (_ :: ms) (p, value p)). now left.
Qed.

Lemma last_valid_app (t : list row) (x : row) :
  last_valid (t ++ [x]) = if isna (SALARY x) then last_valid t else SALARY x.
Proof. unfold last_valid. now rewrite fold_left_app. Qed.

Lemma last_valid_spec (t : list row) :
  (last_valid t = NaN /\ forall r, In r t -> isna (SALARY r) = true)
  \/ (exists before r after,
         t = (before ++ r :: after)%list
         /\ isna (SALARY r) = false
         /\ last_valid t = SALARY r
         /\ forall r', In r' after -> isna (SALARY r') = true).
Proof.
  induction t as [| x t IH] using rev_ind.
  - left. split; [reflexivity | intros r []].
  - rewrite last_valid_app. destruct (isna (SALARY x)) eqn:Ex.
    + destruct IH as [[Hn Hall] | [before [r [after [-> [Hna [Hv Hafter]]]]]]].
      * left. split; [exact Hn |]. intros r Hr. apply in_app_or in Hr.
        destruct Hr as [Hr | [<- | []]]; [now apply Hall | exact Ex].
      * right. exists before, r, (after ++ [x])%list.
        split; [now rewrite <- app_assoc |]. split; [exact Hna |].
        split; [exact Hv |]. intros r' Hr'. apply in_app_or in Hr'.
        destruct Hr' as [Hr' | [<- | []]]; [now apply Hafter | exact Ex].
    + right. exists t, x, []. repeat split; try assumption. intros r' [].
Qed.

Lemma StronglySorted_app_before (A : Type) (R : A -> A -> Prop) (l1 l2 : list A)
      (x y : A) :
  StronglySorted R (l1 ++ l2) -> In x l1 -> In y l2 -> R x y.
Proof.
  induction l1 as [| a l1 IH]; intros Hs Hx Hy; [contradiction |].
  simpl in Hs. apply StronglySorted_inv in Hs. destruct Hs as [Hs Hall].
  destruct Hx as [<- | Hx]; [| now apply IH].
  rewrite Forall_forall in Hall. apply Hall. apply in_or_app. now right.
Qed.

Section MapValues.

Variable str_upper : string -> string.
Variable sort_values_year : list row -> list row.
Hypothesis sort_values_year_perm : forall l, Permutation (sort_values_year l) l.
Hypothesis sort_values_year_sorted :
  forall l, StronglySorted (fun a b => year_before a b = true) (sort_values_year l).
Variable df : DataFrame.
Variable sel : FilterSelection.

Local Abbreviation in_map_range :=
  (sort_values_year (df_filtered str_upper df sel)).

Lemma df_latest_keys : NoDup (map fst (df_latest str_upper sort_values_year df sel)).
Proof.
  unfold df_latest. rewrite map_map. simpl. rewrite map_id.
  apply (Permutation_NoDup (Permutation_sym (sort_by_perm String.leb _))).
  apply unique_NoDup. exact String.eqb_eq.
Qed.

Lemma df_map_value (p : string) :
  In p (all_prov str_upper df) ->
  let v := last_valid (filter (fun r => String.eqb (REGION r) p) in_map_range) in
  In (p, if isna v then zero else v) (df_map str_upper sort_values_year df sel).
Proof.
  intros Hp v. unfold df_map.
  apply (in_map (fun q => (fst q, if isna (snd q) then zero else snd q)) _ (p, v)).
  unfold df_latest.
  apply (@merge_region_value _ _
           (fun k => last_valid (filter (fun r => String.eqb (REGION r) k) in_map_range))
           p Hp).
  intros Hnot.
  assert (Hempty : filter (fun r => String.eqb (REGION r) p) in_map_range = []).
  { apply filter_all_false. intros r Hr.
    destruct (String.eqb_spec (REGION r) p) as [E | _]; [| reflexivity].
    exfalso. apply Hnot.
    apply (Permutation_in _ (Permutation_sym (sort_by_perm String.leb _))).
    apply unique_In; [exact String.eqb_eq | | reflexivity].
    rewrite <- E. now apply in_map. }
  now rewrite Hempty.
Qed.

(** X14.  The map has one row per province of the whole table, in name
    order and whatever the year range and the selection of provinces, and no
    missing value: a province without a known salary in the year range is
    drawn with 0. *)
Theorem map_has_every_province_once :
  map fst (df_map str_upper sort_values_year df sel) = prov_list str_upper df
  /\ (forall p v, In (p, v) (df_map str_upper sort_values_year df sel) -> isna v = false)
  /\ (forall p,
         In p (prov_list str_upper df) ->
         (forall r, In r (df_filtered str_upper df sel) -> REGION r = p ->
                    isna (SALARY r) = true) ->
         In (p, zero) (df_map str_upper sort_values_year df sel)).
Proof.
  split; [| split].
  - unfold df_map. rewrite map_map. simpl.
    change (fun x : string * fval => fst x) with (@fst string fval).
    apply merge_region_one_to_one. apply df_latest_keys.
  - intros p v Hin. unfold df_map in Hin. apply in_map_iff in Hin.
    destruct Hin as [[p' v'] [E _]]. simpl in E. injection E as _ <-.
    destruct (isna v') eqn:Ev; [reflexivity | exact Ev].
  - intros p Hp Hall. pose proof (df_map_value p Hp) as Hv. simpl in Hv.
    destruct (last_valid_spec (filter (fun r => String.eqb (REGION r) p) in_map_range))
      as [[Hn _] | [before [r [after [Ht [Hna _]]]]]].
    + now rewrite Hn in Hv.
    + exfalso.
      assert (Hr : In r (filter (fun r => String.eqb (REGION r) p) in_map_range))
        by (rewrite Ht; apply in_or_app; right; now left).
      apply filter_In in Hr. destruct Hr as [Hr Hp'].
      apply (Permutation_in _ (sort_values_year_perm _)) in Hr.
      apply String.eqb_eq in Hp'. rewrite (Hall r Hr Hp') in Hna. discriminate.
Qed.

(** X15.  A province that has a known salary in the year range is drawn
    with the salary of one of its records of the range, and no record of the
    province with a known salary in the range has a later year. *)
Theorem map_shows_the_latest_salary :
  forall (p : string) (r0 : row),
    In r0 (df_filtered str_upper df sel) -> REGION r0 = p -> isna (SALARY r0) = false ->
    exists r,
      In r (df_filtered str_upper df sel) /\ REGION r = p /\ isna (SALARY r) = false
      /\ In (p, SALARY r) (df_map str_upper sort_values_year df sel)
      /\ forall r', In r' (df_filtered str_upper df sel) -> REGION r' = p ->
                    isna (SALARY r') = false -> year_before r' r = true.
Proof.
  intros p r0 Hr0 Hp0 Hna0.
  assert (Hp : In p (all_prov str_upper df)).
  { unfold all_prov.
    apply (Permutation_in _ (Permutation_sym (sort_by_perm String.leb _))).
    apply unique_In; [exact String.eqb_eq | | reflexivity].
    rewrite <- Hp0. apply in_map. unfold df_filtered in Hr0.
    now apply filter_In in Hr0. }
  pose proof (df_map_value p Hp) as Hv. simpl in Hv.
  assert (Hgroup : forall x,
             In x (filter (fun r => String.eqb (REGION r) p) in_map_range)
             <-> In x (df_filtered str_upper df sel) /\ REGION x = p).
  { intros x. rewrite filter_In, String.eqb_eq. split.
    - intros [Hx E]. split; [| exact E].
      now apply (Permutation_in _ (sort_values_year_perm _)).
    - intros [Hx E]. split; [| exact E].
      now apply (Permutation_in _ (Permutation_sym (sort_values_year_perm _))). }
  destruct (last_valid_spec (filter (fun r => String.eqb (REGION r) p) in_map_range))
    as [[_ Hall] | [before [r [after [Ht [Hna [Hlast Hafter]]]]]]].
  - assert (H0 : In r0 (filter (fun r => String.eqb (REGION r) p) in_map_range))
      by (apply Hgroup; now split).
    rewrite (Hall r0 H0) in Hna0. discriminate.
  - assert (Hr : In r (filter (fun r => String.eqb (REGION r) p) in_map_range))
      by (rewrite Ht; apply in_or_app; right; now left).
    apply Hgroup in Hr. destruct Hr as [Hr Hpr].
    rewrite Hlast, Hna in Hv.
    exists r. split; [exact Hr |]. split; [exact Hpr |]. split; [exact Hna |].
    split; [exact Hv |].
    intros r' Hr' Hp' Hna'.
    assert (Hin' : In r' (filter (fun r => String.eqb (REGION r) p) in_map_range))
      by (apply Hgroup; now split).
    pose proof (StronglySorted_filter (fun r => String.eqb (REGION r) p)
                  (sort_values_year_sorted (df_filtered str_upper df sel))) as Hs.
    rewrite Ht in Hs, Hin'. apply in_app_or in Hin'.
    destruct Hin' as [Hin' | [<- | Hin']].
    + apply (StronglySorted_app_before _ _ _ _ Hs Hin'). now left.
    + unfold df_filtered in Hr. apply filter_In in Hr. destruct Hr as [_ Hy].
      apply andb_true_iff in Hy. destruct Hy as [Hy _].
      unfold year_ge in Hy. unfold year_before.
      destruct (YEAR r) as [y |]; [apply Z.leb_refl | discriminate].
    + rewrite (Hafter r' Hin') in Hna'. discriminate.
Qed.

End MapValues.

(* ================================================================== *)
(** ** The ranking tables as displayed *)

Lemma apply_column_ok (A B : Type) (f : A -> result B) (cells : list A) :
  (exists bs, apply_column f cells = Ok bs)
  <-> forall c, In c cells -> exists b, f c = Ok b.
Proof.
  induction cells as [| c rest IH]; simpl.
  - split; [intros _ c [] | intros _; now exists []].
  - split.
    + intros [bs H]. destruct (f c) as [b | e] eqn:Ec; [| discriminate].
      cbn [and_then] in H.
      destruct (apply_column f rest) as [bs' | e] eqn:Er; [| discriminate].
      intros c' [<- | Hin]; [now exists b |].
      apply IH; [now exists bs' | exact Hin].
    + intros H. destruct (H c (or_introl eq_refl)) as [b Hb]. rewrite Hb.
      cbn [and_then].
      destruct IH as [_ IH]. destruct IH as [bs Hbs].
      { intros c' Hc'. apply H. now right. }
      rewrite Hbs. now exists (b :: bs).
Qed.

Lemma apply_column_error (A B : Type) (f : A -> result B) (cells : list A)
      (e : py_error) :
  (forall c, In c cells -> (exists b, f c = Ok b) \/ f c = Error e) ->
  (exists c, In c cells /\ f c = Error e) ->
  apply_column f cells = Error e.
Proof.
  induction cells as [| c rest IH]; intros Hall [c0 [Hin He]]; [contradiction |].
  simpl. destruct (Hall c (or_introl eq_refl)) as [[b Hb] | Hb]; rewrite Hb;
    [| reflexivity].
  cbn [and_then]. rewrite IH; [reflexivity | |].
  - intros c' Hc'. apply Hall. now right.
  - destruct Hin as [<- | Hin]; [congruence |]. now exists c0.
Qed.

Lemma rupiah_ok_iff (x : fval) : (exists value, rupiah x = Ok value) <-> is_finite x = true.
Proof.
  split.
  - intros [v H]. destruct x; try discriminate. reflexivity.
  - apply rupiah_finite.
Qed.

Lemma rupiah_cases (x : fval) :
  isinf x = false ->
  (exists value, rupiah x = Ok value) \/ rupiah x = Error ValueError.
Proof.
  destruct x; try discriminate; intros _; [now right | left].
  now apply rupiah_finite.
Qed.

Lemma region_year_label_ok (region : string) (year : option Z) :
  year <> None -> exists label, region_year_label region year = Ok label.
Proof.
  destruct year as [y |]; [intros _ | contradiction].
  unfold region_year_label. simpl. eauto.
Qed.

Lemma show_ranking_ok (t : list row) :
  (forall r, In r t -> YEAR r <> None) ->
  (exists shown, show_ranking t = Ok shown)
  <-> forall r, In r t -> is_finite (SALARY r) = true.
Proof.
  intros Hyear. unfold show_ranking.
  destruct (proj2 (apply_column_ok (fun r => region_year_label (REGION r) (YEAR r)) t))
    as [labels Hl].
  { intros r Hr. apply region_year_label_ok. now apply Hyear. }
  rewrite Hl. cbn [and_then]. split.
  - intros [shown H] r Hr.
    destruct (apply_column (fun r => rupiah (SALARY r)) t) as [salaries |] eqn:Es;
      [| discriminate].
    apply rupiah_ok_iff.
    apply (proj1 (apply_column_ok (fun r => rupiah (SALARY r)) t)); [| exact Hr].
    now exists salaries.
  - intros Hfin.
    destruct (proj2 (apply_column_ok (fun r => rupiah (SALARY r)) t)) as [salaries Hs].
    { intros r Hr. apply rupiah_ok_iff. now apply Hfin. }
    rewrite Hs. cbn [and_then]. eauto.
Qed.

Lemma show_ranking_value_error (t : list row) (r : row) :
  (forall r', In r' t -> YEAR r' <> None) ->
  (forall r', In r' t -> isinf (SALARY r') = false) ->
  In r t -> isna (SALARY r) = true ->
  show_ranking t = Error ValueError.
Proof.
  intros Hyear Hinf Hr Hna. unfold show_ranking.
  destruct (proj2 (apply_column_ok (fun r => region_year_label (REGION r) (YEAR r)) t))
    as [labels Hl].
  { intros r' Hr'. apply region_year_label_ok. now apply Hyear. }
  rewrite Hl. cbn [and_then].
  rewrite (@apply_column_error _ _ (fun r => rupiah (SALARY r)) t ValueError);
    [reflexivity | |].
  - intros r' Hr'. apply rupiah_cases. now apply Hinf.
  - exists r. split; [exact Hr |]. now destruct (SALARY r).
Qed.

Lemma filter_length_perm (A : Type) (f : A -> bool) (l l' : list A) :
  Permutation l l' -> length (filter f l) = length (filter f l').
Proof.
  induction 1 as [| x l l' _ IH | x y l | l l' l'' _ IH1 _ IH2]; simpl.
  - reflexivity.
  - destruct (f x); simpl; now rewrite IH.
  - destruct (f x), (f y); reflexivity.
  - now rewrite IH1.
Qed.

Lemma filter_length_le (A : Type) (f : A -> bool) (l : list A) :
  (length (filter f l) <= length l)%nat.
Proof. induction l as [| x l IH]; simpl; [lia |]. destruct (f x); simpl; lia. Qed.

Lemma filter_short_exists (A : Type) (f : A -> bool) (l : list A) :
  (length (filter f l) < length l)%nat -> exists x, In x l /\ f x = false.
Proof.
  induction l as [| x l IH]; simpl; [lia |].
  destruct (f x) eqn:E; simpl.
  - intros H. destruct IH as [y [Hy Hf]]; [lia |]. exists y. split; [now right | exact Hf].
  - intros _. exists x. split; [now left | exact E].
Qed.

(** A ranking of [n] rows reaches the rows without a value as soon as fewer
    than [n] rows have one. *)
Lemma select_n_reaches_missing (A : Type) (column : A -> fval)
      (before : A -> A -> bool) (n : nat) (t : list A) :
  (length (filter (fun a => negb (isna (column a))) t) < n)%nat ->
  (exists a, In a t /\ isna (column a) = true) ->
  exists a, In a (select_n before n t) /\ isna (column a) = true.
Proof.
  intros Hn [a [Ha Hna]]. rewrite select_n_sort_by.
  set (known := fun a => negb (isna (column a))) in *.
  set (sorted := sort_by before t).
  assert (Hk : length (filter known sorted) = length (filter known t))
    by apply filter_length_perm, sort_by_perm.
  assert (Hlen : length sorted = length t)
    by apply Permutation_length, sort_by_perm.
  assert (Hmore : (length (filter known t) < length t)%nat).
  { pose proof (filter_partition_length known t) as Hp.
    assert (Hin : In a (filter (fun x => negb (known x)) t)).
    { apply filter_In. split; [exact Ha |]. unfold known. now rewrite Hna. }
    destruct (filter (fun x => negb (known x)) t); [contradiction | simpl in Hp; lia]. }
  assert (Hfirst : (length (filter known (firstn n sorted))
                    <= length (filter known sorted))%nat).
  { rewrite <- (firstn_skipn n sorted) at 2. rewrite filter_app, length_app. lia. }
  destruct (@filter_short_exists _ known (firstn n sorted)) as [x [Hx Hf]].
  { rewrite length_firstn. lia. }
  exists x. split; [exact Hx |]. unfold known in Hf.
  now destruct (isna (column x)).
Qed.

Section TopTable.

Variable str_upper : string -> string.
Variable df : DataFrame.
Variable sel : FilterSelection.

Local Abbreviation top_df :=
  (nlargest (top_bottom_n sel) SALARY (prov_filtered str_upper df sel)).
Local Abbreviation bot_df :=
  (nsmallest (top_bottom_n sel) SALARY (prov_filtered str_upper df sel)).

Lemma prov_filtered_has_year (r : row) :
  In r (prov_filtered str_upper df sel) -> YEAR r <> None.
Proof.
  intros Hr. unfold prov_filtered in Hr. apply filter_In in Hr.
  destruct Hr as [_ Hr]. apply andb_true_iff in Hr. destruct Hr as [Hr _].
  apply andb_true_iff in Hr. destruct Hr as [Hr _].
  unfold year_ge in Hr. destruct (YEAR r); [discriminate | discriminate Hr].
Qed.

(** X16.  The Top table of the first ranking card is displayed exactly when
    every ranked salary is a number, and so is the Bottom table: the
    [int(x)] of lines 284 and 326 raises on a missing or infinite salary. *)
Theorem value_tables_need_numbers :
  ((exists shown, show_ranking top_df = Ok shown)
   <-> forall r, In r top_df -> is_finite (SALARY r) = true)
  /\ ((exists shown, show_ranking bot_df = Ok shown)
      <-> forall r, In r bot_df -> is_finite (SALARY r) = true).
Proof.
  split; apply show_ranking_ok; intros r Hr; apply prov_filtered_has_year;
    [apply (select_n_In _ _ _ _ Hr) | apply (select_n_In _ _ _ _ Hr)].
Qed.

(** X17.  When fewer than N of the rows to rank have a salary and one has
    none, nlargest fills the Top table with rows without a salary and the
    [int(x)] of line 284 raises ValueError (no salary being infinite). *)
Theorem missing_salary_breaks_top_table :
  forall r,
    In r (prov_filtered str_upper df sel) ->
    isna (SALARY r) = true ->
    (forall r', In r' (prov_filtered str_upper df sel) -> isinf (SALARY r') = false) ->
    (length (filter (fun r' => negb (isna (SALARY r'))) (prov_filtered str_upper df sel))
     < top_bottom_n sel)%nat ->
    show_ranking top_df = Error ValueError.
Proof.
  intros r Hr Hna Hinf Hn.
  destruct (@select_n_reaches_missing _ SALARY
              (fun a b => desc_before (SALARY a) (SALARY b)) _ _ Hn)
    as [x [Hx Hxna]]; [now exists r |].
  apply (@show_ranking_value_error _ x).
  - intros r' Hr'. apply prov_filtered_has_year. apply (select_n_In _ _ _ _ Hr').
  - intros r' Hr'. apply Hinf. apply (select_n_In _ _ _ _ Hr').
  - exact Hx.
  - exact Hxna.
Qed.

End TopTable.

Lemma fsub_not_inf (x y : fval) : isinf x = false -> isinf y = false -> isinf (fsub x y) = false.
Proof. destruct x, y; try discriminate; reflexivity. Qed.

Lemma show_gap_ranking_value_error (t : list GapFrame.t) (g : GapFrame.t) :
  (forall g', In g' t -> YEAR (GapFrame.base g') <> None) ->
  (forall g', In g' t -> isinf (GapFrame.GAP g') = false) ->
  In g t -> isna (GapFrame.GAP g) = true ->
  show_gap_ranking t = Error ValueError.
Proof.
  intros Hyear Hinf Hg Hna. unfold show_gap_ranking.
  destruct (proj2 (apply_column_ok
                     (fun g => region_year_label (REGION (GapFrame.base g))
                                 (YEAR (GapFrame.base g))) t))
    as [labels Hl].
  { intros g' Hg'. apply region_year_label_ok. now apply Hyear. }
  rewrite Hl. cbn [and_then].
  rewrite (@apply_column_error _ _ (fun g => rupiah (GapFrame.GAP g)) t ValueError);
    [reflexivity | |].
  - intros g' Hg'. apply rupiah_cases. now apply Hinf.
  - exists g. split; [exact Hg |]. now destruct (GapFrame.GAP g).
Qed.

Section GapTable.

Variable str_upper : string -> string.
Variable df : DataFrame.
Variable sel : FilterSelection.

(** X18.  A province row of the year range whose year has no national row
    gets a missing GAP (C2); when fewer than N rows of the gap frame have a
    GAP, such a row is in the Top table and the [int(y)] of line 674 raises
    ValueError (no salary of the year range being infinite). *)
Theorem unmatched_year_breaks_gap_table :
  forall (r : row) (gaps : list GapFrame.t),
    df_gap str_upper df sel = Derived gaps ->
    In r (filter (isin (selected_prov str_upper df sel)) (df_year df sel)) ->
    filter (same_year r) (df_national_avg str_upper df sel) = [] ->
    (forall r', In r' (df_year df sel) -> isinf (SALARY r') = false) ->
    (length (filter (fun g => negb (isna (GapFrame.GAP g))) gaps) < top_bottom_n sel)%nat ->
    exists top bot,
      rank_gap str_upper df sel = Done (Some (top, bot))
      /\ show_gap_ranking top = Error ValueError.
Proof.
  intros r gaps Hd Hr Hnone Hinf Hn.
  destruct (@rank_gap_whole _ _ _ _ Hd) as [_ Hrank].
  exists (nlargest (top_bottom_n sel) GapFrame.GAP gaps),
         (nsmallest (top_bottom_n sel) GapFrame.GAP gaps).
  split; [exact Hrank |].
  assert (Hrows : forall g, In g gaps ->
                    exists p, g = add_gap p
                              /\ In p (merge_left
                                         (filter (isin (selected_prov str_upper df sel))
                                            (df_year df sel))
                                         (df_national_avg str_upper df sel))).
  { intros g Hg. rewrite (@df_gap_rows _ _ _ _ Hd) in Hg. apply in_map_iff in Hg.
    destruct Hg as [p [<- Hp]]. now exists p. }
  destruct (@select_n_reaches_missing _ GapFrame.GAP
              (fun a b => desc_before (GapFrame.GAP a) (GapFrame.GAP b)) _ _ Hn)
    as [x [Hx Hxna]].
  { exists (add_gap (r, NaN)). split.
    - rewrite (@df_gap_rows _ _ _ _ Hd). apply in_map. now apply merge_left_unmatched.
    - simpl. now rewrite fsub_nan_r. }
  apply (@show_gap_ranking_value_error _ x).
  - intros g Hg. apply select_n_In in Hg.
    destruct (Hrows g Hg) as [[r' n] [-> Hp]]. simpl.
    apply merge_left_In in Hp. destruct Hp as [Hr' _].
    apply filter_In in Hr'. destruct Hr' as [Hr' _].
    apply (df_year_has_year _ _ _ Hr').
  - intros g Hg. apply select_n_In in Hg.
    destruct (Hrows g Hg) as [[r' n] [-> Hp]]. simpl.
    apply merge_left_In in Hp. destruct Hp as [Hr' Hnat].
    apply filter_In in Hr'. destruct Hr' as [Hr' _].
    apply fsub_not_inf; [now apply Hinf |].
    destruct Hnat as [[m [Hm [_ ->]]] | [_ ->]]; [| reflexivity].
    apply Hinf. unfold df_national_avg in Hm. now apply filter_In in Hm.
  - exact Hx.
  - exact Hxna.
Qed.

End GapTable.

(* ================================================================== *)
(** ** The tooltips of the map *)

Lemma apply_column_one_error (A B : Type) (f : A -> result B) (cells : list A)
      (e : py_error) :
  (forall c, In c cells -> (exists b, f c = Ok b) \/ f c = Error e) ->
  (exists bs, apply_column f cells = Ok bs) \/ apply_column f cells = Error e.
Proof.
  induction cells as [| c rest IH]; intros Hall; simpl; [left; eauto |].
  destruct (Hall c (or_introl eq_refl)) as [[b Hb] | Hb]; rewrite Hb;
    [| now right].
  cbn [and_then].
  destruct IH as [[bs Hbs] | Hbs]; [intros c' Hc'; apply Hall; now right | |];
    rewrite Hbs; [left; cbn [and_then]; eauto | now right].
Qed.

Lemma apply_column_keys (A B : Type) (f : A -> result (A * B)) (cells : list A)
      (bs : list (A * B)) :
  (forall c b, f c = Ok b -> fst b = c) ->
  apply_column f cells = Ok bs -> map fst bs = cells.
Proof.
  intros Hkey. revert bs. induction cells as [| c rest IH]; intros bs; simpl.
  - intros H. now injection H as <-.
  - destruct (f c) as [b | e] eqn:Ec; [| discriminate]. cbn [and_then].
    destruct (apply_column f rest) as [bs' | e]; [| discriminate]. cbn [and_then].
    intros H. injection H as <-. simpl. now rewrite (Hkey c b Ec), (IH bs' eq_refl).
Qed.

Section Tooltips.

Variable str_upper : string -> string.
Variable df : DataFrame.
Variable sel : FilterSelection.

Lemma df_filtered_has_year (r : row) :
  In r (df_filtered str_upper df sel) -> YEAR r <> None.
Proof.
  intros Hr. unfold df_filtered in Hr. apply filter_In in Hr.
  destruct Hr as [_ Hr]. apply andb_true_iff in Hr. destruct Hr as [Hr _].
  unfold year_ge in Hr. destruct (YEAR r); [discriminate | discriminate Hr].
Qed.

Lemma tooltip_line_cases (r : row) :
  YEAR r <> None -> isinf (SALARY r) = false ->
  (isna (SALARY r) = false /\ exists line, tooltip_line r = Ok line)
  \/ (isna (SALARY r) = true /\ tooltip_line r = Error ValueError).
Proof.
  intros Hy Hinf. unfold tooltip_line.
  destruct (YEAR r) as [y |]; [| contradiction]. cbn [python_int_year and_then].
  destruct (SALARY r); try discriminate; cbn [python_int and_then]; eauto.
Qed.

(** X19.  The map card converts the salary of every province row of the
    year range, selected or not: one such row without a salary makes the
    tooltips raise ValueError at line 210 (no salary of these rows being
    infinite), and with a number in every one of these rows there is a
    tooltip for each province that has a row in the range. *)
Theorem tooltips_need_every_salary :
  forall tips,
    tooltip_data str_upper df sel = Some tips ->
    (forall r, In r (df_filtered str_upper df sel) -> isinf (SALARY r) = false) ->
    ((exists r, In r (df_filtered str_upper df sel) /\ isna (SALARY r) = true)
     -> tips = Error ValueError)
    /\ ((forall r, In r (df_filtered str_upper df sel) -> isna (SALARY r) = false)
        -> exists shown,
          tips = Ok shown
          /\ forall r, In r (df_filtered str_upper df sel) -> In (REGION r) (map fst shown)).
Proof.
  intros tips Ht Hinf. unfold tooltip_data in Ht.
  destruct (empty (df_filtered str_upper df sel)); [discriminate |].
  injection Ht as <-.
  set (sorted := sort_by region_year_before (df_filtered str_upper df sel)).
  assert (Hsorted : forall r, In r sorted <-> In r (df_filtered str_upper df sel)).
  { intros r. split; intros H.
    - apply (Permutation_in _ (sort_by_perm region_year_before _) H).
    - apply (Permutation_in _ (Permutation_sym (sort_by_perm region_year_before _)) H). }
  set (group := fun region => filter (fun r => String.eqb (REGION r) region) sorted).
  set (tip := fun region =>
                and_then (apply_column tooltip_line (group region))
                  (fun lines => Ok (region, String.concat "<br>" lines))).
  assert (Hline : forall region r, In r (group region) ->
                    (isna (SALARY r) = false /\ exists line, tooltip_line r = Ok line)
                    \/ (isna (SALARY r) = true /\ tooltip_line r = Error ValueError)).
  { intros region r Hr. unfold group in Hr. apply filter_In in Hr.
    destruct Hr as [Hr _]. apply Hsorted in Hr.
    apply tooltip_line_cases; [now apply df_filtered_has_year | now apply Hinf]. }
  assert (Hregion : forall r, In r (df_filtered str_upper df sel) ->
                      In (REGION r)
                        (sort_by String.leb (unique String.eqb [] (map REGION sorted)))).
  { intros r Hr.
    apply (Permutation_in _ (Permutation_sym (sort_by_perm String.leb _))).
    apply unique_In; [exact String.eqb_eq | | reflexivity].
    apply in_map. now apply Hsorted. }
  split.
  - intros [r [Hr Hna]].
    apply (@apply_column_error _ _ tip _ ValueError).
    + intros region _. unfold tip.
      destruct (@apply_column_one_error _ _ tooltip_line (group region) ValueError)
        as [[lines Hl] | Hl].
      * intros c Hc. destruct (Hline region c Hc) as [[_ H] | [_ H]]; [now left | now right].
      * left. rewrite Hl. cbn [and_then]. eauto.
      * right. now rewrite Hl.
    + exists (REGION r). split; [now apply Hregion |].
      unfold tip.
      rewrite (@apply_column_error _ _ tooltip_line (group (REGION r)) ValueError);
        [reflexivity | |].
      * intros c Hc. destruct (Hline _ c Hc) as [[_ H] | [_ H]]; [now left | now right].
      * exists r. split.
        -- unfold group. apply filter_In. split; [now apply Hsorted | apply String.eqb_refl].
        -- assert (Hg : In r (group (REGION r))).
           { unfold group. apply filter_In.
             split; [now apply Hsorted | apply String.eqb_refl]. }
           destruct (Hline _ r Hg) as [[H _] | [_ H]]; [congruence | exact H].
  - intros Hknown.
    destruct (proj2 (apply_column_ok tip
                       (sort_by String.leb (unique String.eqb [] (map REGION sorted)))))
      as [shown Hshown].
    { intros region _. unfold tip.
      destruct (proj2 (apply_column_ok tooltip_line (group region))) as [lines Hl].
      - intros c Hc. destruct (Hline region c Hc) as [[_ H] | [Hna _]]; [exact H |].
        unfold group in Hc. apply filter_In in Hc. destruct Hc as [Hc _].
        apply Hsorted in Hc. rewrite (Hknown c Hc) in Hna. discriminate.
      - rewrite Hl. cbn [and_then]. eauto. }
    exists shown. split; [exact Hshown |].
    intros r Hr.
    rewrite (@apply_column_keys _ _ tip
               (sort_by String.leb (unique String.eqb [] (map REGION sorted))) shown);
      [now apply Hregion | | exact Hshown].
    intros c b. unfold tip.
    destruct (apply_column tooltip_line (group c)); cbn [and_then]; [| discriminate].
    intros H. now injection H as <-.
Qed.

End Tooltips.

(* ================================================================== *)
(** ** The rows of the heatmap *)

Lemma add_obs_keys (k k' : string * Z) (s : fval) (v : fval * nat)
      (acc : list ((string * Z) * (fval * nat))) :
  In (k, v) (add_obs k' s acc) -> k = k' \/ exists v', In (k, v') acc.
Proof.
  induction acc as [| [k0 [total n]] rest IH]; simpl.
  - intros [H | []]. injection H as <- _. now left.
  - destruct (key_eqb k' k0) eqn:E.
    + intros [H | H].
      * injection H as <- _. right. exists (total, n). now left.
      * right. exists v. now right.
    + intros [H | H].
      * injection H as <- _. right. exists (total, n). now left.
      * destruct (IH H) as [-> | [v' Hv']]; [now left |]. right. exists v'. now right.
Qed.

Lemma group_sums_keys (rows : list row) (acc : list ((string * Z) * (fval * nat)))
      (k : string * Z) (v : fval * nat) :
  In (k, v)
    (fold_left
       (fun acc r =>
          match YEAR r with
          | None => acc
          | Some y => if isna (SALARY r) then acc else add_obs (REGION r, y) (SALARY r) acc
          end)
       rows acc) ->
  (exists v', In (k, v') acc)
  \/ exists r, In r rows /\ REGION r = fst k /\ YEAR r = Some (snd k) /\ isna (SALARY r) = false.
Proof.
  revert acc v. induction rows as [| r rest IH]; intros acc v; simpl.
  - intros H. left. now exists v.
  - intros H. destruct (IH _ _ H) as [[v' Hv'] | [r' [Hr' Hrest]]].
    + destruct (YEAR r) as [y |] eqn:Ey; [| left; now exists v'].
      destruct (isna (SALARY r)) eqn:Hna; [left; now exists v' |].
      destruct (add_obs_keys _ _ _ _ _ Hv') as [-> | Hacc]; [| now left].
      right. exists r. simpl. repeat split; try assumption. now left.
    + right. exists r'. split; [now right | exact Hrest].
Qed.

Lemma pivot_index_In (rows : list row) (region : string) :
  In region (pivot_index rows) ->
  exists r, In r rows /\ REGION r = region /\ isna (SALARY r) = false.
Proof.
  unfold pivot_index. intros H.
  apply (Permutation_in _ (sort_by_perm String.leb _)) in H.
  apply unique_incl in H. apply in_map_iff in H. destruct H as [[reg year] [<- H]].
  unfold kept_groups in H. apply in_map_iff in H. destruct H as [[k m] [Hk H]].
  simpl in Hk. subst k. apply filter_In in H. destruct H as [H _].
  unfold group_means in H. apply in_map_iff in H. destruct H as [[k v] [Hk H]].
  injection Hk as -> _. unfold group_sums in H.
  destruct (group_sums_keys _ _ _ _ H) as [[v' []] | [r [Hr [Hreg [_ Hna]]]]].
  exists r. now repeat split.
Qed.

Lemma lookup_mean_known (rows : list row) (region : string) (year : Z) :
  let known := filter (fun s => negb (isna s)) (cell_salaries rows region year) in
  known <> [] ->
  lookup_mean (region, year) (group_means rows) = Some (fmean known).
Proof.
  intros known Hne. rewrite lookup_mean_group_means. unfold group_sums.
  rewrite lookup_sum_fold. fold known. simpl lookup_sum.
  destruct known as [| s l]; [contradiction |]. now rewrite add_all_none.
Qed.

Section HeatmapRows.

Variable str_upper : string -> string.
Variable df : DataFrame.
Variable sel : FilterSelection.

(** X20.  The rows of the heatmap are the regions of df_heat that have a
    salary in the year range, each once: a region whose salaries are all
    missing has no row, and (no salary being infinite) a region with one
    known salary has one.  Every row has the same year labels and no cell is
    missing. *)
Theorem heatmap_rows_have_a_salary :
  forall m : matrix,
    heat_data str_upper df sel = Some m ->
    NoDup (map fst m)
    /\ (forall region,
           In region (map fst m) ->
           exists r, In r (df_heat str_upper df sel) /\ REGION r = region
                     /\ isna (SALARY r) = false)
    /\ ((forall r, In r (df_heat str_upper df sel) -> isinf (SALARY r) = false) ->
        forall r, In r (df_heat str_upper df sel) -> isna (SALARY r) = false ->
                  In (REGION r) (map fst m))
    /\ (exists years,
           forall region cells,
             In (region, cells) m ->
             map fst cells = years /\ forall y v, In (y, v) cells -> isna v = false).
Proof.
  intros m Hm. unfold heat_data in Hm.
  destruct (empty (df_heat str_upper df sel)); [discriminate |].
  injection Hm as <-.
  set (rows := df_heat str_upper df sel).
  assert (Hidx : map fst (pivot_table rows) = pivot_index rows).
  { unfold pivot_table. rewrite map_map. simpl. apply map_id. }
  rewrite Hidx. split; [| split; [| split]].
  - unfold pivot_index.
    apply (Permutation_NoDup (Permutation_sym (sort_by_perm String.leb _))).
    apply unique_NoDup. exact String.eqb_eq.
  - intros region. apply pivot_index_In.
  - intros Hinf r Hr Hna.
    assert (Hy : exists y, YEAR r = Some y).
    { unfold rows, df_heat in Hr. apply filter_In in Hr. destruct Hr as [Hr _].
      pose proof (df_year_has_year _ _ _ Hr) as Hy.
      destruct (YEAR r) as [y |]; [now exists y | contradiction]. }
    destruct Hy as [y Hy].
    set (known := filter (fun s => negb (isna s)) (cell_salaries rows (REGION r) y)).
    assert (Hin : In (SALARY r) known).
    { unfold known. apply filter_In. split; [| now rewrite Hna].
      unfold cell_salaries. apply in_map. apply filter_In. split; [exact Hr |].
      unfold year_eq. now rewrite Hy, String.eqb_refl, Z.eqb_refl. }
    assert (Hne : known <> []) by (now apply (@In_not_nil _ (SALARY r))).
    assert (Hfin : Forall (fun s => is_finite s = true) known).
    { apply Forall_forall. intros s Hs. unfold known in Hs. apply filter_In in Hs.
      destruct Hs as [Hs Hsna]. unfold cell_salaries in Hs. apply in_map_iff in Hs.
      destruct Hs as [r' [<- Hr']]. apply filter_In in Hr'. destruct Hr' as [Hr' _].
      pose proof (Hinf r' Hr') as Hi. now destruct (SALARY r'). }
    pose proof (lookup_mean_known rows (REGION r) y Hne) as Hl.
    pose proof (fmean_finite Hne Hfin) as Hmean.
    assert (Hmna : isna (fmean known) = false) by now destruct (fmean known).
    now destruct (kept_group_labels _ _ _ Hl Hmna).
  - exists (pivot_columns rows). intros region cells Hin.
    unfold pivot_table in Hin. apply in_map_iff in Hin.
    destruct Hin as [reg [H _]]. injection H as _ <-. split.
    + rewrite map_map. simpl. apply map_id.
    + intros y v Hv. apply in_map_iff in Hv. destruct Hv as [y' [H _]].
      injection H as _ <-. unfold pivot_cell.
      destruct (lookup_mean (reg, y') (group_means rows)) as [mean |]; [| reflexivity].
      destruct (isna mean) eqn:E; [reflexivity | exact E].
Qed.

End HeatmapRows.

(* ================================================================== *)
(** ** The further theorems on the example tables *)

Lemma year_before_total (x y : row) : year_before x y = false -> year_before y x = true.
Proof.
  unfold year_before. destruct (YEAR x) as [a |], (YEAR y) as [b |];
    try discriminate; try reflexivity.
  intros H. apply Z.leb_gt in H. apply Z.leb_le. lia.
Qed.

Lemma year_before_trans (x y z : row) :
  year_before x y = true -> year_before y z = true -> year_before x z = true.
Proof.
  unfold year_before. destruct (YEAR x) as [a |], (YEAR y) as [b |], (YEAR z) as [c |];
    try discriminate; try reflexivity.
  intros H1 H2. apply Z.leb_le in H1, H2. apply Z.leb_le. lia.
Qed.

Lemma jakarta_is_reachable :
  reachable ascii_upper small_table (only ["Jakarta"] 2023 2024 true 2).
Proof.
  exists 2023%Z, 2024%Z. split; [reflexivity |].
  cbn [year_from year_to select_all multiselect top_bottom_n only].
  split; [lia |]. split; [lia |]. split; [lia |]. split.
  - intros _ x [<- | []]. vm_compute. auto.
  - vm_compute. split; apply Nat.leb_le; reflexivity.
Qed.

(** Jakarta over 2023-2024 in the small table: two province rows, two rows
    in each frame. *)
Lemma merge_on_small_table :
  exists gaps ratios,
    df_gap ascii_upper small_table (only ["Jakarta"] 2023 2024 true 2) = Derived gaps
    /\ df_ratio ascii_upper small_table (only ["Jakarta"] 2023 2024 true 2) = Derived ratios
    /\ length gaps = 2%nat
    /\ map GapFrame.base gaps
       = [mk_row "Jakarta" (salary 4900000) (Some 2023%Z); jakarta_2024]
    /\ map RatioFrame.base ratios
       = [mk_row "Jakarta" (salary 4900000) (Some 2023%Z); jakarta_2024].
Proof.
  eexists. eexists.
  split; [vm_compute; reflexivity |]. split; [vm_compute; reflexivity |].
  split; [reflexivity |].
  match goal with
  | |- map GapFrame.base ?gaps = _ /\ map RatioFrame.base ?ratios = _ =>
      destruct (@merge_keeps_province_rows ascii_upper small_table
                  (only ["Jakarta"] 2023 2024 true 2) gaps ratios eq_refl eq_refl)
        as [_ [_ H]]
  end.
  apply H. vm_compute. repeat constructor; simpl; intuition discriminate.
Defined.

(** Jakarta in 2024 is above the national row in both frames. *)
Lemma status_on_small_table :
  exists gaps ratios g q,
    df_gap ascii_upper small_table (only ["Jakarta"] 2024 2024 true 1) = Derived gaps
    /\ df_ratio ascii_upper small_table (only ["Jakarta"] 2024 2024 true 1) = Derived ratios
    /\ nth_error gaps 0 = Some g /\ nth_error ratios 0 = Some q
    /\ GapFrame.base g = RatioFrame.base q
    /\ GapFrame.STATUS g = RatioFrame.STATUS q
    /\ GapFrame.STATUS g = "Above National Average".
Proof.
  eexists. eexists. eexists. eexists.
  split; [vm_compute; reflexivity |]. split; [vm_compute; reflexivity |].
  split; [reflexivity |]. split; [reflexivity |].
  match goal with
  | |- GapFrame.base ?g = RatioFrame.base ?q /\ _ =>
      destruct (@gap_and_ratio_status_agree ascii_upper small_table
                  (only ["Jakarta"] 2024 2024 true 1) _ _ 0%nat g q
                  eq_refl eq_refl eq_refl eq_refl) as [Hb [_ Hs]]
  end.
  split; [exact Hb |]. split; [| reflexivity].
  apply (Hs 5100000%Q 3000000%Q); [reflexivity | reflexivity | reflexivity].
Defined.

(** Region X of the growth example, from 100 to 110: both changes are
    positive. *)
Lemma growth_signs_on_example :
  let group :=
    region_group "X"
      (growth_table ascii_upper growth_example (only ["X"] 2020 2022 false 1)) in
  exists a b,
    nth_error group 0 = Some a /\ nth_error group 1 = Some b
    /\ fgtb (PCT_CHANGE b) zero = true /\ fgtb (NOMINAL_CHANGE b) zero = true.
Proof.
  intros group. eexists. eexists.
  split; [vm_compute; reflexivity |]. split; [vm_compute; reflexivity |].
  match goal with
  | |- fgtb (PCT_CHANGE ?b) zero = true /\ _ =>
      destruct (@growth_signs_agree ascii_upper growth_example
                  (only ["X"] 2020 2022 false 1) "X" 0%nat _ b 100%Q 110%Q
                  eq_refl eq_refl eq_refl eq_refl eq_refl) as [H _]
  end.
  split; [rewrite H |]; reflexivity.
Defined.

(** Jakarta picked in the small table. *)
Lemma no_national_row_on_small_table :
  reachable ascii_upper small_table (only ["Jakarta"] 2023 2024 true 2)
  /\ df_prov ascii_upper small_table (only ["Jakarta"] 2023 2024 true 2)
     = filter (isin (selected_prov ascii_upper small_table
                       (only ["Jakarta"] 2023 2024 true 2)))
         (df_year small_table (only ["Jakarta"] 2023 2024 true 2)).
Proof.
  split; [exact jakarta_is_reachable |].
  exact (proj1 (proj2 (@reachable_selection_has_no_national_row ascii_upper small_table
                         (only ["Jakarta"] 2023 2024 true 2) jakarta_is_reachable))).
Defined.

(** Every province of the small table over 2023-2024: two national rows and
    four province rows. *)
Lemma split_on_small_table :
  (length (df_national ascii_upper small_table (all_provinces 2023 2024 true 2))
   + length (df_prov ascii_upper small_table (all_provinces 2023 2024 true 2)))%nat
  = length (df_year small_table (all_provinces 2023 2024 true 2))
  /\ length (df_year small_table (all_provinces 2023 2024 true 2)) = 6%nat.
Proof.
  split; [| reflexivity].
  exact (proj2 (@national_and_provinces_split_the_year ascii_upper small_table
                  (all_provinces 2023 2024 true 2) (or_introl eq_refl))).
Defined.

(** The small table is first shown for 2024, with two rows per ranking. *)
Lemma first_run_on_small_table :
  default_selection ascii_upper small_table = Some (all_provinces 2024 2024 true 2)
  /\ reachable ascii_upper small_table (all_provinces 2024 2024 true 2)
  /\ df_year small_table (all_provinces 2024 2024 true 2) <> [].
Proof.
  split; [reflexivity |].
  destruct (@first_run_shows_the_last_year ascii_upper small_table
              (all_provinces 2024 2024 true 2) eq_refl) as [H1 [H2 _]].
  split; [exact H1 | exact H2].
Defined.

(** Jakarta with the national average over 2023-2024: the growth input
    starts in 2022 and holds the two national and the two Jakarta rows. *)
Lemma growth_input_on_small_table :
  reachable ascii_upper small_table (only ["Jakarta"] 2023 2024 true 2)
  /\ length (growth_filtered ascii_upper small_table (only ["Jakarta"] 2023 2024 true 2))
     = 4%nat
  /\ Permutation (growth_filtered ascii_upper small_table (only ["Jakarta"] 2023 2024 true 2))
       (filter
          (fun r =>
             year_ge r (2023 - 1) && year_le r 2024
             && (isin (selected_prov ascii_upper small_table
                         (only ["Jakarta"] 2023 2024 true 2)) r
                 || (true && is_indonesia ascii_upper r)))
          small_table).
Proof.
  split; [exact jakarta_is_reachable |]. split; [reflexivity |].
  exact (@growth_input_counts_each_record_once ascii_upper small_table
           (only ["Jakarta"] 2023 2024 true 2) jakarta_is_reachable).
Defined.

(** The national cards of the small table over 2023-2024. *)
Lemma national_cards_on_small_table :
  exists k1 k2 k3 k4,
    kpi_cards ascii_upper small_table (all_provinces 2023 2024 true 2) = Ok (k1, k2, k3, k4)
    /\ k1 = Metric "Highest National Average UMR" "Rp 3,000,000" "Year 2024"
    /\ k2 = Metric "Lowest National Average UMR" "Rp 2,800,000" "Year 2023"
    /\ ((df_national ascii_upper small_table (all_provinces 2023 2024 true 2) = []
         /\ k1 = NotAvailable "Highest National Average UMR"
         /\ k2 = NotAvailable "Lowest National Average UMR")
        \/ (exists hi lo value_hi value_lo year_hi year_lo,
               In hi (df_national ascii_upper small_table (all_provinces 2023 2024 true 2))
               /\ In lo (df_national ascii_upper small_table (all_provinces 2023 2024 true 2))
               /\ rupiah (SALARY hi) = Ok value_hi /\ YEAR hi = Some year_hi
               /\ rupiah (SALARY lo) = Ok value_lo /\ YEAR lo = Some year_lo
               /\ k1 = Metric "Highest National Average UMR" value_hi
                         (String.append "Year " (decimal year_hi))
               /\ k2 = Metric "Lowest National Average UMR" value_lo
                         (String.append "Year " (decimal year_lo))
               /\ forall r,
                   In r (df_national ascii_upper small_table
                           (all_provinces 2023 2024 true 2)) ->
                   isna (SALARY r) = false ->
                   fleb (SALARY lo) (SALARY r) = true
                   /\ fleb (SALARY r) (SALARY hi) = true)).
Proof.
  eexists. eexists. eexists. eexists.
  split; [vm_compute; reflexivity |]. split; [reflexivity |]. split; [reflexivity |].
  eapply national_cards_show_the_extremes. vm_compute. reflexivity.
Defined.

(** The provincial cards of the small table over 2023-2024. *)
Lemma provincial_cards_on_small_table :
  exists k1 k2 k3 k4,
    kpi_cards ascii_upper small_table (all_provinces 2023 2024 true 2) = Ok (k1, k2, k3, k4)
    /\ k3 = Metric "Highest Provincial UMR" "Rp 5,100,000" "Jakarta (2024)"
    /\ k4 = Metric "Lowest Provincial UMR" "Rp 2,700,000" "Bali (2023)"
    /\ forall r,
        In r (df_prov ascii_upper small_table (all_provinces 2023 2024 true 2)) ->
        is_indonesia ascii_upper r = false.
Proof.
  eexists. eexists. eexists. eexists.
  split; [vm_compute; reflexivity |]. split; [reflexivity |]. split; [reflexivity |].
  match goal with
  | |- forall r, In r (df_prov _ _ ?sel) -> _ =>
      destruct (@provincial_cards_show_the_extremes ascii_upper small_table sel
                  _ _ _ _ eq_refl)
        as [[E _] | [hi [lo [vhi [vlo [dhi [dlo [_ [_ [_ [_ [_ [_ [_ [_ [H _]]]]]]]]]]]]]]]]
  end.
  - vm_compute in E. discriminate E.
  - intros r Hr. exact (proj1 (H r Hr)).
Defined.

(** The map of the small table for 2023 alone, with the years sorted by
    the stable sort: both provinces, with their salary of 2023. *)
Lemma map_on_small_table :
  (forall l, Permutation (sort_by year_before l) l)
  /\ map fst (df_map ascii_upper (sort_by year_before) small_table
                (only ["Jakarta"] 2023 2023 true 1))
     = ["Bali"; "Jakarta"]
  /\ map fst (df_map ascii_upper (sort_by year_before) small_table
                (only ["Jakarta"] 2023 2023 true 1))
     = prov_list ascii_upper small_table.
Proof.
  split; [exact (sort_by_perm year_before) |].
  split; [reflexivity |].
  exact (proj1 (@map_has_every_province_once ascii_upper (sort_by year_before)
                  (sort_by_perm year_before)
                  small_table (only ["Jakarta"] 2023 2023 true 1))).
Defined.

(** Over 2023-2024 the map shows Jakarta's salary of 2024. *)
Lemma latest_salary_on_small_table :
  In jakarta_2024 (df_filtered ascii_upper small_table (all_provinces 2023 2024 true 2))
  /\ In ("Jakarta", salary 5100000)
       (df_map ascii_upper (sort_by year_before) small_table
          (all_provinces 2023 2024 true 2))
  /\ exists r,
      In r (df_filtered ascii_upper small_table (all_provinces 2023 2024 true 2))
      /\ REGION r = "Jakarta" /\ isna (SALARY r) = false
      /\ In ("Jakarta", SALARY r)
           (df_map ascii_upper (sort_by year_before) small_table
              (all_provinces 2023 2024 true 2))
      /\ forall r',
          In r' (df_filtered ascii_upper small_table (all_provinces 2023 2024 true 2)) ->
          REGION r' = "Jakarta" -> isna (SALARY r') = false -> year_before r' r = true.
Proof.
  assert (Hin : In jakarta_2024
                  (df_filtered ascii_upper small_table (all_provinces 2023 2024 true 2)))
    by (vm_compute; auto).
  split; [exact Hin |]. split; [vm_compute; auto |].
  exact (@map_shows_the_latest_salary ascii_upper (sort_by year_before)
           (sort_by_perm year_before)
           (sort_by_sorted year_before year_before_total year_before_trans)
           small_table (all_provinces 2023 2024 true 2)
           "Jakarta" jakarta_2024 Hin eq_refl eq_refl).
Defined.

(** Jakarta picked with N = 3 over 2023-2024: three rows to rank, one of
    them the national row of 2024 without a salary. *)
Lemma top_table_on_missing_national_table :
  map SALARY (prov_filtered ascii_upper missing_national_table
                (only ["Jakarta"] 2023 2024 true 3))
  = [salary 2800000; NaN; salary 5100000]
  /\ show_ranking
       (nlargest 3 SALARY
          (prov_filtered ascii_upper missing_national_table
             (only ["Jakarta"] 2023 2024 true 3)))
     = Error ValueError.
Proof.
  split; [reflexivity |].
  apply (@missing_salary_breaks_top_table ascii_upper missing_national_table
           (only ["Jakarta"] 2023 2024 true 3) (mk_row "INDONESIA" NaN (Some 2024%Z))).
  - vm_compute. auto.
  - reflexivity.
  - intros r' Hr'. vm_compute in Hr'.
    destruct Hr' as [<- | [<- | [<- | []]]]; reflexivity.
  - vm_compute. apply Nat.leb_le. reflexivity.
Defined.

(** Jakarta picked with N = 2 over 2023-2024 in the gappy table: the row of
    2024 has no GAP and is in the Top table. *)
Lemma gap_table_on_gappy_table :
  exists gaps top bot,
    df_gap ascii_upper gappy_table (only ["Jakarta"] 2023 2024 true 2) = Derived gaps
    /\ map GapFrame.GAP gaps = [salary 2100000; NaN]
    /\ rank_gap ascii_upper gappy_table (only ["Jakarta"] 2023 2024 true 2)
       = Done (Some (top, bot))
    /\ show_gap_ranking top = Error ValueError.
Proof.
  assert (Hr : In jakarta_2024
                 (filter (isin (selected_prov ascii_upper gappy_table
                                  (only ["Jakarta"] 2023 2024 true 2)))
                    (df_year gappy_table (only ["Jakarta"] 2023 2024 true 2))))
    by (vm_compute; auto).
  assert (Hinf : forall r',
             In r' (df_year gappy_table (only ["Jakarta"] 2023 2024 true 2)) ->
             isinf (SALARY r') = false).
  { intros r' Hr'. vm_compute in Hr'.
    destruct Hr' as [<- | [<- | [<- | [<- | []]]]]; reflexivity. }
  eexists.
  match goal with
  | |- exists top bot, df_gap ?u ?t ?sel = Derived ?gaps /\ _ =>
      assert (Hd : df_gap u t sel = Derived gaps) by (vm_compute; reflexivity);
      destruct (@unmatched_year_breaks_gap_table u t sel jakarta_2024 _ Hd Hr eq_refl Hinf)
        as [top [bot [Hrank Hshow]]]
  end.
  - vm_compute. apply Nat.leb_le. reflexivity.
  - exists top, bot. split; [exact Hd |]. split; [reflexivity |].
    split; [exact Hrank | exact Hshow].
Defined.

(** Bali has no salary: the tooltips raise although only Jakarta is
    picked. *)
Lemma tooltips_on_missing_province_table :
  tooltip_data ascii_upper missing_province_table (only ["Jakarta"] 2024 2024 true 1)
  = Some (Error ValueError).
Proof.
  destruct (tooltip_data ascii_upper missing_province_table
              (only ["Jakarta"] 2024 2024 true 1)) as [tips |] eqn:E;
    [| vm_compute in E; discriminate E].
  f_equal.
  refine (proj1 (@tooltips_need_every_salary ascii_upper missing_province_table
                   (only ["Jakarta"] 2024 2024 true 1) tips E _) _).
  - intros r Hr. vm_compute in Hr. destruct Hr as [<- | [<- | []]]; reflexivity.
  - exists (mk_row "Bali" NaN (Some 2024%Z)). split; [vm_compute; auto | reflexivity].
Defined.

(** Bali has records and no salary: the heatmap has a row for Jakarta
    alone. *)
Lemma heatmap_on_missing_province_table :
  exists m,
    heat_data ascii_upper missing_province_table (all_provinces 2023 2024 false 2) = Some m
    /\ map fst m = ["Jakarta"]
    /\ NoDup (map fst m)
    /\ forall region,
        In region (map fst m) ->
        exists r,
          In r (df_heat ascii_upper missing_province_table
                  (all_provinces 2023 2024 false 2))
          /\ REGION r = region /\ isna (SALARY r) = false.
Proof.
  eexists. split; [vm_compute; reflexivity |]. split; [reflexivity |].
  match goal with
  | |- NoDup (map fst ?m) /\ _ =>
      destruct (@heatmap_rows_have_a_salary ascii_upper missing_province_table
                  (all_provinces 2023 2024 false 2) m eq_refl) as [H1 [H2 _]]
  end.
  split; [exact H1 | exact H2].
Defined.
